(** * The bitmap:port set type (kernel/ip_set_bitmap_port.c)

    A shallow embedding of the two variants of the bitmap:port set type:
    the plain bitmap (one presence bit per port of the range) and the
    timeout variant (one expiry word per port), with the operations the
    module exports through its variant tables: kadt, uadt, list, same_set,
    flush, and the garbage collector of the timeout variant.

    Integers of the C code are [Z]; a value stored in a [u16] is reduced
    modulo 2^16 where the C code stores it.  The bitmap is a [Z] read and
    written with [Z.testbit], [Z.setbit] and [Z.clearbit]; the array of
    expiry words is a [list Z] indexed by [port - first_port]. *)

From stdpp Require Import base decidable option list list_numbers sorting.
From Stdlib Require Import ZArith Lia Bool.

Local Open Scope Z_scope.

(** ** Return values *)

(** The error codes the file returns (negated).  Their numeric values live
    in ip_set.h, ip_set_bitmap.h and errno.h; only their being distinct
    codes matters here. *)
Inductive errno : Set :=
  | EINVAL
  | EFAULT
  | IPSET_ERR_PROTOCOL
  | IPSET_ERR_EXIST
  | IPSET_ERR_TIMEOUT
  | IPSET_ERR_BITMAP_RANGE.

(** An [int] result: a non-negative value [Ret v] (0 for success, 1 for a
    positive test), or [Neg e] for [-e]. *)
Inductive retval : Set :=
  | Ret (v : Z)
  | Neg (e : errno).

#[global] Instance errno_eq_dec : EqDecision errno.
Proof. solve_decision. Defined.

#[global] Instance retval_eq_dec : EqDecision retval.
Proof. solve_decision. Defined.

(** [if (ret)] on an [int]. *)
Definition nonzero (ret : retval) : bool :=
  match ret with
  | Ret v => negb (v =? 0)
  | Neg _ => true
  end.

(** enum ipset_adt; [IPSET_ADT_MAX] stands for every value that is none of
    the three commands. *)
Inductive ipset_adt : Set :=
  | IPSET_ADD
  | IPSET_DEL
  | IPSET_TEST
  | IPSET_ADT_MAX.

#[global] Instance ipset_adt_eq_dec : EqDecision ipset_adt.
Proof. solve_decision. Defined.

(** Truncation on assignment to a [u16]. *)
Definition u16 (z : Z) : Z := z mod 65536.

(** A value passed as a [u32]. *)
Definition u32 (z : Z) : Z := z mod 4294967296.

(** ** Kernel bit operations on the bitmap *)

Definition test_bit (nr : Z) (addr : Z) : bool := Z.testbit addr nr.

Definition test_and_set_bit (nr : Z) (addr : Z) : bool * Z :=
  (Z.testbit addr nr, Z.setbit addr nr).

Definition test_and_clear_bit (nr : Z) (addr : Z) : bool * Z :=
  (Z.testbit addr nr, Z.clearbit addr nr).

(** ** Netlink attributes of a request, after nla_parse *)

(** One attribute: its NLA_F_NET_BYTEORDER flag and its payload, already
    converted to host byte order. *)
Record nlattr : Set := mk_nlattr {
  nla_netorder : bool;
  nla_value : Z
}.

(** The table [tb] filled by [nla_parse] with [bitmap_port_adt_policy]:
    every entry is absent ([None], a NULL pointer) or present. *)
Record adt_attrs : Set := mk_adt_attrs {
  ATTR_PORT : option nlattr;
  ATTR_PORT_TO : option nlattr;
  ATTR_TIMEOUT : option nlattr;
  ATTR_LINENO : option nlattr
}.

(** Modelled from the spec: ip_set_attr_netorder of ip_set.h, which is not
    in the tree under study.  A mandatory attribute is well formed when it
    is present and flagged as network byte order; anything else is the
    malformed request that section 4.2 answers with ProtocolError. *)
Definition ip_set_attr_netorder (a : option nlattr) : bool :=
  match a with
  | Some a => nla_netorder a
  | None => false
  end.

(** Modelled from the spec: ip_set_optattr_netorder of ip_set.h, which is
    not in the tree under study.  An optional attribute is well formed when
    it is absent, or present and flagged as network byte order. *)
Definition ip_set_optattr_netorder (a : option nlattr) : bool :=
  match a with
  | Some a => nla_netorder a
  | None => true
  end.

(** Modelled from the spec: ip_set_get_h16 of ip_set.h, which is not in the
    tree under study: the 16-bit payload in host byte order.  Reading
    through a NULL pointer does not occur: the code reads an attribute only
    after it has checked that it is present. *)
Definition ip_set_get_h16 (a : option nlattr) : Z :=
  match a with
  | Some a => u16 (nla_value a)
  | None => 0
  end.

(** nla_get_u32 of the kernel's netlink library. *)
Definition nla_get_u32 (a : nlattr) : Z := nla_value a mod 4294967296.

(** Modelled from the spec: the flag bit of ip_set.h, which is not in the
    tree under study, by which the caller asks that an AlreadyExists be
    passed over (section 7: AlreadyExists is optionally swallowed). *)
Definition IPSET_FLAG_BIT_EXIST : Z := 0.

(** Modelled from the spec: ip_set_eexist of ip_set.h, which is not in the
    tree under study.  Sections 4.2 and 7: only an AlreadyExists result is
    ever swallowed, and the flags of the caller decide whether it is. *)
Definition ip_set_eexist (ret : retval) (flags : Z) : bool :=
  match ret with
  | Neg IPSET_ERR_EXIST => Z.testbit flags IPSET_FLAG_BIT_EXIST
  | _ => false
  end.

(** ** The timeout helpers of ip_set_timeout.h *)

(** Modelled from the spec: IPSET_ELEM_UNSET of ip_set_timeout.h, which is
    not in the tree under study: the sentinel of section 3, the zero word
    (the word [bitmap_port_timeout_flush] writes with memset). *)
Definition IPSET_ELEM_UNSET : Z := 0.

(** The helpers [ip_set_timeout.h] defines under [IP_SET_BITMAP_TIMEOUT];
    the header is not in the tree under study, so the code of the timeout
    variant is embedded over this interface.  Each helper that reads the
    clock takes the current [jiffies] as its first argument. *)
Class timeout_ops : Type := mk_timeout_ops {
  ip_set_timeout_test : Z -> Z -> bool;
  ip_set_timeout_expired : Z -> Z -> bool;
  ip_set_timeout_set : Z -> Z -> Z;
  ip_set_timeout_get : Z -> Z -> Z;
  ip_set_timeout_uget : nlattr -> Z
}.

(** Modelled from the spec: ip_set_timeout_test of ip_set_timeout.h.
    Section 4.1 fixes the lazy reading: a timed slot tests true when it
    holds any value other than the sentinel; the clock is not consulted. *)
Definition spec_timeout_test (jiffies slot : Z) : bool :=
  negb (slot =? IPSET_ELEM_UNSET).

(** Modelled from the spec: ip_set_timeout_expired of ip_set_timeout.h.
    Section 4.3: a slot is reclaimed when it holds a value other than the
    sentinel whose expiry instant is at or before now. *)
Definition spec_timeout_expired (jiffies slot : Z) : bool :=
  negb (slot =? IPSET_ELEM_UNSET) && (slot <=? jiffies).

(** Modelled from the spec: ip_set_timeout_set of ip_set_timeout.h.
    Section 4.2: a successful add writes now + timeout. *)
Definition spec_timeout_set (jiffies timeout : Z) : Z :=
  jiffies + timeout.

(** Modelled from the spec: ip_set_timeout_get of ip_set_timeout.h.
    Section 4.4: the remaining timeout of a listed entry. *)
Definition spec_timeout_get (jiffies slot : Z) : Z :=
  slot - jiffies.

(** Modelled from the spec: ip_set_timeout_uget of ip_set_timeout.h.
    Section 6: the timeout attribute is a u32 number of seconds. *)
Definition spec_timeout_uget (a : nlattr) : Z :=
  nla_value a mod 4294967296.

Definition spec_timeout_ops : timeout_ops :=
  mk_timeout_ops spec_timeout_test spec_timeout_expired spec_timeout_set
                 spec_timeout_get spec_timeout_uget.




(** ** Base variant *)

Record bitmap_port : Set := mk_bitmap_port {
  members : Z;       (* the set members: bit [id] is port [first_port + id] *)
  first_port : Z;    (* host byte order, included in range *)
  last_port : Z;     (* host byte order, included in range *)
  memsize : Z        (* members size *)
}.

Definition set_members (map : bitmap_port) (m : Z) : bitmap_port :=
  mk_bitmap_port m (first_port map) (last_port map) (memsize map).

Definition bitmap_port_test (map : bitmap_port) (id : Z) : retval :=
  Ret (Z.b2z (test_bit id (members map))).

Definition bitmap_port_add (map : bitmap_port) (id : Z)
  : retval * bitmap_port :=
  let '(old, m) := test_and_set_bit id (members map) in
  if old then (Neg IPSET_ERR_EXIST, set_members map m)
  else (Ret 0, set_members map m).

Definition bitmap_port_del (map : bitmap_port) (id : Z)
  : retval * bitmap_port :=
  let '(old, m) := test_and_clear_bit id (members map) in
  if negb old then (Neg IPSET_ERR_EXIST, set_members map m)
  else (Ret 0, set_members map m).

(** [skb_port] is what [ip_set_get_ip_port] extracts from the packet:
    [None] when it fails, else the port, converted by [ntohs]. *)
Definition bitmap_port_kadt (map : bitmap_port) (skb_port : option Z)
    (adt : ipset_adt) : retval * bitmap_port :=
  match skb_port with
  | None => (Neg EINVAL, map)
  | Some p =>
    let port := u16 p in
    if (port <? first_port map) || (port >? last_port map)
    then (Neg IPSET_ERR_BITMAP_RANGE, map)
    else
      let port := u16 (port - first_port map) in
      match adt with
      | IPSET_TEST => (bitmap_port_test map port, map)
      | IPSET_ADD => bitmap_port_add map port
      | IPSET_DEL => bitmap_port_del map port
      | _ => (Neg EINVAL, map)
      end
  end.

(** The loop that ends both uadt functions,
    [for (; port <= port_to; port++)], run for [n] more iterations: [op] is
    the add or delete of the variant on the slot [id]. *)
Section uadt_loop.
Context {M : Type}.
Variable op : M -> Z -> retval * M.
Variable first : Z.
Variable flags : Z.

Fixpoint uadt_for (n : nat) (port : Z) (map : M) : retval * M :=
  match n with
  | O => (Ret 0, map)
  | S n' =>
    let id := u16 (port - first) in
    let '(ret, map') := op map id in
    if nonzero ret && negb (ip_set_eexist ret flags)
    then (ret, map')
    else uadt_for n' (port + 1) map'
  end.
End uadt_loop.

(** The test that ends the loop early,
    [ret && !ip_set_eexist(ret, flags)]. *)
Definition fatal (flags : Z) (ret : retval) : bool :=
  nonzero ret && negb (ip_set_eexist ret flags).

(** What the members of a range go through, one after the other: the map
    after the operation on the first [n] ports from [port] on, and the
    result of the operation on the port number [k] of the range when it
    comes after the [k] ports before it. *)
Section members_of_a_range.
Context {M : Type}.
Variable op : M -> Z -> retval * M.
Variable first : Z.

Fixpoint applied (n : nat) (port : Z) (map : M) : M :=
  match n with
  | O => map
  | S n' => applied n' (port + 1) (op map (u16 (port - first))).2
  end.

Definition member_ret (k : nat) (port : Z) (map : M) : retval :=
  (op (applied k port map) (u16 (port + Z.of_nat k - first))).1.
End members_of_a_range.

(** Number of iterations of [for (; port <= port_to; port++)]. *)
Definition iterations (port port_to : Z) : nat := Z.to_nat (port_to + 1 - port).

(** The endpoints after the optional swap, and whether the check of the
    swapped low end, [port < map->first_port], fired. *)
Definition range_ends (tb : adt_attrs) (port first : Z) : Z * Z * bool :=
  match ATTR_PORT_TO tb with
  | Some _ =>
    let port_to := ip_set_get_h16 (ATTR_PORT_TO tb) in
    if port >? port_to
    then (port_to, u16 port, port_to <? first)   (* swap(port, port_to) *)
    else (port, port_to, false)
  | None => (port, u16 port, false)
  end.

(** [adt == IPSET_ADD ? bitmap_port_add(map, id) : bitmap_port_del(map, id)] *)
Definition bitmap_port_adt (adt : ipset_adt) (map : bitmap_port) (id : Z)
  : retval * bitmap_port :=
  if bool_decide (adt = IPSET_ADD) then bitmap_port_add map id
  else bitmap_port_del map id.

(** [if (tb[IPSET_ATTR_LINENO]) *lineno = nla_get_u32(...)] *)
Definition new_lineno (tb : adt_attrs) (lineno : Z) : Z :=
  match ATTR_LINENO tb with
  | Some a => nla_get_u32 a
  | None => lineno
  end.

(** The result carries the map and [*lineno] as the call leaves them. *)
Definition bitmap_port_uadt (map : bitmap_port) (tb : option adt_attrs)
    (adt : ipset_adt) (lineno : Z) (flags : Z)
  : retval * bitmap_port * Z :=
  match tb with
  | None => (Neg IPSET_ERR_PROTOCOL, map, lineno)   (* nla_parse failed *)
  | Some tb =>
    if negb (ip_set_attr_netorder (ATTR_PORT tb))
       || negb (ip_set_optattr_netorder (ATTR_PORT_TO tb))
    then (Neg IPSET_ERR_PROTOCOL, map, lineno)
    else
      let lineno := new_lineno tb lineno in
      let port := ip_set_get_h16 (ATTR_PORT tb) in
      if (port <? first_port map) || (port >? last_port map)
      then (Neg IPSET_ERR_BITMAP_RANGE, map, lineno)
      else if bool_decide (is_Some (ATTR_TIMEOUT tb))
      then (Neg IPSET_ERR_TIMEOUT, map, lineno)
      else if bool_decide (adt = IPSET_TEST)
      then (bitmap_port_test map (u16 (port - first_port map)), map, lineno)
      else
        let '(port, port_to, below) := range_ends tb port (first_port map) in
        if below
        then (Neg IPSET_ERR_BITMAP_RANGE, map, lineno)
        else if port_to >? last_port map
        then (Neg IPSET_ERR_BITMAP_RANGE, map, lineno)
        else
          let '(ret, map') :=
            uadt_for (bitmap_port_adt adt) (first_port map) flags
                     (iterations port port_to) port map in
          (ret, map', lineno)
  end.

Definition bitmap_port_flush (map : bitmap_port) : bitmap_port :=
  set_members map 0.

(** ** Timeout variant *)

(** The fields the two structures share carry a [t] here, the plain record
    owning the names of the C code. *)
Record bitmap_port_timeout : Set := mk_bitmap_port_timeout {
  tmembers : list Z;   (* the set members: one expiry word per port *)
  tfirst_port : Z;     (* host byte order, included in range *)
  tlast_port : Z;      (* host byte order, included in range *)
  tmemsize : Z;        (* members size *)
  timeout : Z          (* timeout parameter *)
}.

Definition set_tmembers (map : bitmap_port_timeout) (t : list Z)
  : bitmap_port_timeout :=
  mk_bitmap_port_timeout t (tfirst_port map) (tlast_port map) (tmemsize map)
                         (timeout map).

(** [map->members[id]] *)
Definition slot (map : bitmap_port_timeout) (id : Z) : Z :=
  tmembers map !!! Z.to_nat id.

(** [map->members[id] = v] *)
Definition set_slot (map : bitmap_port_timeout) (id : Z) (v : Z)
  : bitmap_port_timeout :=
  set_tmembers map (<[Z.to_nat id := v]> (tmembers map)).

Section timeout_variant.
Context {ops : timeout_ops}.
Variable jiffies : Z.

Definition bitmap_port_timeout_test (map : bitmap_port_timeout) (id : Z)
  : bool :=
  ip_set_timeout_test jiffies (slot map id).

Definition bitmap_port_timeout_add (map : bitmap_port_timeout) (id : Z)
    (timeout : Z) : retval * bitmap_port_timeout :=
  if bitmap_port_timeout_test map id
  then (Neg IPSET_ERR_EXIST, map)
  else (Ret 0, set_slot map id (ip_set_timeout_set jiffies timeout)).

Definition bitmap_port_timeout_del (map : bitmap_port_timeout) (id : Z)
  : retval * bitmap_port_timeout :=
  let ret := if bitmap_port_timeout_test map id then Ret 0
             else Neg IPSET_ERR_EXIST in
  (ret, set_slot map id IPSET_ELEM_UNSET).

Definition bitmap_port_timeout_kadt (map : bitmap_port_timeout)
    (skb_port : option Z) (adt : ipset_adt)
  : retval * bitmap_port_timeout :=
  match skb_port with
  | None => (Neg EINVAL, map)
  | Some p =>
    let port := u16 p in
    if (port <? tfirst_port map) || (port >? tlast_port map)
    then (Neg IPSET_ERR_BITMAP_RANGE, map)
    else
      let port := u16 (port - tfirst_port map) in
      match adt with
      | IPSET_TEST => (Ret (Z.b2z (bitmap_port_timeout_test map port)), map)
      | IPSET_ADD => bitmap_port_timeout_add map port (timeout map)
      | IPSET_DEL => bitmap_port_timeout_del map port
      | _ => (Neg EINVAL, map)
      end
  end.

(** [adt == IPSET_ADD ? bitmap_port_timeout_add(map, id, timeout)
                       : bitmap_port_timeout_del(map, id)] *)
Definition bitmap_port_timeout_adt (adt : ipset_adt) (timeout : Z)
    (map : bitmap_port_timeout) (id : Z) : retval * bitmap_port_timeout :=
  if bool_decide (adt = IPSET_ADD)
  then bitmap_port_timeout_add map id timeout
  else bitmap_port_timeout_del map id.

Definition bitmap_port_timeout_uadt (map : bitmap_port_timeout)
    (tb : option adt_attrs) (adt : ipset_adt) (lineno : Z) (flags : Z)
  : retval * bitmap_port_timeout * Z :=
  match tb with
  | None => (Neg IPSET_ERR_PROTOCOL, map, lineno)   (* nla_parse failed *)
  | Some tb =>
    if negb (ip_set_attr_netorder (ATTR_PORT tb))
       || negb (ip_set_optattr_netorder (ATTR_PORT_TO tb))
       || negb (ip_set_optattr_netorder (ATTR_TIMEOUT tb))
    then (Neg IPSET_ERR_PROTOCOL, map, lineno)
    else
      let lineno := new_lineno tb lineno in
      let port := ip_set_get_h16 (ATTR_PORT tb) in
      if (port <? tfirst_port map) || (port >? tlast_port map)
      then (Neg IPSET_ERR_BITMAP_RANGE, map, lineno)
      else if bool_decide (adt = IPSET_TEST)
      then (Ret (Z.b2z (bitmap_port_timeout_test map
                          (u16 (port - tfirst_port map)))), map, lineno)
      else
        let '(port, port_to, below) :=
          range_ends tb port (tfirst_port map) in
        if below
        then (Neg IPSET_ERR_BITMAP_RANGE, map, lineno)
        else if port_to >? tlast_port map
        then (Neg IPSET_ERR_BITMAP_RANGE, map, lineno)
        else
          let timeout :=
            match ATTR_TIMEOUT tb with
            | Some a => ip_set_timeout_uget a
            | None => timeout map
            end in
          let '(ret, map') :=
            uadt_for (bitmap_port_timeout_adt adt timeout)
                     (tfirst_port map) flags (iterations port port_to)
                     port map in
          (ret, map', lineno)
  end.

(** The scan of [bitmap_port_gc], [for (id = 0; id <= last; id++)], run
    for [n] more iterations.  Rearming the timer is outside the model. *)
Fixpoint gc_for (n : nat) (id : Z) (table : list Z) : list Z :=
  match n with
  | O => table
  | S n' =>
    let table' :=
      if ip_set_timeout_expired jiffies (table !!! Z.to_nat id)
      then <[Z.to_nat id := IPSET_ELEM_UNSET]> table
      else table in
    gc_for n' (id + 1) table'
  end.

Definition bitmap_port_gc (map : bitmap_port_timeout)
  : bitmap_port_timeout :=
  let last := u16 (tlast_port map - tfirst_port map) in
  set_tmembers map (gc_for (iterations 0 last) 0 (tmembers map)).
End timeout_variant.

Definition bitmap_port_timeout_flush (map : bitmap_port_timeout)
  : bitmap_port_timeout :=
  set_tmembers map (replicate (length (tmembers map)) 0).

(** The ports [lo], [lo + 1], ..., [hi]. *)
Definition ports (lo hi : Z) : list Z := seqZ lo (hi + 1 - lo).

(** ** Listing *)

(** The attribute types the listing writes. *)
Inductive ipset_attr : Set :=
  | IPSET_ATTR_ADT
  | IPSET_ATTR_DATA
  | IPSET_ATTR_PORT
  | IPSET_ATTR_TIMEOUT.

#[global] Instance ipset_attr_eq_dec : EqDecision ipset_attr.
Proof. solve_decision. Defined.

(** What a netlink message under construction is made of: the header that
    opens a nested attribute, the point where the nest is closed, and
    16-bit and 32-bit attributes (payloads shown in host byte order). *)
Inductive nlitem : Set :=
  | NestStart (ty : ipset_attr)
  | NestEnd
  | Net16 (ty : ipset_attr) (v : Z)
  | Net32 (ty : ipset_attr) (v : Z).

#[global] Instance nlitem_eq_dec : EqDecision nlitem.
Proof. solve_decision. Defined.

(** The message buffer: what has been written, and the room left in it,
    in bytes. *)
Record sk_buff : Set := mk_sk_buff {
  skb_data : list nlitem;
  skb_tailroom : Z
}.

(** nla_total_size: a 4-byte attribute header and the payload padded to a
    multiple of 4. *)
Definition nla_total_size (payload : Z) : Z := 4 + 4 * ((payload + 3) / 4).

Definition nla_put (skb : sk_buff) (item : nlitem) (payload : Z)
  : option sk_buff :=
  if skb_tailroom skb <? nla_total_size payload then None
  else Some (mk_sk_buff (skb_data skb ++ [item])
                        (skb_tailroom skb - nla_total_size payload)).

(** ipset_nest_start: the header of the nest is put, and the place where
    it starts is returned with the buffer; [None] is the NULL of a full
    buffer.  The place is kept as the buffer before the nest. *)
Definition ipset_nest_start (skb : sk_buff) (ty : ipset_attr)
  : option (sk_buff * sk_buff) :=
  match nla_put skb (NestStart ty) 0 with
  | Some skb' => Some (skb, skb')
  | None => None
  end.

(** ipset_nest_end: the length of the nest is filled in; no room is
    needed. *)
Definition ipset_nest_end (skb : sk_buff) : sk_buff :=
  mk_sk_buff (skb_data skb ++ [NestEnd]) (skb_tailroom skb).

(** nla_nest_cancel: the buffer is trimmed back to where the nest started;
    with a NULL start nothing is done. *)
Definition nla_nest_cancel (skb : sk_buff) (start : option sk_buff)
  : sk_buff :=
  match start with
  | Some before => before
  | None => skb
  end.

Definition nla_put_net16 (skb : sk_buff) (ty : ipset_attr) (v : Z)
  : option sk_buff := nla_put skb (Net16 ty v) 2.

Definition nla_put_net32 (skb : sk_buff) (ty : ipset_attr) (v : Z)
  : option sk_buff := nla_put skb (Net32 ty v) 4.

(** The loop of [bitmap_port_list],
    [for (; cb->args[2] <= last; cb->args[2]++)], run for [n] more
    iterations; [atd] is the start of the outer nest, [first] the cursor
    the call began with.  The result carries the buffer and [cb->args[2]]
    as the call leaves them. *)
Fixpoint bitmap_port_list_for (map : bitmap_port) (first : Z)
    (atd : sk_buff) (n : nat) (skb : sk_buff) (cursor : Z)
  : retval * sk_buff * Z :=
  match n with
  | O => (Ret 0, ipset_nest_end skb, 0)   (* set listing finished *)
  | S n' =>
    let id := u16 cursor in
    if negb (test_bit id (members map))
    then bitmap_port_list_for map first atd n' skb (cursor + 1)
    else
      match ipset_nest_start skb IPSET_ATTR_DATA with
      | None =>
        if id =? first
        then (Neg EFAULT, nla_nest_cancel skb (Some atd), cursor)
        else (Ret 0, ipset_nest_end (nla_nest_cancel skb None), cursor)
      | Some (nested, skb1) =>
        match nla_put_net16 skb1 IPSET_ATTR_PORT
                (u16 (first_port map + id)) with
        | None =>
          (Ret 0, ipset_nest_end (nla_nest_cancel skb1 (Some nested)), cursor)
        | Some skb2 =>
          bitmap_port_list_for map first atd n' (ipset_nest_end skb2)
                               (cursor + 1)
        end
      end
  end.

Definition bitmap_port_list (map : bitmap_port) (skb : sk_buff)
    (cursor : Z) : retval * sk_buff * Z :=
  let first := u16 cursor in
  let last := u16 (last_port map - first_port map) in
  match ipset_nest_start skb IPSET_ATTR_ADT with
  | None => (Neg EFAULT, skb, cursor)
  | Some (atd, skb') =>
    bitmap_port_list_for map first atd (iterations cursor last) skb' cursor
  end.

Section timeout_listing.
Context {ops : timeout_ops}.
Variable jiffies : Z.

Fixpoint bitmap_port_timeout_list_for (map : bitmap_port_timeout)
    (first : Z) (adt : sk_buff) (n : nat) (skb : sk_buff) (cursor : Z)
  : retval * sk_buff * Z :=
  match n with
  | O => (Ret 0, ipset_nest_end skb, 0)   (* set listing finished *)
  | S n' =>
    let id := u16 cursor in
    if negb (bitmap_port_timeout_test jiffies map id)
    then bitmap_port_timeout_list_for map first adt n' skb (cursor + 1)
    else
      match ipset_nest_start skb IPSET_ATTR_DATA with
      | None =>
        if id =? first
        then (Neg EFAULT, nla_nest_cancel skb (Some adt), cursor)
        else (Ret 0, ipset_nest_end (nla_nest_cancel skb None), cursor)
      | Some (nested, skb1) =>
        match nla_put_net16 skb1 IPSET_ATTR_PORT
                (u16 (tfirst_port map + id)) with
        | None =>
          (Ret 0, ipset_nest_end (nla_nest_cancel skb1 (Some nested)),
           cursor)
        | Some skb2 =>
          match nla_put_net32 skb2 IPSET_ATTR_TIMEOUT
                  (u32 (ip_set_timeout_get jiffies (slot map id))) with
          | None =>
            (Ret 0, ipset_nest_end (nla_nest_cancel skb2 (Some nested)),
             cursor)
          | Some skb3 =>
            bitmap_port_timeout_list_for map first adt n'
              (ipset_nest_end skb3) (cursor + 1)
          end
        end
      end
  end.

Definition bitmap_port_timeout_list (map : bitmap_port_timeout)
    (skb : sk_buff) (cursor : Z) : retval * sk_buff * Z :=
  let first := u16 cursor in
  let last := u16 (tlast_port map - tfirst_port map) in
  match ipset_nest_start skb IPSET_ATTR_ADT with
  | None => (Neg EFAULT, skb, cursor)
  | Some (adt, skb') =>
    bitmap_port_timeout_list_for map first adt (iterations cursor last)
                                 skb' cursor
  end.
End timeout_listing.

(** The ports a message lists, in the order it lists them. *)
Definition listed_ports (items : list nlitem) : list Z :=
  flat_map (fun item =>
              match item with
              | Net16 IPSET_ATTR_PORT v => [v]
              | _ => []
              end) items.

(** The ports of the set whose test answers 1. *)
Definition present_ports (map : bitmap_port) : list Z :=
  filter (fun p => bitmap_port_test map (p - first_port map) = Ret 1)
         (ports (first_port map) (last_port map)).

Definition present_timeout_ports {ops : timeout_ops} (jiffies : Z)
    (map : bitmap_port_timeout) : list Z :=
  filter (fun p =>
            bitmap_port_timeout_test jiffies map (p - tfirst_port map) = true)
         (ports (tfirst_port map) (tlast_port map)).

(** What the listing writes for one member: on a plain set the port, on
    a timed set the port and what is left of its timeout, the 32 bits that
    [htonl] is given. *)
Definition port_entry (p : Z) : list nlitem :=
  [NestStart IPSET_ATTR_DATA; Net16 IPSET_ATTR_PORT p; NestEnd].

Definition timeout_entry {ops : timeout_ops} (jiffies : Z)
    (map : bitmap_port_timeout) (p : Z) : list nlitem :=
  [NestStart IPSET_ATTR_DATA; Net16 IPSET_ATTR_PORT p;
   Net32 IPSET_ATTR_TIMEOUT
         (u32 (ip_set_timeout_get jiffies (slot map (p - tfirst_port map))));
   NestEnd].

(** ** Set descriptors *)

(** [set->data]: a map of one of the two variants. *)
Inductive set_data : Set :=
  | DataPort (map : bitmap_port)
  | DataTimeout (map : bitmap_port_timeout).

Record ip_set : Set := mk_ip_set {
  data : set_data
}.

(** The two bounds are the leading fields of both structures, which is what
    [bitmap_port_create] relies on when it hands a [bitmap_port_timeout] to
    [init_map_port] as a [bitmap_port]; they can be read through either
    pointer type. *)
Definition data_first_port (d : set_data) : Z :=
  match d with
  | DataPort m => first_port m
  | DataTimeout m => tfirst_port m
  end.

Definition data_last_port (d : set_data) : Z :=
  match d with
  | DataPort m => last_port m
  | DataTimeout m => tlast_port m
  end.

(** The [timeout] field exists in the timeout variant only; read through a
    [bitmap_port_timeout] pointer to a plain map it lies past the end of
    the structure, which the model leaves undefined. *)
Definition data_timeout (d : set_data) : option Z :=
  match d with
  | DataPort _ => None
  | DataTimeout m => Some (timeout m)
  end.

Definition bitmap_port_same_set (a b : ip_set) : bool :=
  (data_first_port (data a) =? data_first_port (data b))
  && (data_last_port (data a) =? data_last_port (data b)).

(** [None] when one of the two reads of [timeout] is undefined. *)
Definition bitmap_port_timeout_same_set (a b : ip_set) : option bool :=
  match data_timeout (data a), data_timeout (data b) with
  | Some tx, Some ty =>
    Some ((data_first_port (data a) =? data_first_port (data b))
          && (data_last_port (data a) =? data_last_port (data b))
          && (tx =? ty))
  | _, _ => None
  end.

(** The call [a->variant->same_set(a, b)]: the variant of [a] chooses the
    function. *)
Definition same_set (a b : ip_set) : option bool :=
  match data a with
  | DataPort _ => Some (bitmap_port_same_set a b)
  | DataTimeout _ => bitmap_port_timeout_same_set a b
  end.

(** The timeout policy of a descriptor, in the words of section 3: none,
    or the default timeout. *)
Definition timeout_policy (s : ip_set) : option Z := data_timeout (data s).

(** The two results of a member operation: success, or -IPSET_ERR_EXIST
    for an add on a present member and a delete on an absent one. *)
Definition exist_or_ok (ret : retval) : Prop :=
  ret = Ret 0 \/ ret = Neg IPSET_ERR_EXIST.

(** ** Well-formed sets and requests *)

(** What [bitmap_port_create] establishes: the bounds are 16-bit and in
    order. *)
Definition wf_map (map : bitmap_port) : Prop :=
  0 <= first_port map /\ first_port map <= last_port map
  /\ last_port map <= 65535.

(** For the timeout variant the array has one word per port of the range. *)
Definition wf_tmap (map : bitmap_port_timeout) : Prop :=
  0 <= tfirst_port map /\ tfirst_port map <= tlast_port map
  /\ tlast_port map <= 65535
  /\ length (tmembers map) = Z.to_nat (tlast_port map - tfirst_port map + 1).

(** A request that passes the attribute checks of both uadt functions and
    whose port attribute carries [port]. *)
Definition request_for (tb : adt_attrs) (port : Z) : Prop :=
  ATTR_PORT tb = Some (mk_nlattr true port)
  /\ ip_set_optattr_netorder (ATTR_PORT_TO tb) = true
  /\ ip_set_optattr_netorder (ATTR_TIMEOUT tb) = true.

(** The request [tb] with its timeout attribute taken out. *)
Definition without_timeout (tb : adt_attrs) : adt_attrs :=
  mk_adt_attrs (ATTR_PORT tb) (ATTR_PORT_TO tb) None (ATTR_LINENO tb).

(** A set of the scenario of section 8: ports 1000 to 1010, timeout 5, with
    the slots of 1002 and 1005 occupied by the expiry instants 40 and 90. *)
Definition tmap_1000_1010 : bitmap_port_timeout :=
  mk_bitmap_port_timeout [0; 0; 40; 0; 0; 90; 0; 0; 0; 0; 0] 1000 1010 88 5.

(** The plain set over the same range holding the ports 1002 and 1005. *)
Definition map_1000_1010 : bitmap_port :=
  mk_bitmap_port 36 1000 1010 2.

(** A request carrying one port and nothing else. *)
Definition single (port : Z) : adt_attrs :=
  mk_adt_attrs (Some (mk_nlattr true port)) None None None.

(** A request carrying both ends of a range. *)
Definition range (port port_to : Z) : adt_attrs :=
  mk_adt_attrs (Some (mk_nlattr true port)) (Some (mk_nlattr true port_to))
               None None.

(** The request [tb] with the timeout attribute [t] added. *)
Definition with_timeout (tb : adt_attrs) (t : Z) : adt_attrs :=
  mk_adt_attrs (ATTR_PORT tb) (ATTR_PORT_TO tb) (Some (mk_nlattr true t))
               (ATTR_LINENO tb).



(** The request for the one port [p] that goes with the range request
    [tb]: same timeout and line number attributes, no second port. *)
Definition single_of (tb : adt_attrs) (p : Z) : adt_attrs :=
  mk_adt_attrs (Some (mk_nlattr true p)) None (ATTR_TIMEOUT tb)
               (ATTR_LINENO tb).

(** A range request that passes the attribute checks, from [p] to [q]. *)
Definition range_request (tb : adt_attrs) (p q : Z) : Prop :=
  ATTR_PORT tb = Some (mk_nlattr true p)
  /\ ATTR_PORT_TO tb = Some (mk_nlattr true q)
  /\ ip_set_optattr_netorder (ATTR_TIMEOUT tb) = true.

(** In the words of section 8: add(p) issued for one port after the other,
    whatever each call returns. *)
Definition sequential_adds (map : bitmap_port) (tb : adt_attrs)
    (lo hi lineno flags : Z) : bitmap_port :=
  foldl (fun m p =>
           (bitmap_port_uadt m (Some (single_of tb p)) IPSET_ADD
                             lineno flags).1.2)
        map (ports lo hi).

Definition sequential_timeout_adds {ops : timeout_ops} (jiffies : Z)
    (map : bitmap_port_timeout) (tb : adt_attrs) (lo hi lineno flags : Z)
  : bitmap_port_timeout :=
  foldl (fun m p =>
           (bitmap_port_timeout_uadt jiffies m (Some (single_of tb p))
                                     IPSET_ADD lineno flags).1.2)
        map (ports lo hi).

(** Two descriptors of the same variant: both plain, or both timed. *)
Definition same_variant (a b : ip_set) : Prop :=
  match data a, data b with
  | DataPort _, DataPort _ => True
  | DataTimeout _, DataTimeout _ => True
  | _, _ => False
  end.

(** The two sets of the examples as descriptors. *)
Definition plain_set_1000_1010 : ip_set := mk_ip_set (DataPort map_1000_1010).

Definition timed_set_1000_1010 : ip_set :=
  mk_ip_set (DataTimeout tmap_1000_1010).

(** ** What an operation may not change *)

(** The parts of a plain map that are fixed when the set is created. *)
Definition same_bounds (map map' : bitmap_port) : Prop :=
  first_port map' = first_port map
  /\ last_port map' = last_port map
  /\ memsize map' = memsize map.

(** The parts of a timed map that are fixed when the set is created, and
    the number of words of its array. *)
Definition same_frame (map map' : bitmap_port_timeout) : Prop :=
  tfirst_port map' = tfirst_port map
  /\ tlast_port map' = tlast_port map
  /\ tmemsize map' = tmemsize map
  /\ timeout map' = timeout map
  /\ length (tmembers map') = length (tmembers map).

(** The attribute checks at the head of the two uadt functions. *)
Definition attrs_ok (tb : adt_attrs) : bool :=
  ip_set_attr_netorder (ATTR_PORT tb)
  && ip_set_optattr_netorder (ATTR_PORT_TO tb).

Definition timeout_attrs_ok (tb : adt_attrs) : bool :=
  ip_set_attr_netorder (ATTR_PORT tb)
  && ip_set_optattr_netorder (ATTR_PORT_TO tb)
  && ip_set_optattr_netorder (ATTR_TIMEOUT tb).

(** ** Creation *)

(** The table [tb] filled by [nla_parse] with
    [bitmap_port_create_policy]. *)
Record create_attrs : Set := mk_create_attrs {
  CREATE_PORT : option nlattr;
  CREATE_PORT_TO : option nlattr;
  CREATE_TIMEOUT : option nlattr
}.

(** What [bitmap_port_create] leaves: the set with its data installed, or
    one of its two errors. *)
Inductive create_result : Set :=
  | Created (set : ip_set)
  | CreateProtocol      (* -IPSET_ERR_PROTOCOL *)
  | CreateNoMem.        (* -ENOMEM *)

Section creation.
Context {ops : timeout_ops}.
(** [sizeof(unsigned long)], and the macro [bitmap_bytes] of
    ip_set_bitmap.h, which is not in the tree under study. *)
Variable sizeof_long : Z.
Variable bitmap_bytes : Z -> Z -> Z.

(** Modelled from the spec: ip_set_alloc of the set core, which is not in
    the tree under study, hands out zeroed memory, since a set starts
    empty (the scenario of section 8); for a timed set the [memsize] bytes
    are [last_port - first_port + 1] words. *)
Definition ip_set_alloc_words (first_port last_port : Z) : list Z :=
  replicate (Z.to_nat (last_port - first_port + 1)) 0.

(** [kzalloc_ok] and [alloc_ok] tell whether [kzalloc] of the map and
    [ip_set_alloc] of the members succeed. *)
Definition bitmap_port_create (tb : option create_attrs)
    (kzalloc_ok alloc_ok : bool) : create_result :=
  match tb with
  | None => CreateProtocol   (* nla_parse failed *)
  | Some tb =>
    if negb (ip_set_attr_netorder (CREATE_PORT tb))
       || negb (ip_set_attr_netorder (CREATE_PORT_TO tb))
       || negb (ip_set_optattr_netorder (CREATE_TIMEOUT tb))
    then CreateProtocol
    else
      let first_port := ip_set_get_h16 (CREATE_PORT tb) in
      let last_port := ip_set_get_h16 (CREATE_PORT_TO tb) in
      let '(first_port, last_port) :=
        if first_port >? last_port then (last_port, first_port)
        else (first_port, last_port) in
      match CREATE_TIMEOUT tb with
      | Some a =>
        if negb kzalloc_ok then CreateNoMem
        else
          let memsize := (last_port - first_port + 1) * sizeof_long in
          if negb alloc_ok then CreateNoMem   (* init_map_port failed *)
          else
            Created (mk_ip_set (DataTimeout
              (mk_bitmap_port_timeout
                 (ip_set_alloc_words first_port last_port)
                 first_port last_port memsize (ip_set_timeout_uget a))))
      | None =>
        if negb kzalloc_ok then CreateNoMem
        else
          let memsize := bitmap_bytes 0 (last_port - first_port) in
          if negb alloc_ok then CreateNoMem   (* init_map_port failed *)
          else
            Created (mk_ip_set (DataPort
              (mk_bitmap_port 0 first_port last_port memsize)))
      end
  end.
End creation.

(** The create request with its two port attributes exchanged. *)
Definition create_swapped (tb : create_attrs) : create_attrs :=
  mk_create_attrs (CREATE_PORT_TO tb) (CREATE_PORT tb) (CREATE_TIMEOUT tb).

(** The attribute checks of [bitmap_port_create]. *)
Definition create_attrs_ok (tb : create_attrs) : bool :=
  ip_set_attr_netorder (CREATE_PORT tb)
  && ip_set_attr_netorder (CREATE_PORT_TO tb)
  && ip_set_optattr_netorder (CREATE_TIMEOUT tb).

(** A set whose data is well formed. *)
Definition wf_set (set : ip_set) : Prop :=
  match data set with
  | DataPort m => wf_map m
  | DataTimeout m => wf_tmap m
  end.
(** * Properties *)

(** ** Arithmetic of ports and slot indices *)

Lemma u16_id (z : Z) : 0 <= z <= 65535 -> u16 z = z.
Proof. intros H. unfold u16. apply Z.mod_small. lia. Qed.

Lemma u16_slot (first last port : Z) :
  0 <= first -> first <= port -> port <= last -> last <= 65535 ->
  u16 (port - first) = port - first.
Proof. intros. apply u16_id. lia. Qed.

Lemma range_check_false (first last port : Z) :
  first <= port <= last ->
  (port <? first) || (port >? last) = false.
Proof. intros H. apply orb_false_iff. split; lia. Qed.

Lemma range_check_false' (first last lo hi : Z) :
  first <= lo -> hi <= last ->
  (lo <? first) || (hi >? last) = false.
Proof. intros H1 H2. apply orb_false_iff. split; lia. Qed.


Lemma range_check_true (first last port : Z) :
  port < first \/ last < port ->
  (port <? first) || (port >? last) = true.
Proof. intros H. apply orb_true_iff. destruct H; [left | right]; lia. Qed.

Lemma request_for_checks (tb : adt_attrs) (port : Z) :
  request_for tb port ->
  ip_set_attr_netorder (ATTR_PORT tb) = true
  /\ ip_set_optattr_netorder (ATTR_PORT_TO tb) = true
  /\ ip_set_optattr_netorder (ATTR_TIMEOUT tb) = true
  /\ ip_set_get_h16 (ATTR_PORT tb) = u16 port.
Proof.
  intros (Hp & Hto & Ht). rewrite Hp. simpl. auto.
Qed.

(** ** Range enforcement *)

(** C7.  A port outside the bounds of the set is refused with
    -IPSET_ERR_BITMAP_RANGE and the set is left as it was, for every
    command, on the packet path (kadt) and on the request path (uadt), in
    both variants. *)
Theorem out_of_range_rejected {ops : timeout_ops} (jiffies : Z)
    (map : bitmap_port) (tmap : bitmap_port_timeout) (tb : adt_attrs)
    (adt : ipset_adt) (port lineno flags : Z) :
  0 <= port <= 65535 ->
  request_for tb port ->
  (port < first_port map \/ last_port map < port ->
     bitmap_port_kadt map (Some port) adt = (Neg IPSET_ERR_BITMAP_RANGE, map)
     /\ (bitmap_port_uadt map (Some tb) adt lineno flags).1
        = (Neg IPSET_ERR_BITMAP_RANGE, map))
  /\ (port < tfirst_port tmap \/ tlast_port tmap < port ->
     bitmap_port_timeout_kadt jiffies tmap (Some port) adt
       = (Neg IPSET_ERR_BITMAP_RANGE, tmap)
     /\ (bitmap_port_timeout_uadt jiffies tmap (Some tb) adt lineno flags).1
        = (Neg IPSET_ERR_BITMAP_RANGE, tmap)).
Proof.
  intros Hport Hreq.
  destruct (request_for_checks _ _ Hreq) as (Hp & Hto & Ht & Hv).
  rewrite (u16_id port Hport) in Hv.
  split; intros Hout.
  - split.
    + unfold bitmap_port_kadt. rewrite (u16_id port Hport).
      by rewrite (range_check_true _ _ _ Hout).
    + unfold bitmap_port_uadt. rewrite Hp, Hto, Hv. simpl.
      by rewrite (range_check_true _ _ _ Hout).
  - split.
    + unfold bitmap_port_timeout_kadt. rewrite (u16_id port Hport).
      by rewrite (range_check_true _ _ _ Hout).
    + unfold bitmap_port_timeout_uadt. rewrite Hp, Hto, Ht, Hv. simpl.
      by rewrite (range_check_true _ _ _ Hout).
Qed.

Lemma out_of_range_rejected_witness :
  bitmap_port_kadt map_1000_1010 (Some 2000) IPSET_ADD
    = (Neg IPSET_ERR_BITMAP_RANGE, map_1000_1010)
  /\ (bitmap_port_uadt map_1000_1010 (Some (single 2000)) IPSET_ADD 0 0).1
     = (Neg IPSET_ERR_BITMAP_RANGE, map_1000_1010).
Proof.
  refine (proj1 (out_of_range_rejected (ops := spec_timeout_ops) 0
                   map_1000_1010 tmap_1000_1010 (single 2000) IPSET_ADD
                   2000 0 0 _ _) _).
  - lia.
  - repeat split.
  - right. simpl. lia.
Defined.

(** ** Single slots of the timeout variant *)

Lemma slot_index (map : bitmap_port_timeout) (port : Z) :
  wf_tmap map -> tfirst_port map <= port <= tlast_port map ->
  (Z.to_nat (port - tfirst_port map) < length (tmembers map))%nat.
Proof. intros (H0 & H1 & H2 & Hlen) Hin. rewrite Hlen. lia. Qed.

Lemma slot_set_slot_eq (map : bitmap_port_timeout) (id v : Z) :
  (Z.to_nat id < length (tmembers map))%nat ->
  slot (set_slot map id v) id = v.
Proof.
  intros H. unfold slot, set_slot. simpl.
  by apply list_lookup_total_insert_eq.
Qed.

Lemma slot_set_slot_ne (map : bitmap_port_timeout) (id id' v : Z) :
  0 <= id -> 0 <= id' -> id <> id' ->
  slot (set_slot map id v) id' = slot map id'.
Proof.
  intros H H' Hne. unfold slot, set_slot. simpl.
  apply list_lookup_total_insert_ne. lia.
Qed.

Lemma wf_set_slot (map : bitmap_port_timeout) (id v : Z) :
  wf_tmap map -> wf_tmap (set_slot map id v).
Proof.
  unfold wf_tmap, set_slot. simpl. rewrite length_insert. auto.
Qed.

(** Whatever the header makes of [ip_set_timeout_test], delete answers by
    it and writes the sentinel. *)
Lemma timeout_del_by_test {ops : timeout_ops} (jiffies : Z)
    (map : bitmap_port_timeout) (id : Z) :
  bitmap_port_timeout_del jiffies map id
  = (if ip_set_timeout_test jiffies (slot map id) then Ret 0
     else Neg IPSET_ERR_EXIST,
     set_slot map id IPSET_ELEM_UNSET).
Proof. reflexivity. Qed.

(** Whatever the header makes of [ip_set_timeout_test], add succeeds
    exactly on the slots that test false. *)
Lemma timeout_add_by_test {ops : timeout_ops} (jiffies : Z)
    (map : bitmap_port_timeout) (id t : Z) :
  bitmap_port_timeout_add jiffies map id t
  = if ip_set_timeout_test jiffies (slot map id)
    then (Neg IPSET_ERR_EXIST, map)
    else (Ret 0, set_slot map id (ip_set_timeout_set jiffies t)).
Proof. reflexivity. Qed.

(** So for every reading of the header a slot that tests present makes add
    fail and delete succeed: a slot cannot both test present and be open
    to a new add, or both test present and be reported missing by
    delete. *)
Lemma tested_present_add_del {ops : timeout_ops} (jiffies : Z)
    (map : bitmap_port_timeout) (id t : Z) :
  bitmap_port_timeout_test jiffies map id = true ->
  bitmap_port_timeout_add jiffies map id t = (Neg IPSET_ERR_EXIST, map)
  /\ (bitmap_port_timeout_del jiffies map id).1 = Ret 0.
Proof.
  intros Htest. rewrite timeout_add_by_test, timeout_del_by_test.
  unfold bitmap_port_timeout_test in Htest. by rewrite Htest.
Qed.

Lemma timeout_kadt_in_range {ops : timeout_ops} (jiffies : Z)
    (map : bitmap_port_timeout) (port : Z) (adt : ipset_adt) :
  wf_tmap map -> tfirst_port map <= port <= tlast_port map ->
  bitmap_port_timeout_kadt jiffies map (Some port) adt
  = let id := port - tfirst_port map in
    match adt with
    | IPSET_TEST => (Ret (Z.b2z (bitmap_port_timeout_test jiffies map id)), map)
    | IPSET_ADD => bitmap_port_timeout_add jiffies map id (timeout map)
    | IPSET_DEL => bitmap_port_timeout_del jiffies map id
    | _ => (Neg EINVAL, map)
    end.
Proof.
  intros (H0 & H1 & H2 & Hlen) Hin. unfold bitmap_port_timeout_kadt.
  rewrite (u16_id port) by lia.
  rewrite (range_check_false _ _ _ Hin).
  by rewrite (u16_slot _ (tlast_port map)) by lia.
Qed.

Lemma timeout_uadt_test_in_range {ops : timeout_ops} (jiffies : Z)
    (map : bitmap_port_timeout) (tb : adt_attrs) (port lineno flags : Z) :
  wf_tmap map -> tfirst_port map <= port <= tlast_port map ->
  request_for tb port ->
  (bitmap_port_timeout_uadt jiffies map (Some tb) IPSET_TEST lineno flags).1
  = (Ret (Z.b2z (bitmap_port_timeout_test jiffies map
                   (port - tfirst_port map))), map).
Proof.
  intros (H0 & H1 & H2 & Hlen) Hin Hreq.
  destruct (request_for_checks _ _ Hreq) as (Hp & Hto & Ht & Hv).
  rewrite (u16_id port) in Hv by lia.
  unfold bitmap_port_timeout_uadt. rewrite Hp, Hto, Ht, Hv. simpl.
  rewrite (range_check_false _ _ _ Hin). simpl.
  by rewrite (u16_slot _ (tlast_port map)) by lia.
Qed.

(** ** Lazy expiry of the test *)

(** C1.  With the test of the header read as section 4.1 fixes it, a test
    of an in-range port on a timed set, from a packet or from a request,
    answers 1 exactly when the slot holds a value other than the sentinel
    and leaves the set as it was; the clock plays no part, so a slot whose
    expiry instant has passed and which the collector has not yet cleared
    still answers 1. *)
Theorem timeout_test_lazy (jiffies : Z) (map : bitmap_port_timeout)
    (tb : adt_attrs) (port lineno flags : Z) :
  wf_tmap map -> tfirst_port map <= port <= tlast_port map ->
  request_for tb port ->
  let id := port - tfirst_port map in
  let present := Ret (Z.b2z (bool_decide (slot map id <> IPSET_ELEM_UNSET))) in
  (bitmap_port_timeout_test (ops := spec_timeout_ops) jiffies map id = true
   <-> slot map id <> IPSET_ELEM_UNSET)
  /\ bitmap_port_timeout_kadt (ops := spec_timeout_ops) jiffies map
       (Some port) IPSET_TEST = (present, map)
  /\ (bitmap_port_timeout_uadt (ops := spec_timeout_ops) jiffies map
        (Some tb) IPSET_TEST lineno flags).1 = (present, map)
  /\ (spec_timeout_expired jiffies (slot map id) = true ->
      bitmap_port_timeout_kadt (ops := spec_timeout_ops) jiffies map
        (Some port) IPSET_TEST = (Ret 1, map)).
Proof.
  intros Hwf Hin Hreq. cbv zeta.
  assert (Htest : bitmap_port_timeout_test (ops := spec_timeout_ops)
                    jiffies map (port - tfirst_port map)
                  = bool_decide (slot map (port - tfirst_port map)
                                 <> IPSET_ELEM_UNSET)).
  { unfold bitmap_port_timeout_test. simpl. unfold spec_timeout_test.
    case_bool_decide as Hd.
    - apply negb_true_iff, Z.eqb_neq, Hd.
    - apply negb_false_iff, Z.eqb_eq.
      by destruct (decide (slot map (port - tfirst_port map)
                           = IPSET_ELEM_UNSET)). }
  split; [| split; [| split]].
  - rewrite Htest. apply bool_decide_eq_true.
  - rewrite timeout_kadt_in_range by done. cbv zeta. by rewrite Htest.
  - rewrite (timeout_uadt_test_in_range _ _ _ port) by done.
    by rewrite Htest.
  - intros Hexp. rewrite timeout_kadt_in_range by done. cbv zeta.
    rewrite Htest. unfold spec_timeout_expired in Hexp.
    apply andb_true_iff in Hexp as [Hne _].
    apply negb_true_iff, Z.eqb_neq in Hne.
    by rewrite bool_decide_eq_true_2.
Qed.

Lemma timeout_test_lazy_witness :
  spec_timeout_expired 100 (slot tmap_1000_1010 (1002 - 1000)) = true
  /\ bitmap_port_timeout_kadt (ops := spec_timeout_ops) 100 tmap_1000_1010
       (Some 1002) IPSET_TEST = (Ret 1, tmap_1000_1010).
Proof.
  split; [reflexivity |].
  refine (proj2 (proj2 (proj2 (timeout_test_lazy 100 tmap_1000_1010
                                 (single 1002) 1002 0 0 _ _ _))) _).
  - unfold wf_tmap. simpl. lia.
  - simpl. lia.
  - repeat split.
  - reflexivity.
Defined.

(** ** The garbage collector *)

Lemma gc_for_length {ops : timeout_ops} (jiffies : Z) (n : nat) :
  forall (id : Z) (table : list Z),
    length (gc_for jiffies n id table) = length table.
Proof.
  induction n as [| n IH]; intros id table; simpl; [done |].
  rewrite IH. destruct (ip_set_timeout_expired _ _); [| done].
  apply length_insert.
Qed.

(** One scan visits the slots [id .. id + n - 1] once each and clears those
    that [ip_set_timeout_expired] reports. *)
Lemma gc_for_lookup {ops : timeout_ops} (jiffies : Z) (n : nat) :
  forall (id : Z) (table : list Z) (i : nat),
    0 <= id -> (Z.to_nat id + n <= length table)%nat ->
    gc_for jiffies n id table !!! i
    = if bool_decide (Z.to_nat id <= i < Z.to_nat id + n)%nat
         && ip_set_timeout_expired jiffies (table !!! i)
      then IPSET_ELEM_UNSET else table !!! i.
Proof.
  induction n as [| n IH]; intros id table i Hid Hlen; simpl.
  - rewrite bool_decide_eq_false_2 by lia. done.
  - rewrite IH; [| lia |].
    2: { destruct (ip_set_timeout_expired _ _);
         rewrite ?length_insert; lia. }
    replace (Z.to_nat (id + 1)) with (S (Z.to_nat id)) by lia.
    destruct (decide (i = Z.to_nat id)) as [-> | Hne].
    + rewrite bool_decide_eq_false_2 by lia.
      rewrite bool_decide_eq_true_2 by lia. simpl.
      destruct (ip_set_timeout_expired jiffies (table !!! Z.to_nat id));
        [| done].
      apply list_lookup_total_insert_eq. lia.
    + assert (Hsame : (if ip_set_timeout_expired jiffies
                             (table !!! Z.to_nat id)
                       then <[Z.to_nat id := IPSET_ELEM_UNSET]> table
                       else table) !!! i = table !!! i).
      { destruct (ip_set_timeout_expired _ _); [| done].
        by apply list_lookup_total_insert_ne. }
      rewrite Hsame.
      destruct (decide (S (Z.to_nat id) <= i < S (Z.to_nat id) + n)%nat).
      * rewrite !bool_decide_eq_true_2 by lia. done.
      * rewrite !bool_decide_eq_false_2 by lia. done.
Qed.

Lemma gc_slot {ops : timeout_ops} (jiffies : Z)
    (map : bitmap_port_timeout) (port : Z) :
  wf_tmap map -> tfirst_port map <= port <= tlast_port map ->
  slot (bitmap_port_gc jiffies map) (port - tfirst_port map)
  = if ip_set_timeout_expired jiffies (slot map (port - tfirst_port map))
    then IPSET_ELEM_UNSET else slot map (port - tfirst_port map).
Proof.
  intros (H0 & H1 & H2 & Hlen) Hin. unfold slot, bitmap_port_gc. simpl.
  rewrite u16_id by lia. unfold iterations.
  rewrite gc_for_lookup; [| lia | rewrite Hlen; lia].
  rewrite bool_decide_eq_true_2 by lia. done.
Qed.

Lemma wf_gc {ops : timeout_ops} (jiffies : Z) (map : bitmap_port_timeout) :
  wf_tmap map -> wf_tmap (bitmap_port_gc jiffies map).
Proof.
  unfold wf_tmap, bitmap_port_gc. simpl. rewrite gc_for_length. auto.
Qed.

(** ** Requests for one port *)

Lemma uadt_for_one {M : Type} (op : M -> Z -> retval * M)
    (first flags port : Z) (map : M) :
  uadt_for op first flags 1 port map
  = let r := op map (u16 (port - first)) in
    (if nonzero r.1 && negb (ip_set_eexist r.1 flags) then r.1 else Ret 0,
     r.2).
Proof.
  simpl. destruct (op map (u16 (port - first))) as [ret map']. simpl.
  by destruct (nonzero ret && negb (ip_set_eexist ret flags)).
Qed.

Lemma timeout_uadt_single {ops : timeout_ops} (jiffies : Z)
    (map : bitmap_port_timeout) (tb : adt_attrs) (adt : ipset_adt)
    (port lineno flags : Z) :
  wf_tmap map -> tfirst_port map <= port <= tlast_port map ->
  request_for tb port -> ATTR_PORT_TO tb = None -> adt <> IPSET_TEST ->
  bitmap_port_timeout_uadt jiffies map (Some tb) adt lineno flags
  = let id := port - tfirst_port map in
    let t := match ATTR_TIMEOUT tb with
             | Some a => ip_set_timeout_uget a
             | None => timeout map
             end in
    let r := bitmap_port_timeout_adt jiffies adt t map id in
    (if nonzero r.1 && negb (ip_set_eexist r.1 flags) then r.1 else Ret 0,
     r.2, new_lineno tb lineno).
Proof.
  intros (H0 & H1 & H2 & Hlen) Hin Hreq Hto Hadt.
  destruct (request_for_checks _ _ Hreq) as (Hp & Hto' & Ht & Hv).
  rewrite (u16_id port) in Hv by lia.
  unfold bitmap_port_timeout_uadt. rewrite Hp, Hto', Ht, Hv. simpl.
  rewrite (range_check_false _ _ _ Hin).
  rewrite bool_decide_eq_false_2 by done.
  unfold range_ends. rewrite Hto. rewrite (u16_id port) by lia.
  replace (port >? tlast_port map) with false by lia.
  unfold iterations. replace (Z.to_nat (port + 1 - port)) with 1%nat by lia.
  rewrite uadt_for_one. cbv zeta.
  rewrite (u16_slot _ (tlast_port map)) by lia. done.
Qed.

(** ** Delete on the timeout variant *)




(** ** Add on the timeout variant *)



(** ** The timeout attribute of a request *)

(** The loop only ever returns what a member operation returned, or 0. *)
Lemma uadt_for_ret {M : Type} (op : M -> Z -> retval * M) (first flags : Z)
    (P : retval -> Prop) :
  P (Ret 0) -> (forall m id, P (op m id).1) ->
  forall (n : nat) (port : Z) (map : M),
    P (uadt_for op first flags n port map).1.
Proof.
  intros H0 Hop. induction n as [| n IH]; intros port map; simpl; [done |].
  specialize (Hop map (u16 (port - first))).
  destruct (op map (u16 (port - first))) as [ret map'].
  destruct (nonzero ret && negb (ip_set_eexist ret flags)); [done |].
  apply IH.
Qed.

Lemma timeout_op_ret {ops : timeout_ops} (jiffies : Z) (adt : ipset_adt)
    (t : Z) (m : bitmap_port_timeout) (id : Z) :
  exist_or_ok (bitmap_port_timeout_adt jiffies adt t m id).1.
Proof.
  unfold exist_or_ok, bitmap_port_timeout_adt, bitmap_port_timeout_add,
    bitmap_port_timeout_del.
  destruct (bool_decide (adt = IPSET_ADD));
    destruct (bitmap_port_timeout_test jiffies m id); simpl; auto.
Qed.

Lemma base_op_ret (adt : ipset_adt) (m : bitmap_port) (id : Z) :
  exist_or_ok (bitmap_port_adt adt m id).1.
Proof.
  unfold exist_or_ok, bitmap_port_adt, bitmap_port_add, bitmap_port_del,
    test_and_set_bit, test_and_clear_bit.
  destruct (bool_decide (adt = IPSET_ADD));
    destruct (Z.testbit (members m) id); simpl; auto.
Qed.

(** ** The loop over the members of a range *)

Section loop_facts.
Context {M : Type}.
Variable op : M -> Z -> retval * M.
Variable first : Z.
Variable flags : Z.

Lemma uadt_for_step (n : nat) (port : Z) (map : M) :
  uadt_for op first flags (S n) port map
  = if fatal flags (op map (u16 (port - first))).1
    then op map (u16 (port - first))
    else uadt_for op first flags n (port + 1)
           (op map (u16 (port - first))).2.
Proof.
  simpl. unfold fatal. by destruct (op map (u16 (port - first))).
Qed.

Lemma member_ret_0 (port : Z) (map : M) :
  member_ret op first 0 port map = (op map (u16 (port - first))).1.
Proof. unfold member_ret. simpl. by rewrite Z.add_0_r. Qed.

Lemma member_ret_S (k : nat) (port : Z) (map : M) :
  member_ret op first (S k) port map
  = member_ret op first k (port + 1) (op map (u16 (port - first))).2.
Proof.
  unfold member_ret. simpl. do 3 f_equal. lia.
Qed.

(** No member fails fatally: the loop visits them all and returns 0. *)
Lemma uadt_for_completes (n : nat) :
  forall (port : Z) (map : M),
    (forall k, (k < n)%nat ->
               fatal flags (member_ret op first k port map) = false) ->
    uadt_for op first flags n port map
    = (Ret 0, applied op first n port map).
Proof.
  induction n as [| n IH]; intros port map Hok; [done |].
  rewrite uadt_for_step.
  pose proof (Hok 0%nat ltac:(lia)) as H0. rewrite member_ret_0 in H0.
  rewrite H0. simpl. apply IH. intros k Hk.
  rewrite <- member_ret_S. apply Hok. lia.
Qed.

(** The first member that fails fatally ends the loop: its result is
    returned, the members before it and itself have been operated on,
    the members after it have not. *)
Lemma uadt_for_aborts (n : nat) :
  forall (k : nat) (port : Z) (map : M),
    (k < n)%nat ->
    (forall j, (j < k)%nat ->
               fatal flags (member_ret op first j port map) = false) ->
    fatal flags (member_ret op first k port map) = true ->
    uadt_for op first flags n port map
    = (member_ret op first k port map, applied op first (S k) port map).
Proof.
  induction n as [| n IH]; intros k port map Hk Hbefore Hfatal; [lia |].
  rewrite uadt_for_step. destruct k as [| k].
  - rewrite member_ret_0 in *. rewrite Hfatal. simpl.
    by destruct (op map (u16 (port - first))).
  - pose proof (Hbefore 0%nat ltac:(lia)) as H0.
    rewrite member_ret_0 in H0. rewrite H0.
    rewrite member_ret_S.
    change (applied op first (S (S k)) port map)
      with (applied op first (S k) (port + 1)
              (op map (u16 (port - first))).2).
    apply IH; [lia | | by rewrite <- member_ret_S].
    intros j Hj. rewrite <- member_ret_S. apply Hbefore. lia.
Qed.

(** A loop that returns 0 has visited every member. *)
Lemma uadt_for_ok_applied (n : nat) :
  forall (port : Z) (map : M),
    (uadt_for op first flags n port map).1 = Ret 0 ->
    (uadt_for op first flags n port map).2 = applied op first n port map.
Proof.
  induction n as [| n IH]; intros port map; [done |].
  rewrite uadt_for_step.
  destruct (fatal flags (op map (u16 (port - first))).1) eqn:Hf.
  - intros Hret. rewrite Hret in Hf. discriminate.
  - simpl. apply IH.
Qed.
End loop_facts.

Lemma fatal_exist_or_ok (flags : Z) (ret : retval) :
  exist_or_ok ret ->
  fatal flags ret
  = bool_decide (ret = Neg IPSET_ERR_EXIST)
    && negb (ip_set_eexist (Neg IPSET_ERR_EXIST) flags).
Proof. intros [-> | ->]; reflexivity. Qed.

(** ** Normal forms of the request path *)

Ltac compare_ports :=
  repeat match goal with
         | |- context [?a <? ?b] => destruct (Z.ltb_spec a b)
         | |- context [?a >? ?b] =>
             rewrite (Z.gtb_ltb a b); destruct (Z.ltb_spec b a)
         end;
  cbn [orb]; try lia; try reflexivity.

(** A range add or delete on a plain set: the bounds are checked on the
    lower and on the higher of the two ports, whatever their order in the
    request, and the loop runs from the lower to the higher. *)
Lemma base_uadt_range (map : bitmap_port) (tb : adt_attrs) (adt : ipset_adt)
    (lineno flags p q : Z) :
  0 <= p <= 65535 -> 0 <= q <= 65535 ->
  range_request tb p q -> ATTR_TIMEOUT tb = None -> adt <> IPSET_TEST ->
  bitmap_port_uadt map (Some tb) adt lineno flags
  = if (Z.min p q <? first_port map) || (Z.max p q >? last_port map)
    then (Neg IPSET_ERR_BITMAP_RANGE, map, new_lineno tb lineno)
    else (uadt_for (bitmap_port_adt adt) (first_port map) flags
            (iterations (Z.min p q) (Z.max p q)) (Z.min p q) map,
          new_lineno tb lineno).
Proof.
  intros Hp Hq (Hport & Hto & _) Ht Hadt.
  unfold bitmap_port_uadt, range_ends. rewrite Hport, Hto, Ht.
  cbn [ip_set_attr_netorder ip_set_optattr_netorder ip_set_get_h16
       nla_netorder nla_value negb orb].
  rewrite !(u16_id p), !(u16_id q) by done.
  rewrite (bool_decide_eq_false_2 (is_Some None)) by (by intros [? ?]).
  rewrite (bool_decide_eq_false_2 (adt = IPSET_TEST)) by done.
  destruct (Z.le_gt_cases p q) as [Hle | Hgt].
  - rewrite Z.min_l, Z.max_r by lia. compare_ports.
    by destruct (uadt_for _ _ _ _ _ _).
  - rewrite Z.min_r, Z.max_l by lia. compare_ports.
    by destruct (uadt_for _ _ _ _ _ _).
Qed.

Lemma base_uadt_single (map : bitmap_port) (tb : adt_attrs) (adt : ipset_adt)
    (lineno flags p : Z) :
  0 <= p <= 65535 -> first_port map <= p <= last_port map ->
  ATTR_PORT tb = Some (mk_nlattr true p) -> ATTR_PORT_TO tb = None ->
  ATTR_TIMEOUT tb = None -> adt <> IPSET_TEST ->
  bitmap_port_uadt map (Some tb) adt lineno flags
  = (uadt_for (bitmap_port_adt adt) (first_port map) flags 1 p map,
     new_lineno tb lineno).
Proof.
  intros Hp Hin Hport Hto Ht Hadt.
  unfold bitmap_port_uadt, range_ends. rewrite Hport, Hto, Ht.
  cbn [ip_set_attr_netorder ip_set_optattr_netorder ip_set_get_h16
       nla_netorder nla_value negb orb].
  rewrite !(u16_id p) by done.
  rewrite (bool_decide_eq_false_2 (is_Some None)) by (by intros [? ?]).
  rewrite (bool_decide_eq_false_2 (adt = IPSET_TEST)) by done.
  unfold iterations. replace (Z.to_nat (p + 1 - p)) with 1%nat by lia.
  compare_ports. by destruct (uadt_for _ _ _ _ _ _).
Qed.

Lemma timeout_uadt_range {ops : timeout_ops} (jiffies : Z)
    (map : bitmap_port_timeout) (tb : adt_attrs) (adt : ipset_adt)
    (lineno flags p q : Z) :
  0 <= p <= 65535 -> 0 <= q <= 65535 ->
  range_request tb p q -> adt <> IPSET_TEST ->
  bitmap_port_timeout_uadt jiffies map (Some tb) adt lineno flags
  = if (Z.min p q <? tfirst_port map) || (Z.max p q >? tlast_port map)
    then (Neg IPSET_ERR_BITMAP_RANGE, map, new_lineno tb lineno)
    else (uadt_for
            (bitmap_port_timeout_adt jiffies adt
               match ATTR_TIMEOUT tb with
               | Some a => ip_set_timeout_uget a
               | None => timeout map
               end)
            (tfirst_port map) flags
            (iterations (Z.min p q) (Z.max p q)) (Z.min p q) map,
          new_lineno tb lineno).
Proof.
  intros Hp Hq (Hport & Hto & Ht) Hadt.
  unfold bitmap_port_timeout_uadt, range_ends. rewrite Hport, Hto, Ht.
  cbn [ip_set_attr_netorder ip_set_optattr_netorder ip_set_get_h16
       nla_netorder nla_value negb orb].
  rewrite !(u16_id p), !(u16_id q) by done.
  rewrite (bool_decide_eq_false_2 (adt = IPSET_TEST)) by done.
  destruct (Z.le_gt_cases p q) as [Hle | Hgt].
  - rewrite Z.min_l, Z.max_r by lia. compare_ports.
    by destruct (uadt_for _ _ _ _ _ _).
  - rewrite Z.min_r, Z.max_l by lia. compare_ports.
    by destruct (uadt_for _ _ _ _ _ _).
Qed.

Lemma timeout_uadt_single_loop {ops : timeout_ops} (jiffies : Z)
    (map : bitmap_port_timeout) (tb : adt_attrs) (adt : ipset_adt)
    (lineno flags p : Z) :
  0 <= p <= 65535 -> tfirst_port map <= p <= tlast_port map ->
  ATTR_PORT tb = Some (mk_nlattr true p) -> ATTR_PORT_TO tb = None ->
  ip_set_optattr_netorder (ATTR_TIMEOUT tb) = true -> adt <> IPSET_TEST ->
  bitmap_port_timeout_uadt jiffies map (Some tb) adt lineno flags
  = (uadt_for
       (bitmap_port_timeout_adt jiffies adt
          match ATTR_TIMEOUT tb with
          | Some a => ip_set_timeout_uget a
          | None => timeout map
          end)
       (tfirst_port map) flags 1 p map,
     new_lineno tb lineno).
Proof.
  intros Hp Hin Hport Hto Ht Hadt.
  unfold bitmap_port_timeout_uadt, range_ends. rewrite Hport, Hto, Ht.
  cbn [ip_set_attr_netorder ip_set_optattr_netorder ip_set_get_h16
       nla_netorder nla_value negb orb].
  rewrite !(u16_id p) by done.
  rewrite (bool_decide_eq_false_2 (adt = IPSET_TEST)) by done.
  unfold iterations. replace (Z.to_nat (p + 1 - p)) with 1%nat by lia.
  compare_ports. by destruct (uadt_for _ _ _ _ _ _).
Qed.

(** ** Endpoints given out of order *)






(** ** Partial failure of a range *)

(** C4.  For a range add or delete whose ends are within the bounds, on
    both variants: every member operation returns success or
    -IPSET_ERR_EXIST; when the flags of the caller ask that AlreadyExists
    be passed over, the request returns 0 after operating on every member;
    and the first member whose result is not passed over, whatever that
    result is, ends the request at once with that result, the members up
    to it operated on and kept, the members after it untouched. *)
Theorem range_partial_failure {ops : timeout_ops} (jiffies : Z)
    (map : bitmap_port) (tmap : bitmap_port_timeout) (tb : adt_attrs)
    (adt : ipset_adt) (lineno flags lo hi : Z) :
  0 <= lo -> lo <= hi -> hi <= 65535 ->
  range_request tb lo hi -> adt <> IPSET_TEST ->
  let n := iterations lo hi in
  (first_port map <= lo -> hi <= last_port map -> ATTR_TIMEOUT tb = None ->
   let op := bitmap_port_adt adt in
   let first := first_port map in
   let r := (bitmap_port_uadt map (Some tb) adt lineno flags).1 in
   (forall k, exist_or_ok (member_ret op first k lo map))
   /\ (ip_set_eexist (Neg IPSET_ERR_EXIST) flags = true ->
       r = (Ret 0, applied op first n lo map))
   /\ (forall k, (k < n)%nat ->
         (forall j, (j < k)%nat ->
                    fatal flags (member_ret op first j lo map) = false) ->
         fatal flags (member_ret op first k lo map) = true ->
         r = (member_ret op first k lo map, applied op first (S k) lo map)))
  /\ (tfirst_port tmap <= lo -> hi <= tlast_port tmap ->
   let op := bitmap_port_timeout_adt jiffies adt
               match ATTR_TIMEOUT tb with
               | Some a => ip_set_timeout_uget a
               | None => timeout tmap
               end in
   let first := tfirst_port tmap in
   let r := (bitmap_port_timeout_uadt jiffies tmap (Some tb) adt
               lineno flags).1 in
   (forall k, exist_or_ok (member_ret op first k lo tmap))
   /\ (ip_set_eexist (Neg IPSET_ERR_EXIST) flags = true ->
       r = (Ret 0, applied op first n lo tmap))
   /\ (forall k, (k < n)%nat ->
         (forall j, (j < k)%nat ->
                    fatal flags (member_ret op first j lo tmap) = false) ->
         fatal flags (member_ret op first k lo tmap) = true ->
         r = (member_ret op first k lo tmap, applied op first (S k) lo tmap))).
Proof.
  intros Hlo Hle Hhi Hreq Hadt n. split.
  - intros Hfirst Hlast Ht op first r. subst r.
    rewrite (base_uadt_range map tb adt lineno flags lo hi) by (done || lia).
    rewrite Z.min_l, Z.max_r by lia.
    rewrite range_check_false' by lia. cbn [fst].
    assert (Hres : forall k, exist_or_ok (member_ret op first k lo map))
      by (intros k; apply base_op_ret).
    split; [done |]. split.
    + intros Hflag. apply uadt_for_completes. intros k _.
      rewrite fatal_exist_or_ok by done. rewrite Hflag. apply andb_false_r.
    + intros k Hk Hbefore Hfatal. by apply uadt_for_aborts.
  - intros Hfirst Hlast op first r. subst r.
    rewrite (timeout_uadt_range jiffies tmap tb adt lineno flags lo hi)
      by (done || lia).
    rewrite Z.min_l, Z.max_r by lia.
    rewrite range_check_false' by lia. cbn [fst].
    assert (Hres : forall k, exist_or_ok (member_ret op first k lo tmap))
      by (intros k; apply timeout_op_ret).
    split; [done |]. split.
    + intros Hflag. apply uadt_for_completes. intros k _.
      rewrite fatal_exist_or_ok by done. rewrite Hflag. apply andb_false_r.
    + intros k Hk Hbefore Hfatal. by apply uadt_for_aborts.
Qed.

Lemma range_partial_failure_witness :
  (bitmap_port_uadt map_1000_1010 (Some (range 1001 1003)) IPSET_ADD 0 0).1
  = (Neg IPSET_ERR_EXIST, mk_bitmap_port 38 1000 1010 2).
Proof.
  refine (proj2 (proj2 (proj1 (range_partial_failure (ops := spec_timeout_ops)
                                 0 map_1000_1010 tmap_1000_1010
                                 (range 1001 1003) IPSET_ADD 0 0 1001 1003
                                 _ _ _ _ _) _ _ _)) 1%nat _ _ _).
  - lia.
  - lia.
  - lia.
  - repeat split.
  - discriminate.
  - simpl. lia.
  - simpl. lia.
  - reflexivity.
  - vm_compute. lia.
  - intros j Hj. assert (j = 0%nat) as -> by lia. reflexivity.
  - reflexivity.
Defined.

(** ** A range add against one add per port *)

Lemma bitmap_port_adt_bounds (adt : ipset_adt) (m : bitmap_port) (id : Z) :
  first_port (bitmap_port_adt adt m id).2 = first_port m
  /\ last_port (bitmap_port_adt adt m id).2 = last_port m.
Proof.
  unfold bitmap_port_adt, bitmap_port_add, bitmap_port_del,
    test_and_set_bit, test_and_clear_bit.
  destruct (bool_decide (adt = IPSET_ADD));
    destruct (Z.testbit (members m) id); simpl; auto.
Qed.

Lemma bitmap_port_timeout_adt_bounds {ops : timeout_ops} (jiffies : Z)
    (adt : ipset_adt) (t : Z) (m : bitmap_port_timeout) (id : Z) :
  tfirst_port (bitmap_port_timeout_adt jiffies adt t m id).2 = tfirst_port m
  /\ tlast_port (bitmap_port_timeout_adt jiffies adt t m id).2 = tlast_port m
  /\ timeout (bitmap_port_timeout_adt jiffies adt t m id).2 = timeout m.
Proof.
  unfold bitmap_port_timeout_adt, bitmap_port_timeout_add,
    bitmap_port_timeout_del.
  destruct (bool_decide (adt = IPSET_ADD));
    destruct (bitmap_port_timeout_test jiffies m id); simpl; auto.
Qed.

Lemma uadt_for_one_state {M : Type} (op : M -> Z -> retval * M)
    (first flags port : Z) (map : M) :
  (uadt_for op first flags 1 port map).2 = (op map (u16 (port - first))).2.
Proof. by rewrite uadt_for_one. Qed.

(** One add per port, each through its own request, walks the set through
    the states the loop of the range request walks it through. *)
Lemma sequential_adds_applied (tb : adt_attrs) (lineno flags : Z) (n : nat) :
  forall (lo : Z) (map : bitmap_port),
    ATTR_TIMEOUT tb = None ->
    0 <= lo -> first_port map <= lo ->
    lo + Z.of_nat n - 1 <= last_port map -> lo + Z.of_nat n - 1 <= 65535 ->
    foldl (fun m p =>
             (bitmap_port_uadt m (Some (single_of tb p)) IPSET_ADD
                               lineno flags).1.2)
          map (seqZ lo (Z.of_nat n))
    = applied (bitmap_port_adt IPSET_ADD) (first_port map) n lo map.
Proof.
  induction n as [| n IH]; intros lo map Ht Hlo Hfirst Hlast Hmax; [done |].
  rewrite seqZ_cons by lia. cbn [foldl applied].
  rewrite (base_uadt_single map (single_of tb lo) IPSET_ADD lineno flags lo)
    by (done || lia).
  cbn [fst snd]. rewrite uadt_for_one_state.
  destruct (bitmap_port_adt_bounds IPSET_ADD map (u16 (lo - first_port map)))
    as [Hf Hl].
  replace (Z.pred (Z.of_nat (S n))) with (Z.of_nat n) by lia.
  rewrite IH; [by rewrite Hf | done | lia | rewrite Hf; lia |
               rewrite Hl; lia | lia].
Qed.

Lemma sequential_timeout_adds_applied {ops : timeout_ops} (jiffies : Z)
    (tb : adt_attrs) (lineno flags t : Z) (n : nat) :
  forall (lo : Z) (map : bitmap_port_timeout),
    ip_set_optattr_netorder (ATTR_TIMEOUT tb) = true ->
    match ATTR_TIMEOUT tb with
    | Some a => ip_set_timeout_uget a
    | None => timeout map
    end = t ->
    0 <= lo -> tfirst_port map <= lo ->
    lo + Z.of_nat n - 1 <= tlast_port map -> lo + Z.of_nat n - 1 <= 65535 ->
    foldl (fun m p =>
             (bitmap_port_timeout_uadt jiffies m (Some (single_of tb p))
                                       IPSET_ADD lineno flags).1.2)
          map (seqZ lo (Z.of_nat n))
    = applied (bitmap_port_timeout_adt jiffies IPSET_ADD t)
        (tfirst_port map) n lo map.
Proof.
  induction n as [| n IH]; intros lo map Ht Htv Hlo Hfirst Hlast Hmax;
    [done |].
  rewrite seqZ_cons by lia. cbn [foldl applied].
  rewrite (timeout_uadt_single_loop jiffies map (single_of tb lo) IPSET_ADD
             lineno flags lo) by (done || lia).
  cbn [fst snd single_of ATTR_TIMEOUT]. rewrite Htv.
  rewrite uadt_for_one_state.
  destruct (bitmap_port_timeout_adt_bounds jiffies IPSET_ADD t map
              (u16 (lo - tfirst_port map))) as (Hf & Hl & Hto).
  replace (Z.pred (Z.of_nat (S n))) with (Z.of_nat n) by lia.
  rewrite IH; [by rewrite Hf | done | | lia | rewrite Hf; lia |
               rewrite Hl; lia | lia].
  destruct (ATTR_TIMEOUT tb); [done | by rewrite Hto].
Qed.

(** C6.  For a range add whose ends are within the bounds, on both
    variants: with AlreadyExists swallowed, as the flags of the caller ask,
    the request returns 0 and leaves the set in the state that one add per
    port of the range, issued in increasing order with the results
    ignored, leaves it in; and whatever the flags, a range add that
    returns 0 leaves the set in that state. *)
Theorem add_range_sequential {ops : timeout_ops} (jiffies : Z)
    (map : bitmap_port) (tmap : bitmap_port_timeout) (tb : adt_attrs)
    (lineno flags lineno' flags' lo hi : Z) :
  0 <= lo -> lo <= hi -> hi <= 65535 ->
  range_request tb lo hi ->
  (first_port map <= lo -> hi <= last_port map -> ATTR_TIMEOUT tb = None ->
   let r := (bitmap_port_uadt map (Some tb) IPSET_ADD lineno flags).1 in
   (ip_set_eexist (Neg IPSET_ERR_EXIST) flags = true ->
    r = (Ret 0, sequential_adds map tb lo hi lineno' flags'))
   /\ (r.1 = Ret 0 -> r.2 = sequential_adds map tb lo hi lineno' flags'))
  /\ (tfirst_port tmap <= lo -> hi <= tlast_port tmap ->
   let r := (bitmap_port_timeout_uadt jiffies tmap (Some tb) IPSET_ADD
               lineno flags).1 in
   (ip_set_eexist (Neg IPSET_ERR_EXIST) flags = true ->
    r = (Ret 0,
         sequential_timeout_adds jiffies tmap tb lo hi lineno' flags'))
   /\ (r.1 = Ret 0 ->
       r.2 = sequential_timeout_adds jiffies tmap tb lo hi lineno' flags')).
Proof.
  intros Hlo Hle Hhi Hreq.
  assert (Hn : Z.of_nat (iterations lo hi) = hi + 1 - lo)
    by (unfold iterations; lia).
  split.
  - intros Hfirst Hlast Ht r. subst r.
    rewrite (base_uadt_range map tb IPSET_ADD lineno flags lo hi)
      by (done || lia).
    rewrite Z.min_l, Z.max_r by lia.
    rewrite range_check_false' by lia. cbn [fst].
    unfold sequential_adds, ports. rewrite <- Hn.
    rewrite sequential_adds_applied by (done || lia).
    split.
    + intros Hflag. apply uadt_for_completes. intros k _.
      rewrite fatal_exist_or_ok by apply base_op_ret.
      rewrite Hflag. apply andb_false_r.
    + apply uadt_for_ok_applied.
  - intros Hfirst Hlast r. subst r.
    destruct Hreq as (Hp & Hq & Ht).
    rewrite (timeout_uadt_range jiffies tmap tb IPSET_ADD lineno flags lo hi)
      by (done || lia).
    rewrite Z.min_l, Z.max_r by lia.
    rewrite range_check_false' by lia. cbn [fst].
    unfold sequential_timeout_adds, ports. rewrite <- Hn.
    rewrite (sequential_timeout_adds_applied jiffies tb lineno' flags'
               match ATTR_TIMEOUT tb with
               | Some a => ip_set_timeout_uget a
               | None => timeout tmap
               end) by (done || lia).
    split.
    + intros Hflag. apply uadt_for_completes. intros k _.
      rewrite fatal_exist_or_ok by apply timeout_op_ret.
      rewrite Hflag. apply andb_false_r.
    + apply uadt_for_ok_applied.
Qed.

(** The range 1001 to 1003 on the set that already holds 1002, with
    AlreadyExists swallowed. *)
Lemma add_range_sequential_witness :
  (bitmap_port_uadt map_1000_1010 (Some (range 1001 1003)) IPSET_ADD 0 1).1
  = (Ret 0, sequential_adds map_1000_1010 (range 1001 1003) 1001 1003 0 0).
Proof.
  refine (proj1 (proj1 (add_range_sequential (ops := spec_timeout_ops) 0
                          map_1000_1010 tmap_1000_1010 (range 1001 1003)
                          0 1 0 0 1001 1003 _ _ _ _) _ _ _) _).
  - lia.
  - lia.
  - lia.
  - repeat split.
  - simpl. lia.
  - simpl. lia.
  - reflexivity.
  - reflexivity.
Defined.

(** ** Listing *)

Lemma nla_put_room (skb : sk_buff) (item : nlitem) (payload : Z) :
  nla_total_size payload <= skb_tailroom skb ->
  nla_put skb item payload
  = Some (mk_sk_buff (skb_data skb ++ [item])
                     (skb_tailroom skb - nla_total_size payload)).
Proof.
  intros H. unfold nla_put.
  destruct (Z.ltb_spec (skb_tailroom skb) (nla_total_size payload)); [lia |].
  done.
Qed.

Lemma test_present (map : bitmap_port) (id : Z) :
  bitmap_port_test map id = Ret 1 <-> test_bit id (members map) = true.
Proof.
  unfold bitmap_port_test.
  destruct (test_bit id (members map)); simpl; split; done.
Qed.

(** With room for every member, the loop of the listing writes one entry
    for each port that tests present, from the cursor to the last slot,
    closes the outer nest and zeroes the cursor. *)
Lemma bitmap_port_list_for_complete (map : bitmap_port) (first : Z)
    (atd : sk_buff) (n : nat) :
  forall (skb : sk_buff) (cursor : Z),
    0 <= first_port map -> 0 <= cursor ->
    first_port map + cursor + Z.of_nat n - 1 <= 65535 ->
    12 * Z.of_nat n <= skb_tailroom skb ->
    let r := bitmap_port_list_for map first atd n skb cursor in
    r.1.1 = Ret 0 /\ r.2 = 0
    /\ skb_data r.1.2
       = skb_data skb
         ++ flat_map port_entry
              (filter (fun p => bitmap_port_test map (p - first_port map)
                                = Ret 1)
                      (seqZ (first_port map + cursor) (Z.of_nat n)))
         ++ [NestEnd].
Proof.
  induction n as [| n IH]; intros skb cursor Hfp Hc Hmax Hroom.
  { by repeat split. }
  cbn [bitmap_port_list_for]. rewrite (u16_id cursor) by lia.
  rewrite seqZ_cons by lia.
  replace (Z.pred (Z.of_nat (S n))) with (Z.of_nat n) by lia.
  replace (Z.succ (first_port map + cursor))
    with (first_port map + (cursor + 1)) by lia.
  destruct (test_bit cursor (members map)) eqn:Hbit; cbn [negb].
  - unfold ipset_nest_start, nla_put_net16.
    rewrite nla_put_room by (change (nla_total_size 0) with 4; lia).
    rewrite nla_put_room
      by (change (nla_total_size 0) with 4;
          change (nla_total_size 2) with 8; simpl; lia).
    rewrite (u16_id (first_port map + cursor)) by lia.
    rewrite filter_cons_True
      by (apply test_present;
          by replace (first_port map + cursor - first_port map)
               with cursor by lia).
    specialize (IH (ipset_nest_end
                      (mk_sk_buff
                         ((skb_data skb ++ [NestStart IPSET_ATTR_DATA])
                          ++ [Net16 IPSET_ATTR_PORT (first_port map + cursor)])
                         (skb_tailroom skb - nla_total_size 0
                          - nla_total_size 2)))
                   (cursor + 1) Hfp ltac:(lia) ltac:(lia)).
    cbv zeta in IH. cbv zeta. cbn [skb_data skb_tailroom].
    destruct IH as (Hret & Hcur & Hdata).
    { change (nla_total_size 0) with 4. change (nla_total_size 2) with 8.
      simpl. lia. }
    split; [done |]. split; [done |].
    rewrite Hdata. cbn [ipset_nest_end skb_data flat_map port_entry].
    by rewrite <- !app_assoc.
  - rewrite filter_cons_False.
    2: { rewrite test_present.
         replace (first_port map + cursor - first_port map)
           with cursor by lia.
         by rewrite Hbit. }
    apply IH; lia.
Qed.

Lemma bitmap_port_timeout_list_for_complete {ops : timeout_ops}
    (jiffies : Z) (map : bitmap_port_timeout) (first : Z) (adt : sk_buff)
    (n : nat) :
  forall (skb : sk_buff) (cursor : Z),
    0 <= tfirst_port map -> 0 <= cursor ->
    tfirst_port map + cursor + Z.of_nat n - 1 <= 65535 ->
    20 * Z.of_nat n <= skb_tailroom skb ->
    let r := bitmap_port_timeout_list_for jiffies map first adt n skb cursor in
    r.1.1 = Ret 0 /\ r.2 = 0
    /\ skb_data r.1.2
       = skb_data skb
         ++ flat_map (timeout_entry jiffies map)
              (filter (fun p => bitmap_port_timeout_test jiffies map
                                  (p - tfirst_port map) = true)
                      (seqZ (tfirst_port map + cursor) (Z.of_nat n)))
         ++ [NestEnd].
Proof.
  induction n as [| n IH]; intros skb cursor Hfp Hc Hmax Hroom.
  { by repeat split. }
  cbn [bitmap_port_timeout_list_for]. rewrite (u16_id cursor) by lia.
  rewrite seqZ_cons by lia.
  replace (Z.pred (Z.of_nat (S n))) with (Z.of_nat n) by lia.
  replace (Z.succ (tfirst_port map + cursor))
    with (tfirst_port map + (cursor + 1)) by lia.
  assert (Hid : tfirst_port map + cursor - tfirst_port map = cursor) by lia.
  destruct (bitmap_port_timeout_test jiffies map cursor) eqn:Htest;
    cbn [negb].
  - unfold ipset_nest_start, nla_put_net16, nla_put_net32.
    change (nla_total_size 0) with 4 in *.
    rewrite nla_put_room by (change (nla_total_size 0) with 4; lia).
    rewrite nla_put_room
      by (change (nla_total_size 0) with 4;
          change (nla_total_size 2) with 8; simpl; lia).
    rewrite nla_put_room
      by (change (nla_total_size 0) with 4;
          change (nla_total_size 2) with 8;
          change (nla_total_size 4) with 8; simpl; lia).
    rewrite (u16_id (tfirst_port map + cursor)) by lia.
    rewrite filter_cons_True by (by rewrite Hid).
    cbn [skb_data skb_tailroom].
    specialize (IH (ipset_nest_end
                      (mk_sk_buff
                         (((skb_data skb ++ [NestStart IPSET_ATTR_DATA])
                           ++ [Net16 IPSET_ATTR_PORT
                                 (tfirst_port map + cursor)])
                          ++ [Net32 IPSET_ATTR_TIMEOUT
                                (u32 (ip_set_timeout_get jiffies
                                        (slot map cursor)))])
                         (skb_tailroom skb - nla_total_size 0
                          - nla_total_size 2 - nla_total_size 4)))
                   (cursor + 1) Hfp ltac:(lia) ltac:(lia)).
    cbv zeta in IH. cbv zeta.
    destruct IH as (Hret & Hcur & Hdata).
    { change (nla_total_size 0) with 4. change (nla_total_size 2) with 8.
      change (nla_total_size 4) with 8. simpl. lia. }
    split; [done |]. split; [done |].
    rewrite Hdata. cbn [ipset_nest_end skb_data flat_map].
    unfold timeout_entry at 2. rewrite Hid.
    by rewrite <- !app_assoc.
  - rewrite filter_cons_False by (by rewrite Hid, Htest).
    apply IH; lia.
Qed.

Lemma listed_ports_app (l1 l2 : list nlitem) :
  listed_ports (l1 ++ l2) = listed_ports l1 ++ listed_ports l2.
Proof. unfold listed_ports. apply flat_map_app. Qed.

Lemma listed_port_entries (l : list Z) :
  listed_ports (flat_map port_entry l) = l.
Proof.
  induction l as [| p l IH]; [done |].
  cbn [flat_map]. rewrite listed_ports_app, IH. done.
Qed.

Lemma listed_timeout_entries {ops : timeout_ops} (jiffies : Z)
    (map : bitmap_port_timeout) (l : list Z) :
  listed_ports (flat_map (timeout_entry jiffies map) l) = l.
Proof.
  induction l as [| p l IH]; [done |].
  cbn [flat_map]. rewrite listed_ports_app, IH. done.
Qed.

Lemma seqZ_sorted (n : nat) :
  forall m : Z, StronglySorted Z.lt (seqZ m (Z.of_nat n)).
Proof.
  induction n as [| n IH]; intros m; [constructor |].
  rewrite seqZ_cons by lia.
  replace (Z.pred (Z.of_nat (S n))) with (Z.of_nat n) by lia.
  constructor; [apply IH |].
  apply Forall_forall. intros k Hk. apply elem_of_seqZ in Hk. lia.
Qed.

Lemma ports_sorted (lo hi : Z) : StronglySorted Z.lt (ports lo hi).
Proof.
  unfold ports. destruct (Z.le_gt_cases 0 (hi + 1 - lo)) as [H | H].
  - rewrite <- (Z2Nat.id (hi + 1 - lo)) by done. apply seqZ_sorted.
  - replace (seqZ lo (hi + 1 - lo)) with (@nil Z); [constructor |].
    unfold seqZ. by replace (Z.to_nat (hi + 1 - lo)) with 0%nat by lia.
Qed.

Lemma filter_sorted {A : Type} (R : relation A) (P : A -> Prop)
    `{forall x, Decision (P x)} (l : list A) :
  StronglySorted R l -> StronglySorted R (filter P l).
Proof.
  induction 1 as [| x l Hs IH Hall]; [constructor |].
  rewrite filter_cons. destruct (decide (P x)); [| done].
  constructor; [done |].
  apply Forall_forall. intros y Hy. apply list_elem_of_filter in Hy as [_ Hy].
  by eapply Forall_forall in Hall.
Qed.

(** The same with room for the members only: one entry for each port that
    tests present from the cursor on, however wide the range. *)
Lemma bitmap_port_list_for_fits (map : bitmap_port) (first : Z)
    (atd : sk_buff) (n : nat) :
  forall (skb : sk_buff) (cursor : Z),
    0 <= first_port map -> 0 <= cursor ->
    first_port map + cursor + Z.of_nat n - 1 <= 65535 ->
    12 * Z.of_nat
           (length (filter (fun p => bitmap_port_test map (p - first_port map)
                                     = Ret 1)
                           (seqZ (first_port map + cursor) (Z.of_nat n))))
    <= skb_tailroom skb ->
    let r := bitmap_port_list_for map first atd n skb cursor in
    r.1.1 = Ret 0 /\ r.2 = 0
    /\ skb_data r.1.2
       = skb_data skb
         ++ flat_map port_entry
              (filter (fun p => bitmap_port_test map (p - first_port map)
                                = Ret 1)
                      (seqZ (first_port map + cursor) (Z.of_nat n)))
         ++ [NestEnd].
Proof.
  induction n as [| n IH]; intros skb cursor Hfp Hc Hmax.
  { intros _. by repeat split. }
  cbn [bitmap_port_list_for]. rewrite (u16_id cursor) by lia.
  rewrite seqZ_cons by lia.
  replace (Z.pred (Z.of_nat (S n))) with (Z.of_nat n) by lia.
  replace (Z.succ (first_port map + cursor))
    with (first_port map + (cursor + 1)) by lia.
  destruct (test_bit cursor (members map)) eqn:Hbit; cbn [negb].
  - rewrite filter_cons_True
      by (apply test_present;
          by replace (first_port map + cursor - first_port map)
               with cursor by lia).
    cbn [length]. intros Hroom.
    unfold ipset_nest_start, nla_put_net16.
    rewrite nla_put_room by (change (nla_total_size 0) with 4; lia).
    rewrite nla_put_room
      by (change (nla_total_size 0) with 4;
          change (nla_total_size 2) with 8; simpl; lia).
    rewrite (u16_id (first_port map + cursor)) by lia.
    specialize (IH (ipset_nest_end
                      (mk_sk_buff
                         ((skb_data skb ++ [NestStart IPSET_ATTR_DATA])
                          ++ [Net16 IPSET_ATTR_PORT (first_port map + cursor)])
                         (skb_tailroom skb - nla_total_size 0
                          - nla_total_size 2)))
                   (cursor + 1) Hfp ltac:(lia) ltac:(lia)).
    cbv zeta in IH. cbv zeta. cbn [skb_data skb_tailroom].
    destruct IH as (Hret & Hcur & Hdata).
    { change (nla_total_size 0) with 4. change (nla_total_size 2) with 8.
      simpl. lia. }
    split; [done |]. split; [done |].
    rewrite Hdata. cbn [ipset_nest_end skb_data flat_map port_entry].
    by rewrite <- !app_assoc.
  - rewrite filter_cons_False.
    2: { rewrite test_present.
         replace (first_port map + cursor - first_port map)
           with cursor by lia.
         by rewrite Hbit. }
    intros Hroom. apply IH; lia.
Qed.

Lemma bitmap_port_timeout_list_for_fits {ops : timeout_ops}
    (jiffies : Z) (map : bitmap_port_timeout) (first : Z) (adt : sk_buff)
    (n : nat) :
  forall (skb : sk_buff) (cursor : Z),
    0 <= tfirst_port map -> 0 <= cursor ->
    tfirst_port map + cursor + Z.of_nat n - 1 <= 65535 ->
    20 * Z.of_nat
           (length (filter (fun p => bitmap_port_timeout_test jiffies map
                                       (p - tfirst_port map) = true)
                           (seqZ (tfirst_port map + cursor) (Z.of_nat n))))
    <= skb_tailroom skb ->
    let r := bitmap_port_timeout_list_for jiffies map first adt n skb cursor in
    r.1.1 = Ret 0 /\ r.2 = 0
    /\ skb_data r.1.2
       = skb_data skb
         ++ flat_map (timeout_entry jiffies map)
              (filter (fun p => bitmap_port_timeout_test jiffies map
                                  (p - tfirst_port map) = true)
                      (seqZ (tfirst_port map + cursor) (Z.of_nat n)))
         ++ [NestEnd].
Proof.
  induction n as [| n IH]; intros skb cursor Hfp Hc Hmax.
  { intros _. by repeat split. }
  cbn [bitmap_port_timeout_list_for]. rewrite (u16_id cursor) by lia.
  rewrite seqZ_cons by lia.
  replace (Z.pred (Z.of_nat (S n))) with (Z.of_nat n) by lia.
  replace (Z.succ (tfirst_port map + cursor))
    with (tfirst_port map + (cursor + 1)) by lia.
  assert (Hid : tfirst_port map + cursor - tfirst_port map = cursor) by lia.
  destruct (bitmap_port_timeout_test jiffies map cursor) eqn:Htest;
    cbn [negb].
  - rewrite filter_cons_True by (by rewrite Hid).
    cbn [length]. intros Hroom.
    unfold ipset_nest_start, nla_put_net16, nla_put_net32.
    rewrite nla_put_room by (change (nla_total_size 0) with 4; lia).
    rewrite nla_put_room
      by (change (nla_total_size 0) with 4;
          change (nla_total_size 2) with 8; simpl; lia).
    rewrite nla_put_room
      by (change (nla_total_size 0) with 4;
          change (nla_total_size 2) with 8;
          change (nla_total_size 4) with 8; simpl; lia).
    rewrite (u16_id (tfirst_port map + cursor)) by lia.
    cbn [skb_data skb_tailroom].
    specialize (IH (ipset_nest_end
                      (mk_sk_buff
                         (((skb_data skb ++ [NestStart IPSET_ATTR_DATA])
                           ++ [Net16 IPSET_ATTR_PORT
                                 (tfirst_port map + cursor)])
                          ++ [Net32 IPSET_ATTR_TIMEOUT
                                (u32 (ip_set_timeout_get jiffies
                                        (slot map cursor)))])
                         (skb_tailroom skb - nla_total_size 0
                          - nla_total_size 2 - nla_total_size 4)))
                   (cursor + 1) Hfp ltac:(lia) ltac:(lia)).
    cbv zeta in IH. cbv zeta.
    destruct IH as (Hret & Hcur & Hdata).
    { change (nla_total_size 0) with 4. change (nla_total_size 2) with 8.
      change (nla_total_size 4) with 8. simpl. lia. }
    split; [done |]. split; [done |].
    rewrite Hdata. cbn [ipset_nest_end skb_data flat_map].
    unfold timeout_entry at 2. rewrite Hid.
    by rewrite <- !app_assoc.
  - rewrite filter_cons_False by (by rewrite Hid, Htest).
    intros Hroom. apply IH; lia.
Qed.

(** C8.  A listing that starts at cursor 0 with room in the buffer for the
    members of the set, one entry for each port that tests present and
    the outer nest, however wide the range, returns 0, leaves the cursor
    at 0, and adds to the message the ports that test present, in
    increasing order: each port of the range that tests present is
    listed, once, and nothing else is. *)
Theorem list_pass_complete {ops : timeout_ops} (jiffies : Z)
    (map : bitmap_port) (tmap : bitmap_port_timeout) (skb : sk_buff) :
  wf_map map -> wf_tmap tmap ->
  (4 + 12 * Z.of_nat (length (present_ports map)) <= skb_tailroom skb ->
   let r := bitmap_port_list map skb 0 in
   r.1.1 = Ret 0 /\ r.2 = 0
   /\ listed_ports (skb_data r.1.2)
      = listed_ports (skb_data skb) ++ present_ports map)
  /\ (4 + 20 * Z.of_nat (length (present_timeout_ports jiffies tmap))
      <= skb_tailroom skb ->
   let r := bitmap_port_timeout_list jiffies tmap skb 0 in
   r.1.1 = Ret 0 /\ r.2 = 0
   /\ listed_ports (skb_data r.1.2)
      = listed_ports (skb_data skb) ++ present_timeout_ports jiffies tmap)
  /\ (NoDup (present_ports map)
      /\ StronglySorted Z.lt (present_ports map)
      /\ forall p, p ∈ present_ports map
                   <-> first_port map <= p <= last_port map
                       /\ bitmap_port_test map (p - first_port map) = Ret 1)
  /\ (NoDup (present_timeout_ports jiffies tmap)
      /\ StronglySorted Z.lt (present_timeout_ports jiffies tmap)
      /\ forall p, p ∈ present_timeout_ports jiffies tmap
                   <-> tfirst_port tmap <= p <= tlast_port tmap
                       /\ bitmap_port_timeout_test jiffies tmap
                            (p - tfirst_port tmap) = true).
Proof.
  intros (Hf & Hfl & Hl) (Htf & Htfl & Htl & _).
  assert (Hn : Z.of_nat (iterations 0 (last_port map - first_port map))
               = last_port map + 1 - first_port map)
    by (unfold iterations; lia).
  assert (Htn : Z.of_nat (iterations 0 (tlast_port tmap - tfirst_port tmap))
                = tlast_port tmap + 1 - tfirst_port tmap)
    by (unfold iterations; lia).
  split; [| split; [| split]].
  - unfold present_ports, ports. rewrite <- Hn. intros Hroom.
    unfold bitmap_port_list, ipset_nest_start.
    rewrite nla_put_room by (change (nla_total_size 0) with 4; lia).
    rewrite (u16_id (last_port map - first_port map)) by lia.
    pose proof (bitmap_port_list_for_fits map (u16 0) skb
                  (iterations 0 (last_port map - first_port map))
                  (mk_sk_buff (skb_data skb ++ [NestStart IPSET_ATTR_ADT])
                              (skb_tailroom skb - nla_total_size 0))
                  0) as Hloop.
    rewrite Z.add_0_r in Hloop.
    destruct Hloop as (Hret & Hcur & Hdata);
      [lia | lia | lia | change (nla_total_size 0) with 4; simpl; lia |].
    cbv zeta. split; [done |]. split; [done |].
    rewrite Hdata. cbn [skb_data].
    rewrite !listed_ports_app, listed_port_entries.
    cbn. by rewrite !app_nil_r.
  - unfold present_timeout_ports, ports. rewrite <- Htn. intros Hroom.
    unfold bitmap_port_timeout_list, ipset_nest_start.
    rewrite nla_put_room by (change (nla_total_size 0) with 4; lia).
    rewrite (u16_id (tlast_port tmap - tfirst_port tmap)) by lia.
    pose proof (bitmap_port_timeout_list_for_fits jiffies tmap (u16 0) skb
                  (iterations 0 (tlast_port tmap - tfirst_port tmap))
                  (mk_sk_buff (skb_data skb ++ [NestStart IPSET_ATTR_ADT])
                              (skb_tailroom skb - nla_total_size 0))
                  0) as Hloop.
    rewrite Z.add_0_r in Hloop.
    destruct Hloop as (Hret & Hcur & Hdata);
      [lia | lia | lia | change (nla_total_size 0) with 4; simpl; lia |].
    cbv zeta. split; [done |]. split; [done |].
    rewrite Hdata. cbn [skb_data].
    rewrite !listed_ports_app, listed_timeout_entries.
    cbn. by rewrite !app_nil_r.
  - unfold present_ports. split; [| split].
    + apply NoDup_filter, NoDup_seqZ.
    + apply filter_sorted, ports_sorted.
    + intros p. rewrite list_elem_of_filter. unfold ports.
      rewrite elem_of_seqZ. split; intros [H1 H2]; split; (done || lia).
  - unfold present_timeout_ports. split; [| split].
    + apply NoDup_filter, NoDup_seqZ.
    + apply filter_sorted, ports_sorted.
    + intros p. rewrite list_elem_of_filter. unfold ports.
      rewrite elem_of_seqZ. split; intros [H1 H2]; split; (done || lia).
Qed.

(** The set of the examples holds two ports: 28 bytes are the outer nest
    and two entries, and the listing fills them to the last byte. *)
Lemma list_pass_complete_witness :
  bitmap_port_list map_1000_1010 (mk_sk_buff [] 28) 0
  = (Ret 0,
     mk_sk_buff ([NestStart IPSET_ATTR_ADT] ++ port_entry 1002
                 ++ port_entry 1005 ++ [NestEnd]) 0,
     0)
  /\ listed_ports
       (skb_data (bitmap_port_list map_1000_1010 (mk_sk_buff [] 28) 0).1.2)
     = listed_ports [] ++ present_ports map_1000_1010.
Proof.
  split; [reflexivity |].
  refine (proj2 (proj2 (proj1 (list_pass_complete (ops := spec_timeout_ops) 0
                                 map_1000_1010 tmap_1000_1010
                                 (mk_sk_buff [] 28) _ _) _))).
  - unfold wf_map. simpl. lia.
  - unfold wf_tmap. simpl. lia.
  - vm_compute. discriminate.
Defined.

(** ** Equality of set descriptors *)

(** C9, as the code has it.  For two descriptors of the same variant the
    comparison is defined and answers true exactly when the two bounds are
    equal and the timeout policies are equal: nothing more than the bounds
    on plain sets, the bounds and the timeout value on timed sets. *)
Theorem same_set_same_variant (a b : ip_set) :
  same_variant a b ->
  exists r : bool,
    same_set a b = Some r
    /\ (r = true
        <-> data_first_port (data a) = data_first_port (data b)
            /\ data_last_port (data a) = data_last_port (data b)
            /\ timeout_policy a = timeout_policy b).
Proof.
  destruct a as [[ma | ma]], b as [[mb | mb]]; simpl; try done; intros _.
  - eexists. split; [reflexivity |].
    unfold bitmap_port_same_set, timeout_policy. simpl.
    rewrite andb_true_iff, !Z.eqb_eq.
    split; [intros [H1 H2] | intros (H1 & H2 & _)]; by repeat split.
  - eexists. split; [reflexivity |].
    unfold timeout_policy. simpl.
    rewrite !andb_true_iff, !Z.eqb_eq.
    split; [intros [[H1 H2] H3] | intros (H1 & H2 & [= H3])].
    + repeat split; [done | done | by rewrite H3].
    + by repeat split.
Qed.

Lemma same_set_same_variant_witness :
  exists r : bool,
    same_set timed_set_1000_1010 timed_set_1000_1010 = Some r
    /\ (r = true
        <-> 1000 = 1000 /\ 1010 = 1010 /\ Some 5 = Some 5).
Proof.
  refine (same_set_same_variant timed_set_1000_1010 timed_set_1000_1010 _).
  exact I.
Defined.

(** C9 as stated fails on a plain set compared with a timed set over the
    same range: the comparison of the plain variant reads the two bounds
    and nothing else, and answers true although one set has no timeout and
    the other has the timeout 5. *)
Lemma same_set_ignores_variant :
  bitmap_port_same_set plain_set_1000_1010 timed_set_1000_1010 = true
  /\ same_set plain_set_1000_1010 timed_set_1000_1010 = Some true
  /\ timeout_policy plain_set_1000_1010 = None
  /\ timeout_policy timed_set_1000_1010 = Some 5
  /\ timeout_policy plain_set_1000_1010
     <> timeout_policy timed_set_1000_1010.
Proof. repeat split. discriminate. Qed.

(** * Further properties of the module *)

(** ** Single members of a plain set *)

Lemma setbit_present (m i : Z) :
  0 <= i -> Z.testbit m i = true -> Z.setbit m i = m.
Proof.
  intros Hi Hbit. apply Z.bits_inj'. intros j Hj.
  destruct (decide (i = j)) as [<- | Hne].
  - by rewrite Z.setbit_eq, Hbit.
  - by rewrite Z.setbit_neq.
Qed.

Lemma clearbit_absent (m i : Z) :
  0 <= i -> Z.testbit m i = false -> Z.clearbit m i = m.
Proof.
  intros Hi Hbit. apply Z.bits_inj'. intros j Hj.
  destruct (decide (i = j)) as [<- | Hne].
  - by rewrite Z.clearbit_eq, Hbit.
  - by rewrite Z.clearbit_neq.
Qed.

Lemma clearbit_setbit (m i : Z) :
  0 <= i -> Z.testbit m i = false -> Z.clearbit (Z.setbit m i) i = m.
Proof.
  intros Hi Hbit. apply Z.bits_inj'. intros j Hj.
  destruct (decide (i = j)) as [<- | Hne].
  - by rewrite Z.clearbit_eq, Hbit.
  - by rewrite Z.clearbit_neq, Z.setbit_neq.
Qed.

Lemma setbit_clearbit (m i : Z) :
  0 <= i -> Z.testbit m i = true -> Z.setbit (Z.clearbit m i) i = m.
Proof.
  intros Hi Hbit. apply Z.bits_inj'. intros j Hj.
  destruct (decide (i = j)) as [<- | Hne].
  - by rewrite Z.setbit_eq, Hbit.
  - by rewrite Z.setbit_neq, Z.clearbit_neq.
Qed.

Lemma set_members_same (map : bitmap_port) :
  set_members map (members map) = map.
Proof. by destruct map. Qed.

Lemma base_kadt_in_range (map : bitmap_port) (port : Z) (adt : ipset_adt) :
  wf_map map -> first_port map <= port <= last_port map ->
  bitmap_port_kadt map (Some port) adt
  = let id := port - first_port map in
    match adt with
    | IPSET_TEST => (bitmap_port_test map id, map)
    | IPSET_ADD => bitmap_port_add map id
    | IPSET_DEL => bitmap_port_del map id
    | _ => (Neg EINVAL, map)
    end.
Proof.
  intros (H0 & H1 & H2) Hin. unfold bitmap_port_kadt.
  rewrite (u16_id port) by lia.
  rewrite (range_check_false _ _ _ Hin).
  by rewrite (u16_slot _ (last_port map)) by lia.
Qed.

Lemma wf_set_members (map : bitmap_port) (m : Z) :
  wf_map map -> wf_map (set_members map m).
Proof. done. Qed.

(** X1.  On a plain set, add of an in-range port answers -IPSET_ERR_EXIST
    exactly when the port tests present, and then leaves the set as it
    was; otherwise it answers 0.  Either way the port tests present
    afterwards and the test of every other port of the range answers what
    it answered before. *)
Theorem plain_add_effect (map : bitmap_port) (port other : Z) :
  wf_map map ->
  first_port map <= port <= last_port map ->
  first_port map <= other <= last_port map -> other <> port ->
  let present := bitmap_port_kadt map (Some port) IPSET_TEST in
  let r := bitmap_port_kadt map (Some port) IPSET_ADD in
  (present.1 = Ret 1 -> r = (Neg IPSET_ERR_EXIST, map))
  /\ (present.1 = Ret 0 -> r.1 = Ret 0)
  /\ bitmap_port_kadt r.2 (Some port) IPSET_TEST = (Ret 1, r.2)
  /\ (bitmap_port_kadt r.2 (Some other) IPSET_TEST).1
     = (bitmap_port_kadt map (Some other) IPSET_TEST).1.
Proof.
  intros Hwf Hin Hother Hne. cbv zeta.
  rewrite !(base_kadt_in_range map) by done. cbv zeta.
  destruct Hwf as (H0 & H1 & H2).
  unfold bitmap_port_add, bitmap_port_test, test_and_set_bit, test_bit.
  assert (Hwf' : forall b : bool, wf_map
            (if b then (Neg IPSET_ERR_EXIST,
                        set_members map
                          (Z.setbit (members map) (port - first_port map)))
             else (Ret 0,
                   set_members map
                     (Z.setbit (members map) (port - first_port map)))).2)
    by (by intros []).
  rewrite !base_kadt_in_range; try apply Hwf';
    try (by destruct (Z.testbit (members map) (port - first_port map))).
  cbv zeta. unfold bitmap_port_test, test_bit.
  destruct (Z.testbit (members map) (port - first_port map)) eqn:Hbit;
    cbn [fst snd set_members members first_port Z.b2z].
  - rewrite setbit_present by (done || lia).
    rewrite set_members_same, Hbit.
    repeat split; done.
  - rewrite Z.setbit_eq by lia. rewrite Z.setbit_neq by lia.
    repeat split; done.
Qed.

Lemma plain_add_effect_witness :
  bitmap_port_kadt map_1000_1010 (Some 1005) IPSET_ADD
  = (Neg IPSET_ERR_EXIST, map_1000_1010).
Proof.
  refine (proj1 (plain_add_effect map_1000_1010 1005 1006 _ _ _ _) _).
  - unfold wf_map. simpl. lia.
  - simpl. lia.
  - simpl. lia.
  - discriminate.
  - reflexivity.
Defined.

(** X2.  On a plain set, delete of an in-range port answers
    -IPSET_ERR_EXIST exactly when the port tests absent, and then leaves
    the set as it was; otherwise it answers 0.  Either way the port tests
    absent afterwards and the test of every other port of the range
    answers what it answered before. *)
Theorem plain_del_effect (map : bitmap_port) (port other : Z) :
  wf_map map ->
  first_port map <= port <= last_port map ->
  first_port map <= other <= last_port map -> other <> port ->
  let present := bitmap_port_kadt map (Some port) IPSET_TEST in
  let r := bitmap_port_kadt map (Some port) IPSET_DEL in
  (present.1 = Ret 0 -> r = (Neg IPSET_ERR_EXIST, map))
  /\ (present.1 = Ret 1 -> r.1 = Ret 0)
  /\ bitmap_port_kadt r.2 (Some port) IPSET_TEST = (Ret 0, r.2)
  /\ (bitmap_port_kadt r.2 (Some other) IPSET_TEST).1
     = (bitmap_port_kadt map (Some other) IPSET_TEST).1.
Proof.
  intros Hwf Hin Hother Hne. cbv zeta.
  rewrite !(base_kadt_in_range map) by done. cbv zeta.
  destruct Hwf as (H0 & H1 & H2).
  unfold bitmap_port_del, bitmap_port_test, test_and_clear_bit, test_bit.
  assert (Hwf' : forall b : bool, wf_map
            (if b then (Neg IPSET_ERR_EXIST,
                        set_members map
                          (Z.clearbit (members map) (port - first_port map)))
             else (Ret 0,
                   set_members map
                     (Z.clearbit (members map) (port - first_port map)))).2)
    by (by intros []).
  rewrite !base_kadt_in_range; try apply Hwf';
    try (by destruct (Z.testbit (members map) (port - first_port map))).
  cbv zeta. unfold bitmap_port_test, test_bit.
  destruct (Z.testbit (members map) (port - first_port map)) eqn:Hbit;
    cbn [fst snd set_members members first_port Z.b2z negb].
  - rewrite Z.clearbit_eq by lia. rewrite Z.clearbit_neq by lia.
    repeat split; done.
  - rewrite clearbit_absent by (done || lia).
    rewrite set_members_same, Hbit.
    repeat split; done.
Qed.

Lemma plain_del_effect_witness :
  bitmap_port_kadt map_1000_1010 (Some 1006) IPSET_DEL
  = (Neg IPSET_ERR_EXIST, map_1000_1010).
Proof.
  refine (proj1 (plain_del_effect map_1000_1010 1006 1005 _ _ _ _) _).
  - unfold wf_map. simpl. lia.
  - simpl. lia.
  - simpl. lia.
  - discriminate.
  - reflexivity.
Defined.

(** X3.  On a plain set add and delete undo each other: for an in-range
    port that tests absent, add followed by delete both answer 0 and give
    back the set as it was; for one that tests present, so do delete
    followed by add. *)
Theorem plain_add_del_round_trip (map : bitmap_port) (port : Z) :
  wf_map map ->
  first_port map <= port <= last_port map ->
  let present := (bitmap_port_kadt map (Some port) IPSET_TEST).1 in
  let added := bitmap_port_kadt map (Some port) IPSET_ADD in
  let deleted := bitmap_port_kadt map (Some port) IPSET_DEL in
  (present = Ret 0 ->
   added.1 = Ret 0
   /\ bitmap_port_kadt added.2 (Some port) IPSET_DEL = (Ret 0, map))
  /\ (present = Ret 1 ->
   deleted.1 = Ret 0
   /\ bitmap_port_kadt deleted.2 (Some port) IPSET_ADD = (Ret 0, map)).
Proof.
  intros Hwf Hin. cbv zeta.
  rewrite !(base_kadt_in_range map) by done. cbv zeta.
  pose proof Hwf as (H0 & H1 & H2).
  unfold bitmap_port_test, test_bit.
  destruct (Z.testbit (members map) (port - first_port map)) eqn:Hbit;
    cbn [fst Z.b2z]; (split; intros Hp; [try discriminate Hp |
                                         try discriminate Hp]).
  - unfold bitmap_port_del at 1 2, test_and_clear_bit. rewrite Hbit.
    cbn [negb fst snd]. split; [done |].
    rewrite base_kadt_in_range by done. cbv zeta.
    unfold bitmap_port_add, test_and_set_bit.
    cbn [set_members members first_port last_port memsize].
    rewrite Z.clearbit_eq by lia.
    rewrite setbit_clearbit by (done || lia).
    by destruct map.
  - unfold bitmap_port_add at 1 2, test_and_set_bit. rewrite Hbit.
    cbn [fst snd]. split; [done |].
    rewrite base_kadt_in_range by done. cbv zeta.
    unfold bitmap_port_del, test_and_clear_bit.
    cbn [set_members members first_port last_port memsize].
    rewrite Z.setbit_eq by lia.
    rewrite clearbit_setbit by (done || lia).
    by destruct map.
Qed.

Lemma plain_add_del_round_trip_witness :
  bitmap_port_kadt
    (bitmap_port_kadt map_1000_1010 (Some 1006) IPSET_ADD).2
    (Some 1006) IPSET_DEL
  = (Ret 0, map_1000_1010).
Proof.
  refine (proj2 (proj1 (plain_add_del_round_trip map_1000_1010 1006 _ _) _)).
  - unfold wf_map. simpl. lia.
  - simpl. lia.
  - reflexivity.
Defined.

(** ** What no operation changes *)

Lemma uadt_for_inv {M : Type} (op : M -> Z -> retval * M)
    (first flags : Z) (P : M -> Prop) :
  (forall m id, P m -> P (op m id).2) ->
  forall (n : nat) (port : Z) (map : M),
    P map -> P (uadt_for op first flags n port map).2.
Proof.
  intros Hop. induction n as [| n IH]; intros port map HP; [done |].
  rewrite uadt_for_step.
  destruct (fatal flags (op map (u16 (port - first))).1); auto.
Qed.

Lemma same_bounds_refl (map : bitmap_port) : same_bounds map map.
Proof. by repeat split. Qed.

Lemma same_frame_refl (map : bitmap_port_timeout) : same_frame map map.
Proof. by repeat split. Qed.

Lemma same_bounds_adt (adt : ipset_adt) (map m : bitmap_port) (id : Z) :
  same_bounds map m -> same_bounds map (bitmap_port_adt adt m id).2.
Proof.
  unfold same_bounds, bitmap_port_adt, bitmap_port_add, bitmap_port_del,
    test_and_set_bit, test_and_clear_bit.
  destruct (bool_decide (adt = IPSET_ADD));
    destruct (Z.testbit (members m) id); simpl; auto.
Qed.

Lemma same_frame_adt {ops : timeout_ops} (jiffies : Z) (adt : ipset_adt)
    (t : Z) (map m : bitmap_port_timeout) (id : Z) :
  same_frame map m ->
  same_frame map (bitmap_port_timeout_adt jiffies adt t m id).2.
Proof.
  unfold same_frame, bitmap_port_timeout_adt, bitmap_port_timeout_add,
    bitmap_port_timeout_del.
  destruct (bool_decide (adt = IPSET_ADD));
    destruct (bitmap_port_timeout_test jiffies m id); simpl;
    rewrite ?length_insert; auto.
Qed.

(** X4.  No call on the packet path or on the request path, whatever the
    packet, the request, the command and the flags, changes the bounds or
    the size of a plain set, nor the bounds, the size, the default timeout
    or the number of slots of a timed set; neither do the collector and the
    two flushes. *)
Theorem operations_keep_frame {ops : timeout_ops} (jiffies : Z)
    (map : bitmap_port) (tmap : bitmap_port_timeout) (skb_port : option Z)
    (tb : option adt_attrs) (adt : ipset_adt) (lineno flags : Z) :
  same_bounds map (bitmap_port_kadt map skb_port adt).2
  /\ same_bounds map (bitmap_port_uadt map tb adt lineno flags).1.2
  /\ same_bounds map (bitmap_port_flush map)
  /\ same_frame tmap (bitmap_port_timeout_kadt jiffies tmap skb_port adt).2
  /\ same_frame tmap
       (bitmap_port_timeout_uadt jiffies tmap tb adt lineno flags).1.2
  /\ same_frame tmap (bitmap_port_gc jiffies tmap)
  /\ same_frame tmap (bitmap_port_timeout_flush tmap).
Proof.
  repeat split_and.
  - unfold bitmap_port_kadt. destruct skb_port as [p |];
      [| apply same_bounds_refl].
    destruct (_ || _); [apply same_bounds_refl |].
    destruct adt; try apply same_bounds_refl.
    + apply (same_bounds_adt IPSET_ADD), same_bounds_refl.
    + apply (same_bounds_adt IPSET_DEL), same_bounds_refl.
  - unfold bitmap_port_uadt. destruct tb as [tb |];
      [| apply same_bounds_refl].
    repeat (match goal with
            | |- context [if ?b then _ else _] => destruct b
            end; try apply same_bounds_refl).
    destruct (range_ends _ _ _) as [[lo hi] below].
    destruct below; [apply same_bounds_refl |].
    destruct (hi >? last_port map); [apply same_bounds_refl |].
    match goal with
    | |- context [uadt_for ?op ?f ?fl ?n ?p ?m] =>
        pose proof (uadt_for_inv op f fl (same_bounds map)
                      (same_bounds_adt adt map) n p m
                      (same_bounds_refl map)) as Hinv;
        destruct (uadt_for op f fl n p m) as [ret map']
    end.
    exact Hinv.
  - by repeat split.
  - unfold bitmap_port_timeout_kadt. destruct skb_port as [p |];
      [| apply same_frame_refl].
    destruct (_ || _); [apply same_frame_refl |].
    destruct adt; try apply same_frame_refl.
    + apply (same_frame_adt jiffies IPSET_ADD), same_frame_refl.
    + apply (same_frame_adt jiffies IPSET_DEL 0), same_frame_refl.
  - unfold bitmap_port_timeout_uadt. destruct tb as [tb |];
      [| apply same_frame_refl].
    repeat (match goal with
            | |- context [if ?b then _ else _] => destruct b
            end; try apply same_frame_refl).
    destruct (range_ends _ _ _) as [[lo hi] below].
    destruct below; [apply same_frame_refl |].
    destruct (hi >? tlast_port tmap); [apply same_frame_refl |].
    match goal with
    | |- context [uadt_for (bitmap_port_timeout_adt _ _ ?t) ?f ?fl ?n ?p ?m] =>
        pose proof (uadt_for_inv (bitmap_port_timeout_adt jiffies adt t)
                      f fl (same_frame tmap)
                      (same_frame_adt jiffies adt t tmap) n p m
                      (same_frame_refl tmap)) as Hinv;
        destruct (uadt_for (bitmap_port_timeout_adt jiffies adt t)
                    f fl n p m) as [ret map']
    end.
    exact Hinv.
  - unfold same_frame, bitmap_port_gc. simpl.
    by rewrite gc_for_length.
  - unfold same_frame, bitmap_port_timeout_flush. simpl.
    by rewrite length_replicate.
Qed.

(** ** Requests that fail, and requests that only test *)

(** The result of either uadt function, in the shape its proofs use: the
    attribute checks, then the line number, then everything else. *)
Lemma base_uadt_shape (map : bitmap_port) (tb : adt_attrs) (adt : ipset_adt)
    (lineno flags : Z) :
  bitmap_port_uadt map (Some tb) adt lineno flags
  = if attrs_ok tb
    then ((bitmap_port_uadt map (Some tb) adt lineno flags).1,
          new_lineno tb lineno)
    else (Neg IPSET_ERR_PROTOCOL, map, lineno).
Proof.
  unfold bitmap_port_uadt, attrs_ok.
  destruct (ip_set_attr_netorder (ATTR_PORT tb));
    destruct (ip_set_optattr_netorder (ATTR_PORT_TO tb)); cbn [negb orb andb];
    try done.
  repeat (match goal with
          | |- context [if ?b then _ else _] => destruct b
          end; try done).
  destruct (range_ends _ _ _) as [[lo hi] below].
  destruct below; [done |]. destruct (hi >? last_port map); [done |].
  by destruct (uadt_for _ _ _ _ _ _).
Qed.

Lemma timeout_uadt_shape {ops : timeout_ops} (jiffies : Z)
    (map : bitmap_port_timeout) (tb : adt_attrs) (adt : ipset_adt)
    (lineno flags : Z) :
  bitmap_port_timeout_uadt jiffies map (Some tb) adt lineno flags
  = if timeout_attrs_ok tb
    then ((bitmap_port_timeout_uadt jiffies map (Some tb) adt lineno flags).1,
          new_lineno tb lineno)
    else (Neg IPSET_ERR_PROTOCOL, map, lineno).
Proof.
  unfold bitmap_port_timeout_uadt, timeout_attrs_ok.
  destruct (ip_set_attr_netorder (ATTR_PORT tb));
    destruct (ip_set_optattr_netorder (ATTR_PORT_TO tb));
    destruct (ip_set_optattr_netorder (ATTR_TIMEOUT tb));
    cbn [negb orb andb]; try done.
  repeat (match goal with
          | |- context [if ?b then _ else _] => destruct b
          end; try done).
  destruct (range_ends _ _ _) as [[lo hi] below].
  destruct below; [done |]. destruct (hi >? tlast_port map); [done |].
  by destruct (uadt_for _ _ _ _ _ _).
Qed.

(** A request either leaves the set as it was or went through the loop
    over its members, which answers 0 or -IPSET_ERR_EXIST and nothing
    else; and past the attribute checks the protocol error is never
    answered. *)
Lemma base_uadt_outcome (map : bitmap_port) (tb : adt_attrs)
    (adt : ipset_adt) (lineno flags : Z) :
  attrs_ok tb = true ->
  let r := (bitmap_port_uadt map (Some tb) adt lineno flags).1 in
  r.1 <> Neg IPSET_ERR_PROTOCOL
  /\ (r.2 = map \/ (adt <> IPSET_TEST /\ exist_or_ok r.1)).
Proof.
  unfold attrs_ok, bitmap_port_uadt. intros Hok.
  apply andb_true_iff in Hok as [-> ->]. cbn [negb orb]. cbv zeta.
  destruct (_ || _); [by split; [| left] |].
  destruct (bool_decide _); [by split; [| left] |].
  case_bool_decide as Hadt; [by split; [| left] |].
  destruct (range_ends _ _ _) as [[lo hi] below].
  destruct below; [by split; [| left] |].
  destruct (hi >? last_port map); [by split; [| left] |].
  match goal with
  | |- context [uadt_for ?op ?f ?fl ?n ?p ?m] =>
      pose proof (uadt_for_ret op f fl exist_or_ok (or_introl eq_refl)
                    (base_op_ret adt) n p m) as Hret;
      destruct (uadt_for op f fl n p m) as [ret map']
  end.
  cbn [fst snd] in *. split; [by destruct Hret as [-> | ->] | by right].
Qed.

Lemma timeout_uadt_outcome {ops : timeout_ops} (jiffies : Z)
    (map : bitmap_port_timeout) (tb : adt_attrs) (adt : ipset_adt)
    (lineno flags : Z) :
  timeout_attrs_ok tb = true ->
  let r := (bitmap_port_timeout_uadt jiffies map (Some tb) adt
              lineno flags).1 in
  r.1 <> Neg IPSET_ERR_PROTOCOL
  /\ (r.2 = map \/ (adt <> IPSET_TEST /\ exist_or_ok r.1)).
Proof.
  unfold timeout_attrs_ok, bitmap_port_timeout_uadt. intros Hok.
  apply andb_true_iff in Hok as [Hok ->].
  apply andb_true_iff in Hok as [-> ->]. cbn [negb orb]. cbv zeta.
  destruct (_ || _); [by split; [| left] |].
  case_bool_decide as Hadt; [by split; [| left] |].
  destruct (range_ends _ _ _) as [[lo hi] below].
  destruct below; [by split; [| left] |].
  destruct (hi >? tlast_port map); [by split; [| left] |].
  match goal with
  | |- context [uadt_for ?op ?f ?fl ?n ?p ?m] =>
      pose proof (uadt_for_ret op f fl exist_or_ok (or_introl eq_refl)
                    (timeout_op_ret jiffies adt _) n p m) as Hret;
      destruct (uadt_for op f fl n p m) as [ret map']
  end.
  cbn [fst snd] in *. split; [by destruct Hret as [-> | ->] | by right].
Qed.

(** X5.  A test never changes the set: on the packet path and on the
    request path of both variants, whatever the packet or the request,
    well formed or not, in range or not, a call with the command
    IPSET_TEST returns the map it was given. *)
Theorem test_never_mutates {ops : timeout_ops} (jiffies : Z)
    (map : bitmap_port) (tmap : bitmap_port_timeout) (skb_port : option Z)
    (tb : option adt_attrs) (lineno flags : Z) :
  (bitmap_port_kadt map skb_port IPSET_TEST).2 = map
  /\ (bitmap_port_uadt map tb IPSET_TEST lineno flags).1.2 = map
  /\ (bitmap_port_timeout_kadt jiffies tmap skb_port IPSET_TEST).2 = tmap
  /\ (bitmap_port_timeout_uadt jiffies tmap tb IPSET_TEST lineno flags).1.2
     = tmap.
Proof.
  repeat split_and.
  - unfold bitmap_port_kadt. destruct skb_port; [| done].
    by destruct (_ || _).
  - destruct tb as [tb |]; [| done]. rewrite base_uadt_shape.
    destruct (attrs_ok tb) eqn:Hok; [| done]. cbn [fst snd].
    by destruct (base_uadt_outcome map tb IPSET_TEST lineno flags Hok)
      as [_ [H | [H _]]].
  - unfold bitmap_port_timeout_kadt. destruct skb_port; [| done].
    by destruct (_ || _).
  - destruct tb as [tb |]; [| done]. rewrite timeout_uadt_shape.
    destruct (timeout_attrs_ok tb) eqn:Hok; [| done]. cbn [fst snd].
    by destruct (timeout_uadt_outcome jiffies tmap tb IPSET_TEST lineno
                   flags Hok) as [_ [H | [H _]]].
Qed.

(** X6.  Only success and AlreadyExists come with a changed set: a call on
    the request path of either variant that answers anything but 0 or
    -IPSET_ERR_EXIST, be it the protocol, the range or the timeout error
    or the answer of a test, returns the map it was given. *)
Theorem failed_request_keeps_set {ops : timeout_ops} (jiffies : Z)
    (map : bitmap_port) (tmap : bitmap_port_timeout)
    (tb : option adt_attrs) (adt : ipset_adt) (lineno flags : Z) :
  let r := (bitmap_port_uadt map tb adt lineno flags).1 in
  let rt := (bitmap_port_timeout_uadt jiffies tmap tb adt lineno flags).1 in
  (r.1 <> Ret 0 -> r.1 <> Neg IPSET_ERR_EXIST -> r.2 = map)
  /\ (rt.1 <> Ret 0 -> rt.1 <> Neg IPSET_ERR_EXIST -> rt.2 = tmap).
Proof.
  cbv zeta. split; intros H0 He.
  - destruct tb as [tb |]; [| done]. rewrite base_uadt_shape in *.
    destruct (attrs_ok tb) eqn:Hok; [| done]. cbn [fst snd] in *.
    destruct (base_uadt_outcome map tb adt lineno flags Hok)
      as [_ [H | [_ [H | H]]]]; done.
  - destruct tb as [tb |]; [| done]. rewrite timeout_uadt_shape in *.
    destruct (timeout_attrs_ok tb) eqn:Hok; [| done]. cbn [fst snd] in *.
    destruct (timeout_uadt_outcome jiffies tmap tb adt lineno flags Hok)
      as [_ [H | [_ [H | H]]]]; done.
Qed.

Lemma failed_request_keeps_set_witness :
  (bitmap_port_uadt map_1000_1010 (Some (range 1009 1012)) IPSET_ADD 0 0).1.2
  = map_1000_1010.
Proof.
  refine (proj1 (failed_request_keeps_set (ops := spec_timeout_ops) 0
                   map_1000_1010 tmap_1000_1010 (Some (range 1009 1012))
                   IPSET_ADD 0 0) _ _).
  - discriminate.
  - discriminate.
Defined.

(** X7.  The protocol error is the answer to a request that did not parse
    or failed the attribute checks, and to no other: either uadt function
    answers -IPSET_ERR_PROTOCOL exactly when nla_parse failed, the port
    attribute is missing, or one of the attributes it checks lacks the
    network byte order flag; it then leaves the set and the line number of
    the caller as they were.  A request that passes the checks always
    leaves the caller the line number of the request, when it carries one,
    even if it goes on to fail. *)
Theorem protocol_error_and_lineno {ops : timeout_ops} (jiffies : Z)
    (map : bitmap_port) (tmap : bitmap_port_timeout)
    (tb : option adt_attrs) (adt : ipset_adt) (lineno flags : Z) :
  let r := bitmap_port_uadt map tb adt lineno flags in
  let rt := bitmap_port_timeout_uadt jiffies tmap tb adt lineno flags in
  let bad := from_option (fun t => negb (attrs_ok t)) true tb in
  let tbad := from_option (fun t => negb (timeout_attrs_ok t)) true tb in
  (r.1.1 = Neg IPSET_ERR_PROTOCOL <-> bad = true)
  /\ (bad = true -> r = (Neg IPSET_ERR_PROTOCOL, map, lineno))
  /\ (bad = false -> r.2 = from_option (fun t => new_lineno t lineno) lineno tb)
  /\ (rt.1.1 = Neg IPSET_ERR_PROTOCOL <-> tbad = true)
  /\ (tbad = true -> rt = (Neg IPSET_ERR_PROTOCOL, tmap, lineno))
  /\ (tbad = false ->
      rt.2 = from_option (fun t => new_lineno t lineno) lineno tb).
Proof.
  cbv zeta. destruct tb as [tb |]; cbn [from_option]; [| by repeat split].
  rewrite base_uadt_shape, timeout_uadt_shape.
  split_and!.
  - destruct (attrs_ok tb) eqn:Hok; cbn [negb fst snd]; [| done].
    split; [| done]. intros H.
    by destruct (base_uadt_outcome map tb adt lineno flags Hok) as [Hne _].
  - by destruct (attrs_ok tb).
  - by destruct (attrs_ok tb).
  - destruct (timeout_attrs_ok tb) eqn:Hok; cbn [negb fst snd]; [| done].
    split; [| done]. intros H.
    by destruct (timeout_uadt_outcome jiffies tmap tb adt lineno flags Hok)
      as [Hne _].
  - by destruct (timeout_attrs_ok tb).
  - by destruct (timeout_attrs_ok tb).
Qed.

Lemma protocol_error_and_lineno_witness :
  bitmap_port_uadt map_1000_1010
    (Some (mk_adt_attrs (Some (mk_nlattr false 1005)) None None
             (Some (mk_nlattr true 7))))
    IPSET_ADD 3 0
  = (Neg IPSET_ERR_PROTOCOL, map_1000_1010, 3).
Proof.
  refine (proj1 (proj2 (protocol_error_and_lineno (ops := spec_timeout_ops)
                          0 map_1000_1010 tmap_1000_1010
                          (Some (mk_adt_attrs (Some (mk_nlattr false 1005))
                                   None None (Some (mk_nlattr true 7))))
                          IPSET_ADD 3 0)) _).
  reflexivity.
Defined.

(** ** Single members of a timed set *)

(** X8.  On a timed set, whatever the header makes of its helpers: add of
    an in-range port whose slot tests absent answers 0 and writes into the
    slot the expiry that ip_set_timeout_set makes of the clock and of the
    timeout, the default timeout of the set on the packet path and for a
    request without timeout attribute, the timeout of the request when it
    carries one; the slots of all other ports are left as they were. *)
Theorem timed_add_writes_expiry {ops : timeout_ops} (jiffies : Z)
    (map : bitmap_port_timeout) (tb : adt_attrs)
    (port other lineno flags : Z) :
  wf_tmap map ->
  tfirst_port map <= port <= tlast_port map ->
  tfirst_port map <= other <= tlast_port map -> other <> port ->
  request_for tb port -> ATTR_PORT_TO tb = None ->
  bitmap_port_timeout_test jiffies map (port - tfirst_port map) = false ->
  let id := port - tfirst_port map in
  let t := match ATTR_TIMEOUT tb with
           | Some a => ip_set_timeout_uget a
           | None => timeout map
           end in
  let k := bitmap_port_timeout_kadt jiffies map (Some port) IPSET_ADD in
  let u := (bitmap_port_timeout_uadt jiffies map (Some tb) IPSET_ADD
              lineno flags).1 in
  k = (Ret 0, set_slot map id (ip_set_timeout_set jiffies (timeout map)))
  /\ u = (Ret 0, set_slot map id (ip_set_timeout_set jiffies t))
  /\ slot k.2 id = ip_set_timeout_set jiffies (timeout map)
  /\ slot u.2 id = ip_set_timeout_set jiffies t
  /\ slot k.2 (other - tfirst_port map) = slot map (other - tfirst_port map)
  /\ slot u.2 (other - tfirst_port map) = slot map (other - tfirst_port map).
Proof.
  intros Hwf Hin Hother Hne Hreq Hto Habsent. cbv zeta.
  rewrite timeout_kadt_in_range by done. cbv zeta.
  rewrite (timeout_uadt_single _ _ _ _ port) by done. cbv zeta.
  unfold bitmap_port_timeout_adt.
  rewrite (bool_decide_eq_true_2 (IPSET_ADD = IPSET_ADD)) by reflexivity.
  unfold bitmap_port_timeout_add. rewrite Habsent. cbn [fst snd nonzero].
  rewrite Z.eqb_refl. cbn [negb andb fst snd].
  pose proof (slot_index map port Hwf Hin) as Hidx.
  destruct Hwf as (H0 & H1 & H2 & Hlen).
  rewrite !slot_set_slot_eq by done.
  rewrite !slot_set_slot_ne by lia.
  by repeat split.
Qed.

Lemma timed_add_writes_expiry_witness :
  (bitmap_port_timeout_uadt (ops := spec_timeout_ops) 100 tmap_1000_1010
     (Some (with_timeout (single 1007) 30)) IPSET_ADD 0 0).1
  = (Ret 0, set_slot tmap_1000_1010 (1007 - 1000)
              (ip_set_timeout_set (timeout_ops := spec_timeout_ops) 100 30)).
Proof.
  refine (proj1 (proj2 (timed_add_writes_expiry (ops := spec_timeout_ops) 100
                          tmap_1000_1010 (with_timeout (single 1007) 30)
                          1007 1005 0 0 _ _ _ _ _ _ _))).
  - unfold wf_tmap. simpl. lia.
  - simpl. lia.
  - simpl. lia.
  - discriminate.
  - repeat split.
  - reflexivity.
  - reflexivity.
Defined.

(** ** Flush and the collector *)

(** X9.  After a flush every port of the range is absent: on a plain set
    every test answers 0; on a timed set every slot holds the sentinel,
    and every test answers 0 under any header whose test reads the
    sentinel as absent.  A flushed set is well formed if the set was. *)
Theorem flush_empties {ops : timeout_ops} (jiffies : Z)
    (map : bitmap_port) (tmap : bitmap_port_timeout) (port : Z) :
  wf_map map -> wf_tmap tmap ->
  (first_port map <= port <= last_port map ->
   bitmap_port_kadt (bitmap_port_flush map) (Some port) IPSET_TEST
   = (Ret 0, bitmap_port_flush map))
  /\ (tfirst_port tmap <= port <= tlast_port tmap ->
   slot (bitmap_port_timeout_flush tmap) (port - tfirst_port tmap)
   = IPSET_ELEM_UNSET
   /\ (ip_set_timeout_test jiffies IPSET_ELEM_UNSET = false ->
       bitmap_port_timeout_kadt jiffies (bitmap_port_timeout_flush tmap)
         (Some port) IPSET_TEST
       = (Ret 0, bitmap_port_timeout_flush tmap)))
  /\ wf_map (bitmap_port_flush map)
  /\ wf_tmap (bitmap_port_timeout_flush tmap).
Proof.
  intros Hwf Hwft.
  assert (Hwft' : wf_tmap (bitmap_port_timeout_flush tmap)).
  { unfold wf_tmap, bitmap_port_timeout_flush in *. simpl.
    by rewrite length_replicate. }
  split_and!; [| | done | done].
  - intros Hin.
    rewrite (base_kadt_in_range (bitmap_port_flush map)) by done.
    cbv zeta. unfold bitmap_port_test, test_bit. simpl.
    by rewrite Z.testbit_0_l.
  - intros Hin.
    assert (Hslot : slot (bitmap_port_timeout_flush tmap)
                      (port - tfirst_port tmap) = IPSET_ELEM_UNSET).
    { unfold slot, bitmap_port_timeout_flush. simpl.
      apply lookup_total_replicate_2.
      by apply slot_index. }
    split; [done |]. intros Hunset.
    rewrite (timeout_kadt_in_range jiffies (bitmap_port_timeout_flush tmap))
      by done.
    cbv zeta. unfold bitmap_port_timeout_test.
    change (tfirst_port (bitmap_port_timeout_flush tmap))
      with (tfirst_port tmap).
    by rewrite Hslot, Hunset.
Qed.

Lemma flush_empties_witness :
  bitmap_port_kadt (bitmap_port_flush map_1000_1010) (Some 1005) IPSET_TEST
  = (Ret 0, bitmap_port_flush map_1000_1010).
Proof.
  refine (proj1 (flush_empties (ops := spec_timeout_ops) 0 map_1000_1010
                   tmap_1000_1010 1005 _ _) _).
  - unfold wf_map. simpl. lia.
  - unfold wf_tmap. simpl. lia.
  - simpl. lia.
Defined.

Lemma list_eq_total (l1 l2 : list Z) :
  length l1 = length l2 ->
  (forall i, (i < length l1)%nat -> l1 !!! i = l2 !!! i) ->
  l1 = l2.
Proof.
  intros Hlen Hi. apply (list_eq_same_length _ _ (length l1)); [done.. |].
  intros i x y Hlt H1 H2.
  specialize (Hi i Hlt).
  by rewrite (list_lookup_total_correct _ _ _ H1),
    (list_lookup_total_correct _ _ _ H2) in Hi.
Qed.

(** X10.  One run of the collector over a well-formed timed set, whatever
    the header makes of its helpers: every slot that
    ip_set_timeout_expired reports holds the sentinel afterwards, every
    other slot is left as it was, and a second run at the same instant
    changes nothing more. *)
Theorem gc_sweeps_once {ops : timeout_ops} (jiffies : Z)
    (map : bitmap_port_timeout) (port : Z) :
  wf_tmap map -> tfirst_port map <= port <= tlast_port map ->
  let id := port - tfirst_port map in
  let swept := bitmap_port_gc jiffies map in
  (ip_set_timeout_expired jiffies (slot map id) = true ->
   slot swept id = IPSET_ELEM_UNSET)
  /\ (ip_set_timeout_expired jiffies (slot map id) = false ->
      slot swept id = slot map id)
  /\ bitmap_port_gc jiffies swept = swept
  /\ wf_tmap swept.
Proof.
  intros Hwf Hin. cbv zeta.
  rewrite gc_slot by done.
  split_and!.
  - by intros ->.
  - by intros ->.
  - destruct Hwf as (H0 & H1 & H2 & Hlen).
    unfold bitmap_port_gc, set_tmembers. simpl. f_equal.
    rewrite u16_id by lia. unfold iterations.
    apply list_eq_total; [by rewrite !gc_for_length |].
    intros i Hi. rewrite !gc_for_length in Hi.
    rewrite gc_for_lookup; [| lia | rewrite gc_for_length; lia].
    rewrite (gc_for_lookup jiffies _ 0 (tmembers map)) by lia.
    destruct (bool_decide _); cbn [andb]; [| done].
    destruct (ip_set_timeout_expired jiffies (tmembers map !!! i)) eqn:Hexp.
    + by destruct (ip_set_timeout_expired jiffies IPSET_ELEM_UNSET).
    + by rewrite Hexp.
  - by apply wf_gc.
Qed.

Lemma gc_sweeps_once_witness :
  slot (bitmap_port_gc (ops := spec_timeout_ops) 50 tmap_1000_1010)
       (1002 - 1000) = IPSET_ELEM_UNSET
  /\ slot (bitmap_port_gc (ops := spec_timeout_ops) 50 tmap_1000_1010)
          (1005 - 1000) = 90.
Proof.
  split.
  - refine (proj1 (gc_sweeps_once (ops := spec_timeout_ops) 50
                     tmap_1000_1010 1002 _ _) _).
    + unfold wf_tmap. simpl. lia.
    + simpl. lia.
    + reflexivity.
  - reflexivity.
Defined.

(** ** What a range request does to a plain set *)

Lemma plain_adt_bits (adt : ipset_adt) (m : bitmap_port) (id : Z) :
  0 <= id ->
  let r := bitmap_port_adt adt m id in
  Z.testbit (members r.2) id = bool_decide (adt = IPSET_ADD)
  /\ (forall j, 0 <= j -> j <> id ->
        Z.testbit (members r.2) j = Z.testbit (members m) j)
  /\ (r.1 = Ret 0
      <-> Z.testbit (members m) id = negb (bool_decide (adt = IPSET_ADD)))
  /\ exist_or_ok r.1.
Proof.
  intros Hid. cbv zeta.
  unfold bitmap_port_adt, bitmap_port_add, bitmap_port_del,
    test_and_set_bit, test_and_clear_bit, exist_or_ok.
  destruct (bool_decide (adt = IPSET_ADD));
    destruct (Z.testbit (members m) id) eqn:Hbit;
    cbn [negb fst snd set_members members];
    rewrite ?Z.setbit_eq, ?Z.clearbit_eq by done;
    (split_and!; [done | | split; done | auto]);
    intros j Hj Hne;
    by rewrite ?Z.setbit_neq, ?Z.clearbit_neq by lia.
Qed.

(** The loop of a range request on a plain set: the bits outside the
    slots it runs over are left alone; when it returns 0 every slot it ran
    over holds what the command puts there; and when AlreadyExists is not
    passed over it returns 0 exactly when no slot held that already. *)
Lemma plain_loop_bits (adt : ipset_adt) (first flags : Z) (n : nat) :
  forall (port : Z) (map : bitmap_port),
    first <= port -> port + Z.of_nat n - 1 - first <= 65535 ->
    let r := uadt_for (bitmap_port_adt adt) first flags n port map in
    let put := bool_decide (adt = IPSET_ADD) in
    (forall j, 0 <= j ->
       ~ (port - first <= j < port - first + Z.of_nat n) ->
       Z.testbit (members r.2) j = Z.testbit (members map) j)
    /\ (r.1 = Ret 0 ->
        forall j, port - first <= j < port - first + Z.of_nat n ->
                  Z.testbit (members r.2) j = put)
    /\ (ip_set_eexist (Neg IPSET_ERR_EXIST) flags = false ->
        (r.1 = Ret 0
         <-> forall j, port - first <= j < port - first + Z.of_nat n ->
                       Z.testbit (members map) j = negb put)
        /\ (r.1 = Ret 0 \/ r.1 = Neg IPSET_ERR_EXIST)).
Proof.
  induction n as [| n IH]; intros port map Hfirst Hmax; cbv zeta.
  { cbn [uadt_for fst snd]. split_and!; [done | intros _ j Hj; lia |].
    intros _. split; [| by left]. split; [intros _ j Hj; lia | done]. }
  rewrite uadt_for_step.
  assert (Hid : u16 (port - first) = port - first) by (apply u16_id; lia).
  rewrite Hid.
  destruct (plain_adt_bits adt map (port - first) ltac:(lia))
    as (Hput & Hframe & Hok & Hres).
  specialize (IH (port + 1) (bitmap_port_adt adt map (port - first)).2
                ltac:(lia) ltac:(lia)).
  cbv zeta in IH. destruct IH as (IHout & IHin & IHiff).
  destruct (fatal flags (bitmap_port_adt adt map (port - first)).1) eqn:Hf.
  - assert (Hnz : (bitmap_port_adt adt map (port - first)).1 <> Ret 0).
    { intros Heq. rewrite Heq in Hf. discriminate. }
    split_and!.
    + intros j Hj Hout. apply Hframe; lia.
    + intros Heq. done.
    + intros Hflag. split; [| by destruct Hres; auto].
      split; [done |]. intros Hall.
      destruct Hnz. apply Hok, Hall. lia.
  - split_and!.
    + intros j Hj Hout. rewrite IHout by lia. apply Hframe; lia.
    + intros Heq j Hj. destruct (decide (j = port - first)) as [-> | Hne].
      * rewrite IHout by lia. done.
      * apply IHin; [done | lia].
    + intros Hflag. destruct (IHiff Hflag) as [IH1 IH2].
      split; [| done].
      assert (Hz : (bitmap_port_adt adt map (port - first)).1 = Ret 0).
      { destruct Hres as [H | H]; [done |].
        rewrite H in Hf. unfold fatal in Hf. rewrite Hflag in Hf.
        discriminate. }
      rewrite IH1. split.
      * intros Hall j Hj.
        destruct (decide (j = port - first)) as [-> | Hne];
          [by apply Hok |].
        rewrite <- Hframe by lia. apply Hall. lia.
      * intros Hall j Hj. rewrite Hframe by lia. apply Hall. lia.
Qed.

Lemma kadt_test_bit (map : bitmap_port) (port : Z) :
  wf_map map -> first_port map <= port <= last_port map ->
  bitmap_port_kadt map (Some port) IPSET_TEST
  = (Ret (Z.b2z (Z.testbit (members map) (port - first_port map))), map).
Proof. intros Hwf Hin. by rewrite base_kadt_in_range. Qed.

Lemma plain_loop_bounds (adt : ipset_adt) (first flags : Z) (n : nat)
    (port : Z) (map : bitmap_port) :
  same_bounds map (uadt_for (bitmap_port_adt adt) first flags n port map).2.
Proof.
  apply (uadt_for_inv _ _ _ (same_bounds map)).
  - apply same_bounds_adt.
  - apply same_bounds_refl.
Qed.

Lemma wf_same_bounds (map map' : bitmap_port) :
  wf_map map -> same_bounds map map' -> wf_map map'.
Proof. unfold wf_map. intros H (-> & -> & _). done. Qed.

Lemma b2z_ret_inj (a b : bool) : Ret (Z.b2z a) = Ret (Z.b2z b) <-> a = b.
Proof. destruct a, b; split; intros H; done. Qed.

(** X11.  A range add or delete on a plain set, its ends within the
    bounds: the ports of the set outside the range test afterwards as they
    tested before, whatever the request returns; and when it returns 0
    every port of the range tests present after an add and absent after a
    delete.  Every command that is neither test nor add deletes. *)
Theorem plain_range_effect (map : bitmap_port) (tb : adt_attrs)
    (adt : ipset_adt) (lineno flags lo hi q : Z) :
  wf_map map ->
  first_port map <= lo -> lo <= hi -> hi <= last_port map ->
  range_request tb lo hi -> ATTR_TIMEOUT tb = None -> adt <> IPSET_TEST ->
  first_port map <= q <= last_port map ->
  let r := (bitmap_port_uadt map (Some tb) adt lineno flags).1 in
  (q < lo \/ hi < q ->
   (bitmap_port_kadt r.2 (Some q) IPSET_TEST).1
   = (bitmap_port_kadt map (Some q) IPSET_TEST).1)
  /\ (r.1 = Ret 0 -> lo <= q <= hi ->
      (bitmap_port_kadt r.2 (Some q) IPSET_TEST).1
      = Ret (Z.b2z (bool_decide (adt = IPSET_ADD)))).
Proof.
  intros Hwf Hlo Hle Hhi Hreq Ht Hadt Hq. cbv zeta.
  pose proof Hwf as (H0 & H1 & H2).
  rewrite (base_uadt_range map tb adt lineno flags lo hi) by (done || lia).
  rewrite Z.min_l, Z.max_r by lia.
  rewrite range_check_false' by lia. cbn [fst].
  pose proof (plain_loop_bounds adt (first_port map) flags
                (iterations lo hi) lo map) as Hb.
  pose proof (wf_same_bounds _ _ Hwf Hb) as Hwf'.
  destruct Hb as (Hf & Hl & _).
  destruct (plain_loop_bits adt (first_port map) flags (iterations lo hi)
              lo map ltac:(lia) ltac:(unfold iterations; lia))
    as (Hout & Hin & _).
  rewrite kadt_test_bit by (done || rewrite Hf, Hl; done).
  rewrite (kadt_test_bit map) by done. rewrite Hf. cbn [fst].
  split.
  - intros Hoff. rewrite Hout; [done | lia | unfold iterations; lia].
  - intros Hret Hqin. rewrite Hin; [done | done | unfold iterations; lia].
Qed.

Lemma plain_range_effect_witness :
  (bitmap_port_kadt
     (bitmap_port_uadt map_1000_1010 (Some (range 1006 1008)) IPSET_ADD
        0 0).1.2
     (Some 1007) IPSET_TEST).1
  = Ret (Z.b2z (bool_decide (IPSET_ADD = IPSET_ADD))).
Proof.
  refine (proj2 (plain_range_effect map_1000_1010 (range 1006 1008)
                   IPSET_ADD 0 0 1006 1008 1007 _ _ _ _ _ _ _ _) _ _).
  - unfold wf_map. simpl. lia.
  - simpl. lia.
  - lia.
  - simpl. lia.
  - repeat split.
  - reflexivity.
  - discriminate.
  - simpl. lia.
  - reflexivity.
  - lia.
Defined.

(** X12.  When the caller does not ask that AlreadyExists be passed over,
    a range add on a plain set whose ends are within the bounds returns 0
    exactly when no port of the range tested present before, and a range
    delete exactly when none tested absent; in every other case the
    request returns -IPSET_ERR_EXIST. *)
Theorem plain_range_conflict (map : bitmap_port) (tb : adt_attrs)
    (adt : ipset_adt) (lineno flags lo hi : Z) :
  wf_map map ->
  first_port map <= lo -> lo <= hi -> hi <= last_port map ->
  range_request tb lo hi -> ATTR_TIMEOUT tb = None -> adt <> IPSET_TEST ->
  ip_set_eexist (Neg IPSET_ERR_EXIST) flags = false ->
  let r := (bitmap_port_uadt map (Some tb) adt lineno flags).1 in
  (r.1 = Ret 0
   <-> forall q, lo <= q <= hi ->
         (bitmap_port_kadt map (Some q) IPSET_TEST).1
         = Ret (Z.b2z (negb (bool_decide (adt = IPSET_ADD)))))
  /\ (r.1 = Ret 0 \/ r.1 = Neg IPSET_ERR_EXIST).
Proof.
  intros Hwf Hlo Hle Hhi Hreq Ht Hadt Hflag. cbv zeta.
  pose proof Hwf as (H0 & H1 & H2).
  rewrite (base_uadt_range map tb adt lineno flags lo hi) by (done || lia).
  rewrite Z.min_l, Z.max_r by lia.
  rewrite range_check_false' by lia. cbn [fst].
  destruct (plain_loop_bits adt (first_port map) flags (iterations lo hi)
              lo map ltac:(lia) ltac:(unfold iterations; lia))
    as (_ & _ & Hiff).
  destruct (Hiff Hflag) as [Hzero Hres]. split; [| done].
  rewrite Hzero. split.
  - intros Hall q Hq. rewrite kadt_test_bit by (done || lia). cbn [fst].
    apply b2z_ret_inj, Hall. unfold iterations. lia.
  - intros Hall j Hj. unfold iterations in Hj.
    specialize (Hall (j + first_port map) ltac:(lia)).
    rewrite kadt_test_bit in Hall by (done || lia). cbn [fst] in Hall.
    apply b2z_ret_inj in Hall.
    by replace (j + first_port map - first_port map) with j in Hall by lia.
Qed.

Lemma plain_range_conflict_witness :
  (bitmap_port_uadt map_1000_1010 (Some (range 1006 1008)) IPSET_ADD
     0 0).1.1 = Ret 0
  \/ (bitmap_port_uadt map_1000_1010 (Some (range 1006 1008)) IPSET_ADD
        0 0).1.1 = Neg IPSET_ERR_EXIST.
Proof.
  refine (proj2 (plain_range_conflict map_1000_1010 (range 1006 1008)
                   IPSET_ADD 0 0 1006 1008 _ _ _ _ _ _ _ _)).
  - unfold wf_map. simpl. lia.
  - simpl. lia.
  - lia.
  - simpl. lia.
  - repeat split.
  - reflexivity.
  - discriminate.
  - reflexivity.
Defined.

(** ** What a range request does to a timed set *)

Lemma timed_adt_slots {ops : timeout_ops} (jiffies : Z) (adt : ipset_adt)
    (t : Z) (m : bitmap_port_timeout) (id : Z) :
  0 <= id -> (Z.to_nat id < length (tmembers m))%nat ->
  let r := bitmap_port_timeout_adt jiffies adt t m id in
  slot r.2 id
  = (if bool_decide (adt = IPSET_ADD)
     then if ip_set_timeout_test jiffies (slot m id) then slot m id
          else ip_set_timeout_set jiffies t
     else IPSET_ELEM_UNSET)
  /\ (forall j, 0 <= j -> j <> id -> slot r.2 j = slot m j)
  /\ length (tmembers r.2) = length (tmembers m).
Proof.
  intros Hid Hlen. cbv zeta.
  unfold bitmap_port_timeout_adt, bitmap_port_timeout_add,
    bitmap_port_timeout_del, bitmap_port_timeout_test.
  destruct (bool_decide (adt = IPSET_ADD));
    destruct (ip_set_timeout_test jiffies (slot m id)); cbn [fst snd];
    rewrite ?slot_set_slot_eq by done;
    (split_and!; [done | | by (done || apply length_insert)]);
    intros j Hj Hne; by rewrite ?slot_set_slot_ne by (done || lia).
Qed.

Lemma timed_loop_slots {ops : timeout_ops} (jiffies : Z) (adt : ipset_adt)
    (t first flags : Z) (n : nat) :
  forall (port : Z) (map : bitmap_port_timeout),
    first <= port -> port + Z.of_nat n - 1 - first <= 65535 ->
    (Z.to_nat (port - first) + n <= length (tmembers map))%nat ->
    let r := uadt_for (bitmap_port_timeout_adt jiffies adt t) first flags
               n port map in
    (forall j, 0 <= j ->
       ~ (port - first <= j < port - first + Z.of_nat n) ->
       slot r.2 j = slot map j)
    /\ (r.1 = Ret 0 ->
        forall j, port - first <= j < port - first + Z.of_nat n ->
          slot r.2 j
          = if bool_decide (adt = IPSET_ADD)
            then if ip_set_timeout_test jiffies (slot map j)
                 then slot map j else ip_set_timeout_set jiffies t
            else IPSET_ELEM_UNSET).
Proof.
  induction n as [| n IH]; intros port map Hfirst Hmax Hlen; cbv zeta.
  { cbn [uadt_for fst snd]. split; [done | intros _ j Hj; lia]. }
  rewrite uadt_for_step.
  assert (Hid : u16 (port - first) = port - first) by (apply u16_id; lia).
  rewrite Hid.
  destruct (timed_adt_slots jiffies adt t map (port - first)
              ltac:(lia) ltac:(lia)) as (Hput & Hframe & Hlen').
  specialize (IH (port + 1)
                (bitmap_port_timeout_adt jiffies adt t map (port - first)).2
                ltac:(lia) ltac:(lia) ltac:(rewrite Hlen'; lia)).
  cbv zeta in IH. destruct IH as (IHout & IHin).
  destruct (fatal flags
              (bitmap_port_timeout_adt jiffies adt t map (port - first)).1)
    eqn:Hf.
  - split.
    + intros j Hj Hout. apply Hframe; lia.
    + intros Heq. rewrite Heq in Hf. discriminate.
  - split.
    + intros j Hj Hout. rewrite IHout by lia. apply Hframe; lia.
    + intros Heq j Hj. destruct (decide (j = port - first)) as [-> | Hne].
      * rewrite IHout by lia. done.
      * rewrite IHin by (done || lia). by rewrite Hframe by lia.
Qed.

(** X13.  A range add or delete on a timed set, its ends within the
    bounds, whatever the header makes of its helpers: the slots of the
    ports outside the range are left as they were, whatever the request
    returns; and when it returns 0, after a delete every slot of the range
    holds the sentinel, and after an add every slot of the range that
    tested present holds what it held and every other one holds the new
    expiry, made of the timeout of the request when it carries one and of
    the default timeout of the set otherwise. *)
Theorem timed_range_effect {ops : timeout_ops} (jiffies : Z)
    (map : bitmap_port_timeout) (tb : adt_attrs)
    (adt : ipset_adt) (lineno flags lo hi q : Z) :
  wf_tmap map ->
  tfirst_port map <= lo -> lo <= hi -> hi <= tlast_port map ->
  range_request tb lo hi -> adt <> IPSET_TEST ->
  tfirst_port map <= q <= tlast_port map ->
  let r := (bitmap_port_timeout_uadt jiffies map (Some tb) adt
              lineno flags).1 in
  let id := q - tfirst_port map in
  let t := match ATTR_TIMEOUT tb with
           | Some a => ip_set_timeout_uget a
           | None => timeout map
           end in
  (q < lo \/ hi < q -> slot r.2 id = slot map id)
  /\ (r.1 = Ret 0 -> lo <= q <= hi ->
      slot r.2 id
      = if bool_decide (adt = IPSET_ADD)
        then if bitmap_port_timeout_test jiffies map id
             then slot map id else ip_set_timeout_set jiffies t
        else IPSET_ELEM_UNSET).
Proof.
  intros Hwf Hlo Hle Hhi Hreq Hadt Hq. cbv zeta.
  destruct Hwf as (H0 & H1 & H2 & Hlen).
  rewrite (timeout_uadt_range jiffies map tb adt lineno flags lo hi)
    by (done || lia).
  rewrite Z.min_l, Z.max_r by lia.
  rewrite range_check_false' by lia. cbn [fst].
  destruct (timed_loop_slots jiffies adt
              match ATTR_TIMEOUT tb with
              | Some a => ip_set_timeout_uget a
              | None => timeout map
              end
              (tfirst_port map) flags (iterations lo hi) lo map
              ltac:(lia) ltac:(unfold iterations; lia)
              ltac:(unfold iterations; lia)) as (Hout & Hin).
  split.
  - intros Hoff. apply Hout; [lia | unfold iterations; lia].
  - intros Hret Hqin. apply Hin; [done | unfold iterations; lia].
Qed.

Lemma timed_range_effect_witness :
  slot (bitmap_port_timeout_uadt (ops := spec_timeout_ops) 100
          tmap_1000_1010 (Some (range 1001 1003)) IPSET_DEL 0 1).1.2
       (1002 - 1000)
  = IPSET_ELEM_UNSET.
Proof.
  refine (proj2 (timed_range_effect (ops := spec_timeout_ops) 100
                   tmap_1000_1010 (range 1001 1003) IPSET_DEL 0 1
                   1001 1003 1002 _ _ _ _ _ _ _) _ _).
  - unfold wf_tmap. simpl. lia.
  - simpl. lia.
  - lia.
  - simpl. lia.
  - repeat split.
  - discriminate.
  - simpl. lia.
  - reflexivity.
  - lia.
Defined.

(** ** The timeout attribute of a request, both variants *)

(** C2, as the code has it.  On a plain set a request that passes the
    attribute checks and whose port is within the bounds is refused with
    -IPSET_ERR_TIMEOUT, not with -IPSET_ERR_PROTOCOL, when it carries a
    timeout attribute, whatever the command, and the set is left as it was.
    On a timed set a well-formed timeout attribute is never refused: no
    command answers it with -IPSET_ERR_PROTOCOL or -IPSET_ERR_TIMEOUT;
    test and delete behave as if the attribute were not there; and add
    makes the expiry it writes from the timeout of the attribute, not from
    the default of the set: into the slot of a single port that tests
    absent, and, when a range add returns 0, into every slot of the range
    that tested absent. *)
Theorem timeout_attribute_handling {ops : timeout_ops} (jiffies : Z)
    (map : bitmap_port) (tmap : bitmap_port_timeout) (tb : adt_attrs)
    (adt : ipset_adt) (port lineno flags : Z) (a : nlattr) :
  0 <= port <= 65535 ->
  request_for tb port ->
  ATTR_TIMEOUT tb = Some a ->
  let added := (bitmap_port_timeout_uadt jiffies tmap (Some tb) IPSET_ADD
                  lineno flags).1 in
  let expiry := ip_set_timeout_set jiffies (ip_set_timeout_uget a) in
  (first_port map <= port <= last_port map ->
     (bitmap_port_uadt map (Some tb) adt lineno flags).1
     = (Neg IPSET_ERR_TIMEOUT, map))
  /\ (bitmap_port_timeout_uadt jiffies tmap (Some tb) adt lineno flags).1.1
     <> Neg IPSET_ERR_PROTOCOL
  /\ (bitmap_port_timeout_uadt jiffies tmap (Some tb) adt lineno flags).1.1
     <> Neg IPSET_ERR_TIMEOUT
  /\ (adt <> IPSET_ADD ->
      bitmap_port_timeout_uadt jiffies tmap (Some tb) adt lineno flags
      = bitmap_port_timeout_uadt jiffies tmap (Some (without_timeout tb))
          adt lineno flags)
  /\ (wf_tmap tmap -> tfirst_port tmap <= port <= tlast_port tmap ->
      ATTR_PORT_TO tb = None ->
      bitmap_port_timeout_test jiffies tmap (port - tfirst_port tmap)
      = false ->
      added = (Ret 0, set_slot tmap (port - tfirst_port tmap) expiry))
  /\ (forall hi q : Z,
        wf_tmap tmap -> ATTR_PORT_TO tb = Some (mk_nlattr true hi) ->
        tfirst_port tmap <= port -> port <= hi -> hi <= tlast_port tmap ->
        port <= q <= hi -> added.1 = Ret 0 ->
        slot added.2 (q - tfirst_port tmap)
        = if bitmap_port_timeout_test jiffies tmap (q - tfirst_port tmap)
          then slot tmap (q - tfirst_port tmap) else expiry).
Proof.
  intros Hport Hreq Htimeout. cbv zeta.
  destruct (request_for_checks _ _ Hreq) as (Hp & Hto & Ht & Hv).
  rewrite (u16_id port Hport) in Hv.
  assert (Hacc :
    (bitmap_port_timeout_uadt jiffies tmap (Some tb) adt lineno flags).1.1
      <> Neg IPSET_ERR_PROTOCOL
    /\ (bitmap_port_timeout_uadt jiffies tmap (Some tb) adt lineno flags).1.1
      <> Neg IPSET_ERR_TIMEOUT).
  { unfold bitmap_port_timeout_uadt. rewrite Hp, Hto, Ht. simpl.
    destruct (_ || _); [by split |].
    destruct (bool_decide (adt = IPSET_TEST)); [by split |].
    destruct (range_ends _ _ _) as [[lo hi] below].
    destruct below; [by split |].
    destruct (hi >? tlast_port tmap); [by split |].
    match goal with
    | |- context [uadt_for ?op ?f ?fl ?n ?p ?m] =>
        pose proof (uadt_for_ret op f fl exist_or_ok (or_introl eq_refl)
                      (timeout_op_ret jiffies adt _) n p m) as Hret;
        destruct (uadt_for op f fl n p m) as [ret map']
    end.
    simpl in *. destruct Hret as [-> | ->]; by split. }
  split; [| split; [apply Hacc | split; [apply Hacc | split; [| split]]]].
  - intros Hin. unfold bitmap_port_uadt. rewrite Hp, Hto, Hv. simpl.
    rewrite (range_check_false _ _ _ Hin).
    by rewrite bool_decide_eq_true_2 by (by rewrite Htimeout).
  - intros Hadt. unfold bitmap_port_timeout_uadt, without_timeout.
    unfold range_ends, new_lineno. simpl. rewrite Ht.
    destruct adt; [by destruct Hadt | reflexivity ..].
  - intros Hwf Hin Hnone Habsent.
    rewrite (timeout_uadt_single _ _ _ _ port) by done. cbv zeta.
    rewrite Htimeout. unfold bitmap_port_timeout_adt.
    rewrite (bool_decide_eq_true_2 (IPSET_ADD = IPSET_ADD)) by reflexivity.
    unfold bitmap_port_timeout_add. rewrite Habsent. cbn [fst snd nonzero].
    by rewrite Z.eqb_refl.
  - intros hi q Hwf Hsome Hlo Hle Hhi Hq.
    destruct Hwf as (H0 & H1 & H2 & Hlen).
    destruct Hreq as (Hport' & _ & Htn).
    rewrite (timeout_uadt_range jiffies tmap tb IPSET_ADD lineno flags
               port hi) by (done || lia).
    rewrite Z.min_l, Z.max_r by lia.
    rewrite range_check_false' by lia. cbn [fst]. rewrite Htimeout.
    destruct (timed_loop_slots jiffies IPSET_ADD (ip_set_timeout_uget a)
                (tfirst_port tmap) flags (iterations port hi) port tmap
                ltac:(lia) ltac:(unfold iterations; lia)
                ltac:(unfold iterations; lia)) as (_ & Hin).
    intros Hret. rewrite Hin; [| done | unfold iterations; lia].
    by rewrite (bool_decide_eq_true_2 (IPSET_ADD = IPSET_ADD)).
Qed.

Lemma timeout_attribute_handling_witness :
  (bitmap_port_uadt map_1000_1010 (Some (with_timeout (single 1005) 7))
     IPSET_DEL 0 0).1
  = (Neg IPSET_ERR_TIMEOUT, map_1000_1010)
  /\ (bitmap_port_timeout_uadt (ops := spec_timeout_ops) 100 tmap_1000_1010
        (Some (with_timeout (single 1007) 7)) IPSET_ADD 0 0).1
     = (Ret 0, set_slot tmap_1000_1010 (1007 - 1000) 107).
Proof.
  split.
  - refine (proj1 (timeout_attribute_handling (ops := spec_timeout_ops) 0
                     map_1000_1010 tmap_1000_1010
                     (with_timeout (single 1005) 7) IPSET_DEL 1005 0 0
                     (mk_nlattr true 7) _ _ _) _).
    + lia.
    + repeat split.
    + reflexivity.
    + simpl. lia.
  - refine (proj1 (proj2 (proj2 (proj2 (proj2
              (timeout_attribute_handling (ops := spec_timeout_ops) 100
                 map_1000_1010 tmap_1000_1010
                 (with_timeout (single 1007) 7) IPSET_ADD 1007 0 0
                 (mk_nlattr true 7) _ _ _))))) _ _ _ _).
    + lia.
    + repeat split.
    + reflexivity.
    + unfold wf_tmap. simpl. lia.
    + simpl. lia.
    + reflexivity.
    + reflexivity.
Defined.

(** C2 as stated fails three times over.  A timeout attribute on a plain
    set is answered with -IPSET_ERR_TIMEOUT, which is not the protocol
    error; on a timed set a test that carries one answers the test, and a
    delete that carries one deletes. *)
Lemma timeout_attribute_not_protocol_error :
  (bitmap_port_uadt map_1000_1010 (Some (with_timeout (single 1005) 7))
     IPSET_ADD 0 0).1.1 = Neg IPSET_ERR_TIMEOUT
  /\ Neg IPSET_ERR_TIMEOUT <> Neg IPSET_ERR_PROTOCOL
  /\ (bitmap_port_timeout_uadt (ops := spec_timeout_ops) 10 tmap_1000_1010
        (Some (with_timeout (single 1005) 7)) IPSET_TEST 0 0).1.1 = Ret 1
  /\ (bitmap_port_timeout_uadt (ops := spec_timeout_ops) 10 tmap_1000_1010
        (Some (with_timeout (single 1005) 7)) IPSET_DEL 0 0).1
     = (Ret 0, set_slot tmap_1000_1010 5 IPSET_ELEM_UNSET).
Proof. repeat split. discriminate. Qed.

(** ** The packet path against the request path *)

Lemma eexist_or_keep (ret : retval) (flags : Z) :
  exist_or_ok ret ->
  (if nonzero ret && negb (ip_set_eexist ret flags) then ret else Ret 0)
  = (if ip_set_eexist ret flags then Ret 0 else ret).
Proof. intros [-> | ->]; simpl; by destruct (Z.odd flags). Qed.

(** X14.  A request for one in-range port, without timeout attribute,
    does to the set what the packet path does for the same port and
    command, on both variants: a test returns the same answer; an add or a
    delete leaves the same set and returns the same result, except that
    -IPSET_ERR_EXIST becomes 0 when the flags ask that it be passed over.
    The two paths part on a command that is none of the three: the packet
    path answers -EINVAL and leaves the set alone, the request path
    deletes. *)
Theorem request_path_matches_packet_path {ops : timeout_ops} (jiffies : Z)
    (map : bitmap_port) (tmap : bitmap_port_timeout) (tb : adt_attrs)
    (adt : ipset_adt) (port lineno flags : Z) :
  request_for tb port -> ATTR_PORT_TO tb = None -> ATTR_TIMEOUT tb = None ->
  let k := bitmap_port_kadt map (Some port) adt in
  let u := (bitmap_port_uadt map (Some tb) adt lineno flags).1 in
  let kt := bitmap_port_timeout_kadt jiffies tmap (Some port) adt in
  let ut := (bitmap_port_timeout_uadt jiffies tmap (Some tb) adt
               lineno flags).1 in
  (wf_map map -> first_port map <= port <= last_port map ->
   (adt = IPSET_TEST -> u = k)
   /\ (adt = IPSET_ADD \/ adt = IPSET_DEL ->
       u.2 = k.2 /\ u.1 = if ip_set_eexist k.1 flags then Ret 0 else k.1)
   /\ (adt = IPSET_ADT_MAX ->
       k = (Neg EINVAL, map)
       /\ u = (bitmap_port_uadt map (Some tb) IPSET_DEL lineno flags).1))
  /\ (wf_tmap tmap -> tfirst_port tmap <= port <= tlast_port tmap ->
   (adt = IPSET_TEST -> ut = kt)
   /\ (adt = IPSET_ADD \/ adt = IPSET_DEL ->
       ut.2 = kt.2
       /\ ut.1 = if ip_set_eexist kt.1 flags then Ret 0 else kt.1)
   /\ (adt = IPSET_ADT_MAX ->
       kt = (Neg EINVAL, tmap)
       /\ ut = (bitmap_port_timeout_uadt jiffies tmap (Some tb) IPSET_DEL
                  lineno flags).1)).
Proof.
  intros Hreq Hto Ht. cbv zeta. split.
  - intros Hwf Hin. pose proof Hwf as (H0 & H1 & H2).
    pose proof Hreq as (Hp & _ & _).
    rewrite base_kadt_in_range by done. cbv zeta.
    split_and!.
    + intros ->. unfold bitmap_port_uadt. rewrite Hp, Hto, Ht.
      cbn [ip_set_attr_netorder ip_set_optattr_netorder ip_set_get_h16
           nla_netorder nla_value negb orb].
      rewrite (u16_id port) by lia.
      rewrite (range_check_false _ _ _ Hin).
      rewrite (bool_decide_eq_false_2 (is_Some None)) by (by intros [? ?]).
      rewrite (bool_decide_eq_true_2 (IPSET_TEST = IPSET_TEST))
        by reflexivity.
      cbn [fst]. by rewrite (u16_slot _ (last_port map)) by lia.
    + intros Hadt.
      rewrite (base_uadt_single map tb adt lineno flags port)
        by (done || lia || by destruct Hadt as [-> | ->]).
      cbn [fst]. rewrite uadt_for_one. cbv zeta.
      rewrite (u16_slot _ (last_port map)) by lia.
      assert (Hop : bitmap_port_adt adt map (port - first_port map)
                    = match adt with
                      | IPSET_TEST =>
                          (bitmap_port_test map (port - first_port map), map)
                      | IPSET_ADD =>
                          bitmap_port_add map (port - first_port map)
                      | IPSET_DEL =>
                          bitmap_port_del map (port - first_port map)
                      | IPSET_ADT_MAX => (Neg EINVAL, map)
                      end)
        by (by destruct Hadt as [-> | ->]).
      rewrite <- Hop. cbn [fst snd]. split; [done |].
      apply eexist_or_keep, base_op_ret.
    + intros ->. split; [done |].
      rewrite !(base_uadt_single map tb _ lineno flags port)
        by (done || lia).
      done.
  - intros Hwf Hin. pose proof Hwf as (H0 & H1 & H2 & Hlen).
    pose proof Hreq as (Hp & _ & Htn).
    rewrite timeout_kadt_in_range by done. cbv zeta.
    split_and!.
    + intros ->.
      by rewrite (timeout_uadt_test_in_range _ _ _ port) by done.
    + intros Hadt.
      rewrite (timeout_uadt_single_loop jiffies tmap tb adt lineno flags port)
        by (done || lia || by destruct Hadt as [-> | ->]).
      cbn [fst]. rewrite uadt_for_one. cbv zeta. rewrite Ht.
      rewrite (u16_slot _ (tlast_port tmap)) by lia.
      assert (Hop : bitmap_port_timeout_adt jiffies adt (timeout tmap) tmap
                      (port - tfirst_port tmap)
                    = match adt with
                      | IPSET_TEST =>
                          (Ret (Z.b2z (bitmap_port_timeout_test jiffies tmap
                                         (port - tfirst_port tmap))), tmap)
                      | IPSET_ADD =>
                          bitmap_port_timeout_add jiffies tmap
                            (port - tfirst_port tmap) (timeout tmap)
                      | IPSET_DEL =>
                          bitmap_port_timeout_del jiffies tmap
                            (port - tfirst_port tmap)
                      | IPSET_ADT_MAX => (Neg EINVAL, tmap)
                      end)
        by (by destruct Hadt as [-> | ->]).
      rewrite <- Hop. cbn [fst snd]. split; [done |].
      apply eexist_or_keep, timeout_op_ret.
    + intros ->. split; [done |].
      rewrite !(timeout_uadt_single_loop jiffies tmap tb _ lineno flags port)
        by (done || lia).
      done.
Qed.

Lemma request_path_matches_packet_path_witness :
  (bitmap_port_uadt map_1000_1010 (Some (single 1005)) IPSET_TEST 0 0).1
  = bitmap_port_kadt map_1000_1010 (Some 1005) IPSET_TEST.
Proof.
  refine (proj1 (proj1 (request_path_matches_packet_path
                          (ops := spec_timeout_ops) 0 map_1000_1010
                          tmap_1000_1010 (single 1005) IPSET_TEST 1005 0 0
                          _ _ _) _ _) _).
  - repeat split.
  - reflexivity.
  - reflexivity.
  - unfold wf_map. simpl. lia.
  - simpl. lia.
  - reflexivity.
Defined.

(** ** Listing with a buffer that may run out *)

Lemma nla_put_full (skb : sk_buff) (item : nlitem) (payload : Z) :
  nla_put skb item payload = None
  \/ nla_put skb item payload
     = Some (mk_sk_buff (skb_data skb ++ [item])
                        (skb_tailroom skb - nla_total_size payload)).
Proof.
  unfold nla_put. destruct (_ <? _); auto.
Qed.

(** Whatever the room, the loop of the listing stops after [k] slots,
    having written one whole entry for each of them that tests present:
    either [k] is all of them, the outer nest is closed and the cursor
    zeroed; or slot number [k] tests present and could not be written,
    and the cursor is left on it. *)
Lemma bitmap_port_list_for_any (map : bitmap_port) (first : Z)
    (atd : sk_buff) (n : nat) :
  forall (skb : sk_buff) (cursor : Z),
    0 <= first_port map -> 0 <= cursor ->
    first_port map + cursor + Z.of_nat n - 1 <= 65535 ->
    let r := bitmap_port_list_for map first atd n skb cursor in
    exists k : nat,
      (k <= n)%nat
      /\ let written :=
           skb_data skb
           ++ flat_map port_entry
                (filter (fun p => bitmap_port_test map (p - first_port map)
                                  = Ret 1)
                        (seqZ (first_port map + cursor) (Z.of_nat k)))
           ++ [NestEnd] in
         (k = n -> r.1.1 = Ret 0 /\ r.2 = 0 /\ skb_data r.1.2 = written)
         /\ ((k < n)%nat ->
             test_bit (cursor + Z.of_nat k) (members map) = true
             /\ r.2 = cursor + Z.of_nat k
             /\ ((r.1.1 = Ret 0 /\ skb_data r.1.2 = written)
                 \/ (cursor + Z.of_nat k = first
                     /\ r.1.1 = Neg EFAULT /\ r.1.2 = atd))).
Proof.
  induction n as [| n IH]; intros skb cursor Hfp Hc Hmax; cbv zeta.
  { exists 0%nat. split; [done |]. split; [| lia].
    intros _. by repeat split. }
  cbn [bitmap_port_list_for]. rewrite (u16_id cursor) by lia.
  assert (Hid : first_port map + cursor - first_port map = cursor) by lia.
  destruct (test_bit cursor (members map)) eqn:Hbit; cbn [negb].
  - unfold ipset_nest_start.
    destruct (nla_put_full skb (NestStart IPSET_ATTR_DATA) 0) as [-> | ->].
    { exists 0%nat. split; [lia |]. split; [lia |]. intros _.
      rewrite Z.add_0_r. split; [done |].
      destruct (Z.eqb_spec cursor first) as [-> | Hne]; cbn.
      - split; [done |]. by right.
      - split; [done |]. by left. }
    unfold nla_put_net16.
    destruct (nla_put_full
                (mk_sk_buff (skb_data skb ++ [NestStart IPSET_ATTR_DATA])
                            (skb_tailroom skb - nla_total_size 0))
                (Net16 IPSET_ATTR_PORT (u16 (first_port map + cursor))) 2)
      as [-> | ->].
    { exists 0%nat. split; [lia |]. split; [lia |]. intros _.
      rewrite Z.add_0_r. split; [done |]. cbn. split; [done |].
      by left. }
    rewrite (u16_id (first_port map + cursor)) by lia.
    cbn [skb_data skb_tailroom].
    destruct (IH (ipset_nest_end
                    (mk_sk_buff
                       ((skb_data skb ++ [NestStart IPSET_ATTR_DATA])
                        ++ [Net16 IPSET_ATTR_PORT (first_port map + cursor)])
                       (skb_tailroom skb - nla_total_size 0
                        - nla_total_size 2)))
                 (cursor + 1) Hfp ltac:(lia) ltac:(lia))
      as (k & Hk & Hdone & Hmore).
    exists (S k). split; [lia |].
    rewrite seqZ_cons by lia.
    replace (Z.pred (Z.of_nat (S k))) with (Z.of_nat k) by lia.
    replace (Z.succ (first_port map + cursor))
      with (first_port map + (cursor + 1)) by lia.
    rewrite filter_cons_True by (apply test_present; by rewrite Hid).
    replace (cursor + Z.of_nat (S k)) with (cursor + 1 + Z.of_nat k) by lia.
    cbn [ipset_nest_end skb_data flat_map port_entry] in *.
    rewrite <- !app_assoc in *. cbn [app] in *.
    split.
    + intros Hkn. apply Hdone. lia.
    + intros Hkn. apply Hmore. lia.
  - destruct (IH skb (cursor + 1) Hfp ltac:(lia) ltac:(lia))
      as (k & Hk & Hdone & Hmore).
    exists (S k). split; [lia |].
    rewrite seqZ_cons by lia.
    replace (Z.pred (Z.of_nat (S k))) with (Z.of_nat k) by lia.
    replace (Z.succ (first_port map + cursor))
      with (first_port map + (cursor + 1)) by lia.
    rewrite filter_cons_False
      by (rewrite test_present, Hid; by rewrite Hbit).
    replace (cursor + Z.of_nat (S k)) with (cursor + 1 + Z.of_nat k) by lia.
    split.
    + intros Hkn. apply Hdone. lia.
    + intros Hkn. apply Hmore. lia.
Qed.

Lemma listed_ports_message (items : list nlitem) (ps : list Z) :
  listed_ports ((items ++ [NestStart IPSET_ATTR_ADT])
                ++ flat_map port_entry ps ++ [NestEnd])
  = listed_ports items ++ ps.
Proof.
  rewrite !listed_ports_app, listed_port_entries. cbn.
  by rewrite !app_nil_r.
Qed.

(** One call of the listing on a plain set, whatever the room in the
    buffer. *)
Lemma bitmap_port_list_stop (map : bitmap_port) (skb : sk_buff)
    (cursor : Z) :
  wf_map map -> 0 <= cursor <= last_port map - first_port map ->
  let r := bitmap_port_list map skb cursor in
  let n := iterations cursor (last_port map - first_port map) in
  (r = (Neg EFAULT, skb, cursor))
  \/ (r.1.1 = Ret 0
      /\ exists k : nat,
           (k <= n)%nat
           /\ listed_ports (skb_data r.1.2)
              = listed_ports (skb_data skb)
                ++ filter (fun p => bitmap_port_test map (p - first_port map)
                                    = Ret 1)
                          (seqZ (first_port map + cursor) (Z.of_nat k))
           /\ (k = n -> r.2 = 0)
           /\ ((k < n)%nat ->
               r.2 = cursor + Z.of_nat k
               /\ test_bit (cursor + Z.of_nat k) (members map) = true)).
Proof.
  intros (H0 & H1 & H2) Hc. cbv zeta.
  unfold bitmap_port_list, ipset_nest_start.
  destruct (nla_put_full skb (NestStart IPSET_ATTR_ADT) 0) as [-> | ->];
    [by left |].
  rewrite (u16_id cursor), (u16_id (last_port map - first_port map)) by lia.
  destruct (bitmap_port_list_for_any map cursor skb
              (iterations cursor (last_port map - first_port map))
              (mk_sk_buff (skb_data skb ++ [NestStart IPSET_ATTR_ADT])
                          (skb_tailroom skb - nla_total_size 0))
              cursor ltac:(lia) ltac:(lia)
              ltac:(unfold iterations; lia))
    as (k & Hk & Hdone & Hmore).
  cbn [skb_data] in *.
  destruct (decide (k = iterations cursor (last_port map - first_port map)))
    as [Hkn | Hkn].
  - destruct (Hdone Hkn) as (Hret & Hcur & Hdata). right.
    split; [done |]. exists k. split; [done |].
    rewrite Hdata, listed_ports_message.
    split; [done |]. split; [done | lia].
  - destruct (Hmore ltac:(lia)) as (Hbit & Hcur & [[Hret Hdata] | Hfault]).
    + right. split; [done |]. exists k. split; [done |].
      rewrite Hdata, listed_ports_message.
      split; [done |]. split; [done |]. by intros _.
    + left. destruct Hfault as (Hk0 & Hret & Hskb).
      destruct (bitmap_port_list_for _ _ _ _ _ _) as [[ret skb'] cur].
      cbn [fst snd] in *. subst. f_equal. lia.
Qed.

(** X15.  One call of the listing on a plain set, from any cursor within
    the range and whatever the room in the buffer, either fails with
    -EFAULT and leaves buffer and cursor as they were, or returns 0 having
    listed, whole and in increasing order, exactly the ports that test
    present from the port of the cursor up to the port where it stopped:
    the end of the range, with the cursor zeroed, or a port that tests
    present and did not fit, with the cursor left on it. *)
Theorem list_call_outcome (map : bitmap_port) (skb : sk_buff) (cursor : Z) :
  wf_map map -> 0 <= cursor <= last_port map - first_port map ->
  let r := bitmap_port_list map skb cursor in
  (r = (Neg EFAULT, skb, cursor))
  \/ (r.1.1 = Ret 0
      /\ exists stop : Z,
           first_port map + cursor <= stop <= last_port map + 1
           /\ listed_ports (skb_data r.1.2)
              = listed_ports (skb_data skb)
                ++ filter (fun p => bitmap_port_test map (p - first_port map)
                                    = Ret 1)
                          (ports (first_port map + cursor) (stop - 1))
           /\ (stop = last_port map + 1 -> r.2 = 0)
           /\ (stop <= last_port map ->
               r.2 = stop - first_port map
               /\ bitmap_port_test map (stop - first_port map) = Ret 1)).
Proof.
  intros Hwf Hc. cbv zeta.
  destruct (bitmap_port_list_stop map skb cursor Hwf Hc)
    as [Hfault | (Hret & k & Hk & Hlisted & Hdone & Hmore)]; [by left |].
  right. split; [done |].
  unfold iterations in *. destruct Hwf as (H0 & H1 & H2).
  exists (first_port map + cursor + Z.of_nat k).
  split; [lia |]. unfold ports.
  replace (first_port map + cursor + Z.of_nat k - 1 + 1
           - (first_port map + cursor)) with (Z.of_nat k) by lia.
  split; [done |]. split.
  - intros Hstop. apply Hdone. lia.
  - intros Hstop. destruct (Hmore ltac:(lia)) as [Hcur Hbit].
    split; [lia |]. apply test_present.
    by replace (first_port map + cursor + Z.of_nat k - first_port map)
      with (cursor + Z.of_nat k) by lia.
Qed.

Lemma list_call_outcome_witness :
  bitmap_port_list map_1000_1010 (mk_sk_buff [] 3) 0
  = (Neg EFAULT, mk_sk_buff [] 3, 0)
  \/ (bitmap_port_list map_1000_1010 (mk_sk_buff [] 3) 0).1.1 = Ret 0
     /\ exists stop : Z,
          1000 + 0 <= stop <= 1010 + 1
          /\ listed_ports
               (skb_data
                  (bitmap_port_list map_1000_1010 (mk_sk_buff [] 3) 0).1.2)
             = listed_ports []
               ++ filter (fun p => bitmap_port_test map_1000_1010 (p - 1000)
                                   = Ret 1)
                         (ports (1000 + 0) (stop - 1))
          /\ (stop = 1010 + 1 ->
              (bitmap_port_list map_1000_1010 (mk_sk_buff [] 3) 0).2 = 0)
          /\ (stop <= 1010 ->
              (bitmap_port_list map_1000_1010 (mk_sk_buff [] 3) 0).2
              = stop - 1000
              /\ bitmap_port_test map_1000_1010 (stop - 1000) = Ret 1).
Proof.
  refine (list_call_outcome map_1000_1010 (mk_sk_buff [] 3) 0 _ _).
  - unfold wf_map. simpl. lia.
  - simpl. lia.
Defined.

Lemma bitmap_port_list_room (map : bitmap_port) (skb : sk_buff)
    (cursor : Z) :
  4 <= skb_tailroom skb ->
  bitmap_port_list map skb cursor
  = bitmap_port_list_for map (u16 cursor) skb
      (iterations cursor (u16 (last_port map - first_port map)))
      (mk_sk_buff (skb_data skb ++ [NestStart IPSET_ATTR_ADT])
                  (skb_tailroom skb - nla_total_size 0))
      cursor.
Proof.
  intros Hroom. unfold bitmap_port_list, ipset_nest_start.
  by rewrite nla_put_room by (change (nla_total_size 0) with 4; lia).
Qed.

(** X16.  A listing of a plain set that ran out of room and left a cursor
    other than 0 is finished by a second call from that cursor with room
    for the whole range: the second call returns 0 and zeroes the cursor,
    and the ports listed by the first call followed by those listed by the
    second are the ports that test present, each once, in increasing
    order. *)
Theorem list_resumes (map : bitmap_port) (skb1 skb2 : sk_buff) :
  wf_map map ->
  let r1 := bitmap_port_list map skb1 0 in
  r1.1.1 = Ret 0 -> r1.2 <> 0 ->
  4 + 12 * (last_port map - first_port map + 1) <= skb_tailroom skb2 ->
  let r2 := bitmap_port_list map skb2 r1.2 in
  r2.1.1 = Ret 0 /\ r2.2 = 0
  /\ exists first_page second_page : list Z,
       listed_ports (skb_data r1.1.2)
       = listed_ports (skb_data skb1) ++ first_page
       /\ listed_ports (skb_data r2.1.2)
          = listed_ports (skb_data skb2) ++ second_page
       /\ first_page ++ second_page = present_ports map.
Proof.
  intros Hwf. cbv zeta. intros Hret Hcur Hroom.
  pose proof Hwf as (H0 & H1 & H2).
  destruct (bitmap_port_list_stop map skb1 0 Hwf ltac:(lia))
    as [Hfault | (_ & k & Hk & Hlisted & Hdone & Hmore)].
  { rewrite Hfault in Hret. discriminate. }
  unfold iterations in *.
  destruct (decide (k = Z.to_nat (last_port map - first_port map + 1 - 0)))
    as [Hkn | Hkn]; [by destruct Hcur; apply Hdone |].
  destruct (Hmore ltac:(lia)) as [Hstop _]. rewrite Hstop.
  rewrite Z.add_0_l.
  rewrite (bitmap_port_list_room map skb2 (Z.of_nat k)) by lia.
  rewrite (u16_id (last_port map - first_port map)) by lia.
  destruct (bitmap_port_list_for_complete map (u16 (Z.of_nat k)) skb2
              (iterations (Z.of_nat k) (last_port map - first_port map))
              (mk_sk_buff (skb_data skb2 ++ [NestStart IPSET_ATTR_ADT])
                          (skb_tailroom skb2 - nla_total_size 0))
              (Z.of_nat k) ltac:(lia) ltac:(lia)
              ltac:(unfold iterations; lia)
              ltac:(change (nla_total_size 0) with 4; unfold iterations;
                    simpl; lia))
    as (Hret2 & Hcur2 & Hdata2).
  split; [done |]. split; [done |].
  eexists _, _. split; [exact Hlisted |]. split.
  - rewrite Hdata2. cbn [skb_data]. apply listed_ports_message.
  - rewrite <- filter_app. rewrite Z.add_0_r.
    rewrite <- seqZ_app by lia.
    unfold present_ports, ports, iterations. do 2 f_equal. lia.
Qed.

Lemma list_resumes_witness :
  (bitmap_port_list map_1000_1010 (mk_sk_buff [] 200)
     (bitmap_port_list map_1000_1010 (mk_sk_buff [] 20) 0).2).2 = 0
  /\ (bitmap_port_list map_1000_1010 (mk_sk_buff [] 20) 0).2 = 5.
Proof.
  split; [| reflexivity].
  refine (proj1 (proj2 (list_resumes map_1000_1010 (mk_sk_buff [] 20)
                          (mk_sk_buff [] 200) _ _ _ _))).
  - unfold wf_map. simpl. lia.
  - reflexivity.
  - discriminate.
  - simpl. lia.
Defined.

(** ** Creation *)

Lemma u16_range (z : Z) : 0 <= u16 z <= 65535.
Proof. unfold u16. pose proof (Z.mod_pos_bound z 65536). lia. Qed.

Lemma h16_range (a : option nlattr) : 0 <= ip_set_get_h16 a <= 65535.
Proof. destruct a; simpl; [apply u16_range | lia]. Qed.

(** X17.  Creation answers the protocol error exactly when the request
    did not parse or fails the attribute checks (both ports are
    mandatory), and, past the checks, the out-of-memory error exactly when
    one of the two allocations fails.  Otherwise it installs a
    well-formed set whose bounds are the lower and the higher of the two
    ports, in whatever order they were given, timed with the timeout of
    the request when it carries one and plain otherwise; the request with
    the two ports exchanged creates the same set. *)
Theorem create_outcome {ops : timeout_ops} (sizeof_long : Z)
    (bitmap_bytes : Z -> Z -> Z) (tb : create_attrs)
    (kzalloc_ok alloc_ok : bool) :
  let r := bitmap_port_create sizeof_long bitmap_bytes (Some tb)
             kzalloc_ok alloc_ok in
  let p := ip_set_get_h16 (CREATE_PORT tb) in
  let q := ip_set_get_h16 (CREATE_PORT_TO tb) in
  bitmap_port_create sizeof_long bitmap_bytes None kzalloc_ok alloc_ok
  = CreateProtocol
  /\ (r = CreateProtocol <-> create_attrs_ok tb = false)
  /\ (create_attrs_ok tb = true ->
      (r = CreateNoMem <-> kzalloc_ok && alloc_ok = false)
      /\ (kzalloc_ok && alloc_ok = true ->
          exists set : ip_set,
            r = Created set
            /\ wf_set set
            /\ data_first_port (data set) = Z.min p q
            /\ data_last_port (data set) = Z.max p q
            /\ timeout_policy set
               = ip_set_timeout_uget <$> CREATE_TIMEOUT tb))
  /\ bitmap_port_create sizeof_long bitmap_bytes (Some (create_swapped tb))
       kzalloc_ok alloc_ok = r.
Proof.
  cbv zeta. unfold bitmap_port_create, create_attrs_ok, create_swapped.
  cbn [CREATE_PORT CREATE_PORT_TO CREATE_TIMEOUT].
  pose proof (h16_range (CREATE_PORT tb)) as Hp.
  pose proof (h16_range (CREATE_PORT_TO tb)) as Hq.
  set (p := ip_set_get_h16 (CREATE_PORT tb)) in *.
  set (q := ip_set_get_h16 (CREATE_PORT_TO tb)) in *.
  split; [done |].
  destruct (ip_set_attr_netorder (CREATE_PORT tb));
    destruct (ip_set_attr_netorder (CREATE_PORT_TO tb));
    destruct (ip_set_optattr_netorder (CREATE_TIMEOUT tb));
    cbn [negb orb andb]; try (split_and!; done).
  rewrite (Z.gtb_ltb p q), (Z.gtb_ltb q p).
  destruct (Z.ltb_spec q p) as [Hlt | Hge];
    destruct (Z.ltb_spec p q) as [Hlt' | Hge']; try lia.
  - (* q < p *)
    rewrite Z.min_r, Z.max_l by lia.
    destruct (CREATE_TIMEOUT tb) as [a |], kzalloc_ok, alloc_ok;
      cbn [negb andb fmap option_fmap option_map];
      (split_and!; [done | intros _; split; [done |] | done]);
      intros Hmem; try discriminate Hmem;
      (eexists; split; [reflexivity |]);
      unfold wf_set, wf_tmap, wf_map, timeout_policy, ip_set_alloc_words;
      cbn; rewrite ?length_replicate; repeat split; lia.
  - (* p < q *)
    rewrite Z.min_l, Z.max_r by lia.
    destruct (CREATE_TIMEOUT tb) as [a |], kzalloc_ok, alloc_ok;
      cbn [negb andb fmap option_fmap option_map];
      (split_and!; [done | intros _; split; [done |] | done]);
      intros Hmem; try discriminate Hmem;
      (eexists; split; [reflexivity |]);
      unfold wf_set, wf_tmap, wf_map, timeout_policy, ip_set_alloc_words;
      cbn; rewrite ?length_replicate; repeat split; lia.
  - (* p = q *)
    assert (p = q) as Hpq by lia. rewrite <- Hpq.
    rewrite Z.min_id, Z.max_id.
    destruct (CREATE_TIMEOUT tb) as [a |], kzalloc_ok, alloc_ok;
      cbn [negb andb fmap option_fmap option_map];
      (split_and!; [done | intros _; split; [done |] | done]);
      intros Hmem; try discriminate Hmem;
      (eexists; split; [reflexivity |]);
      unfold wf_set, wf_tmap, wf_map, timeout_policy, ip_set_alloc_words;
      cbn; rewrite ?length_replicate; repeat split; lia.
Qed.

Lemma create_outcome_witness :
  exists set : ip_set,
    bitmap_port_create (ops := spec_timeout_ops) 8 (fun a b => (b - a) / 8 + 1)
      (Some (mk_create_attrs (Some (mk_nlattr true 1010))
               (Some (mk_nlattr true 1000)) (Some (mk_nlattr true 5))))
      true true
    = Created set
    /\ wf_set set
    /\ data_first_port (data set) = Z.min 1010 1000
    /\ data_last_port (data set) = Z.max 1010 1000
    /\ timeout_policy set = Some 5.
Proof.
  refine (proj2 (proj1 (proj2 (proj2 (create_outcome (ops := spec_timeout_ops)
             8 (fun a b => (b - a) / 8 + 1)
             (mk_create_attrs (Some (mk_nlattr true 1010))
                (Some (mk_nlattr true 1000)) (Some (mk_nlattr true 5)))
             true true))) _) _).
  - reflexivity.
  - reflexivity.
Defined.

(** ** Comparison of descriptors as a relation *)

(** X18.  The comparison of two descriptors relates every set to itself,
    is symmetric between two sets of the same variant, and is transitive
    wherever it answers. *)
Theorem same_set_equivalence (a b c : ip_set) :
  same_set a a = Some true
  /\ (same_variant a b -> same_set a b = same_set b a)
  /\ (same_set a b = Some true -> same_set b c = Some true ->
      same_set a c = Some true).
Proof.
  destruct a as [[ma | ma]], b as [[mb | mb]], c as [[mc | mc]];
    unfold same_set, bitmap_port_same_set, bitmap_port_timeout_same_set,
      same_variant; cbn;
    (split_and!;
     [by rewrite !Z.eqb_refl
     | try done; intros _;
       by rewrite ?(Z.eqb_sym (first_port ma)), ?(Z.eqb_sym (last_port ma)),
         ?(Z.eqb_sym (tfirst_port ma)), ?(Z.eqb_sym (tlast_port ma)),
         ?(Z.eqb_sym (timeout ma))
     | try done; intros [= Hab] [= Hbc]; f_equal;
       repeat (apply andb_true_iff in Hab as [Hab ?]);
       repeat (apply andb_true_iff in Hbc as [Hbc ?]);
       repeat (apply andb_true_iff; split); lia ]).
Qed.

Lemma same_set_equivalence_witness :
  same_set plain_set_1000_1010 timed_set_1000_1010 = Some true.
Proof.
  refine (proj2 (proj2 (same_set_equivalence plain_set_1000_1010
                          plain_set_1000_1010 timed_set_1000_1010)) _ _).
  - reflexivity.
  - reflexivity.
Defined.

(** ** A first member that does not fit *)

Lemma nla_put_short (skb : sk_buff) (item : nlitem) (payload : Z) :
  skb_tailroom skb < nla_total_size payload ->
  nla_put skb item payload = None.
Proof.
  intros H. unfold nla_put.
  by destruct (Z.ltb_spec (skb_tailroom skb) (nla_total_size payload));
    [| lia].
Qed.

(** X19.  When the slot under the cursor tests present and the buffer is
    short, a listing call on a plain set makes no progress and leaves the
    cursor where it was, but reports it in two ways: with room for less
    than the two nest headers it fails with -EFAULT and leaves the buffer
    as it was; with room for the two headers but not for the port
    attribute it returns 0 with an empty list.  From cursor 0 the second
    case cannot be told from a finished listing of an empty set. *)
Theorem list_first_member_cut (map : bitmap_port) (skb : sk_buff)
    (cursor : Z) :
  wf_map map -> 0 <= cursor <= last_port map - first_port map ->
  test_bit cursor (members map) = true ->
  let r := bitmap_port_list map skb cursor in
  (skb_tailroom skb < 8 -> r = (Neg EFAULT, skb, cursor))
  /\ (8 <= skb_tailroom skb < 16 ->
      r = (Ret 0,
           mk_sk_buff (skb_data skb ++ [NestStart IPSET_ATTR_ADT; NestEnd])
                      (skb_tailroom skb - 4),
           cursor)).
Proof.
  intros (H0 & H1 & H2) Hc Hbit. cbv zeta.
  unfold bitmap_port_list, ipset_nest_start.
  rewrite (u16_id cursor), (u16_id (last_port map - first_port map)) by lia.
  unfold iterations.
  destruct (Z.to_nat (last_port map - first_port map + 1 - cursor))
    as [| n] eqn:Hn; [lia |].
  split; intros Hroom.
  - destruct (Z.lt_ge_cases (skb_tailroom skb) 4) as [Hlt | Hge].
    { by rewrite nla_put_short by (change (nla_total_size 0) with 4; lia). }
    rewrite nla_put_room by (change (nla_total_size 0) with 4; lia).
    cbn [bitmap_port_list_for]. rewrite (u16_id cursor) by lia.
    rewrite Hbit. cbn [negb]. unfold ipset_nest_start.
    rewrite nla_put_short
      by (change (nla_total_size 0) with 4; cbn [skb_tailroom]; lia).
    by rewrite Z.eqb_refl.
  - rewrite nla_put_room by (change (nla_total_size 0) with 4; lia).
    cbn [bitmap_port_list_for]. rewrite (u16_id cursor) by lia.
    rewrite Hbit. cbn [negb]. unfold ipset_nest_start, nla_put_net16.
    rewrite nla_put_room
      by (change (nla_total_size 0) with 4; cbn [skb_tailroom]; lia).
    rewrite nla_put_short
      by (change (nla_total_size 0) with 4;
          change (nla_total_size 2) with 8; cbn [skb_tailroom]; lia).
    change (nla_total_size 0) with 4.
    unfold ipset_nest_end, nla_nest_cancel. cbn [skb_data skb_tailroom].
    by rewrite <- app_assoc.
Qed.

Lemma list_first_member_cut_witness :
  bitmap_port_list map_1000_1010 (mk_sk_buff [] 12) 2
  = (Ret 0, mk_sk_buff [NestStart IPSET_ATTR_ADT; NestEnd] 8, 2).
Proof.
  refine (proj2 (list_first_member_cut map_1000_1010 (mk_sk_buff [] 12) 2
                   _ _ _) _).
  - unfold wf_map. simpl. lia.
  - simpl. lia.
  - reflexivity.
  - simpl. lia.
Defined.

(** ** Conflicts in a range request on a timed set *)

Lemma timed_adt_ret {ops : timeout_ops} (jiffies : Z) (adt : ipset_adt)
    (t : Z) (m : bitmap_port_timeout) (id : Z) :
  (bitmap_port_timeout_adt jiffies adt t m id).1 = Ret 0
  <-> ip_set_timeout_test jiffies (slot m id)
      = negb (bool_decide (adt = IPSET_ADD)).
Proof.
  unfold bitmap_port_timeout_adt, bitmap_port_timeout_add,
    bitmap_port_timeout_del, bitmap_port_timeout_test.
  destruct (bool_decide (adt = IPSET_ADD));
    destruct (ip_set_timeout_test jiffies (slot m id)); cbn; split; done.
Qed.

Lemma timed_loop_conflict {ops : timeout_ops} (jiffies : Z)
    (adt : ipset_adt) (t first flags : Z) (n : nat) :
  ip_set_eexist (Neg IPSET_ERR_EXIST) flags = false ->
  forall (port : Z) (map : bitmap_port_timeout),
    first <= port -> port + Z.of_nat n - 1 - first <= 65535 ->
    (Z.to_nat (port - first) + n <= length (tmembers map))%nat ->
    let r := uadt_for (bitmap_port_timeout_adt jiffies adt t) first flags
               n port map in
    (r.1 = Ret 0
     <-> forall j, port - first <= j < port - first + Z.of_nat n ->
           ip_set_timeout_test jiffies (slot map j)
           = negb (bool_decide (adt = IPSET_ADD)))
    /\ (r.1 = Ret 0 \/ r.1 = Neg IPSET_ERR_EXIST).
Proof.
  intros Hflag.
  induction n as [| n IH]; intros port map Hfirst Hmax Hlen; cbv zeta.
  { cbn [uadt_for fst]. split; [| by left].
    split; [intros _ j Hj; lia | done]. }
  rewrite uadt_for_step.
  assert (Hid : u16 (port - first) = port - first) by (apply u16_id; lia).
  rewrite Hid.
  destruct (timed_adt_slots jiffies adt t map (port - first)
              ltac:(lia) ltac:(lia)) as (_ & Hframe & Hlen').
  pose proof (timed_adt_ret jiffies adt t map (port - first)) as Hok.
  pose proof (timeout_op_ret jiffies adt t map (port - first)) as Hres.
  specialize (IH (port + 1)
                (bitmap_port_timeout_adt jiffies adt t map (port - first)).2
                ltac:(lia) ltac:(lia) ltac:(rewrite Hlen'; lia)).
  cbv zeta in IH. destruct IH as (IHiff & IHres).
  destruct (fatal flags
              (bitmap_port_timeout_adt jiffies adt t map (port - first)).1)
    eqn:Hf.
  - assert (Hnz : (bitmap_port_timeout_adt jiffies adt t map
                     (port - first)).1 <> Ret 0).
    { intros Heq. rewrite Heq in Hf. discriminate. }
    split; [| by destruct Hres; auto].
    split; [done |]. intros Hall.
    destruct Hnz. apply Hok, Hall. lia.
  - split; [| done].
    assert (Hz : (bitmap_port_timeout_adt jiffies adt t map
                    (port - first)).1 = Ret 0).
    { destruct Hres as [H | H]; [done |].
      rewrite H in Hf. unfold fatal in Hf. rewrite Hflag in Hf.
      discriminate. }
    rewrite IHiff. split.
    + intros Hall j Hj.
      destruct (decide (j = port - first)) as [-> | Hne]; [by apply Hok |].
      rewrite <- Hframe by lia. apply Hall. lia.
    + intros Hall j Hj. rewrite Hframe by lia. apply Hall. lia.
Qed.

(** X20.  When the caller does not ask that AlreadyExists be passed over,
    a range add on a timed set whose ends are within the bounds returns 0
    exactly when no port of the range tested present before, and a range
    delete exactly when every port of the range tested present; in every
    other case the request returns -IPSET_ERR_EXIST.  This holds whatever
    the header makes of its helpers. *)
Theorem timed_range_conflict {ops : timeout_ops} (jiffies : Z)
    (map : bitmap_port_timeout) (tb : adt_attrs)
    (adt : ipset_adt) (lineno flags lo hi : Z) :
  wf_tmap map ->
  tfirst_port map <= lo -> lo <= hi -> hi <= tlast_port map ->
  range_request tb lo hi -> adt <> IPSET_TEST ->
  ip_set_eexist (Neg IPSET_ERR_EXIST) flags = false ->
  let r := (bitmap_port_timeout_uadt jiffies map (Some tb) adt
              lineno flags).1 in
  (r.1 = Ret 0
   <-> forall q, lo <= q <= hi ->
         (bitmap_port_timeout_kadt jiffies map (Some q) IPSET_TEST).1
         = Ret (Z.b2z (negb (bool_decide (adt = IPSET_ADD)))))
  /\ (r.1 = Ret 0 \/ r.1 = Neg IPSET_ERR_EXIST).
Proof.
  intros Hwf Hlo Hle Hhi Hreq Hadt Hflag. cbv zeta.
  pose proof Hwf as (H0 & H1 & H2 & Hlen).
  rewrite (timeout_uadt_range jiffies map tb adt lineno flags lo hi)
    by (done || lia).
  rewrite Z.min_l, Z.max_r by lia.
  rewrite range_check_false' by lia. cbn [fst].
  destruct (timed_loop_conflict jiffies adt
              match ATTR_TIMEOUT tb with
              | Some a => ip_set_timeout_uget a
              | None => timeout map
              end
              (tfirst_port map) flags (iterations lo hi) Hflag lo map
              ltac:(lia) ltac:(unfold iterations; lia)
              ltac:(unfold iterations; lia)) as [Hzero Hres].
  split; [| done]. rewrite Hzero. split.
  - intros Hall q Hq. rewrite timeout_kadt_in_range by (done || lia).
    cbn [fst]. apply b2z_ret_inj. unfold bitmap_port_timeout_test.
    apply Hall. unfold iterations. lia.
  - intros Hall j Hj. unfold iterations in Hj.
    specialize (Hall (j + tfirst_port map) ltac:(lia)).
    rewrite timeout_kadt_in_range in Hall by (done || lia).
    cbn [fst] in Hall. apply b2z_ret_inj in Hall.
    unfold bitmap_port_timeout_test in Hall.
    by replace (j + tfirst_port map - tfirst_port map) with j in Hall by lia.
Qed.

Lemma timed_range_conflict_witness :
  (bitmap_port_timeout_uadt (ops := spec_timeout_ops) 10 tmap_1000_1010
     (Some (range 1001 1003)) IPSET_ADD 0 0).1.1 = Ret 0
  \/ (bitmap_port_timeout_uadt (ops := spec_timeout_ops) 10 tmap_1000_1010
        (Some (range 1001 1003)) IPSET_ADD 0 0).1.1 = Neg IPSET_ERR_EXIST.
Proof.
  refine (proj2 (timed_range_conflict (ops := spec_timeout_ops) 10
                   tmap_1000_1010 (range 1001 1003) IPSET_ADD 0 0
                   1001 1003 _ _ _ _ _ _ _)).
  - unfold wf_tmap. simpl. lia.
  - simpl. lia.
  - lia.
  - simpl. lia.
  - repeat split.
  - discriminate.
  - reflexivity.
Defined.

(** ** Listing a timed set with a buffer that may run out *)

Lemma bitmap_port_timeout_list_for_any {ops : timeout_ops} (jiffies : Z)
    (map : bitmap_port_timeout) (first : Z) (adt : sk_buff) (n : nat) :
  forall (skb : sk_buff) (cursor : Z),
    0 <= tfirst_port map -> 0 <= cursor ->
    tfirst_port map + cursor + Z.of_nat n - 1 <= 65535 ->
    let r := bitmap_port_timeout_list_for jiffies map first adt n skb
               cursor in
    exists k : nat,
      (k <= n)%nat
      /\ let written :=
           skb_data skb
           ++ flat_map (timeout_entry jiffies map)
                (filter (fun p => bitmap_port_timeout_test jiffies map
                                    (p - tfirst_port map) = true)
                        (seqZ (tfirst_port map + cursor) (Z.of_nat k)))
           ++ [NestEnd] in
         (k = n -> r.1.1 = Ret 0 /\ r.2 = 0 /\ skb_data r.1.2 = written)
         /\ ((k < n)%nat ->
             bitmap_port_timeout_test jiffies map (cursor + Z.of_nat k)
             = true
             /\ r.2 = cursor + Z.of_nat k
             /\ ((r.1.1 = Ret 0 /\ skb_data r.1.2 = written)
                 \/ (cursor + Z.of_nat k = first
                     /\ r.1.1 = Neg EFAULT /\ r.1.2 = adt))).
Proof.
  induction n as [| n IH]; intros skb cursor Hfp Hc Hmax; cbv zeta.
  { exists 0%nat. split; [done |]. split; [| lia].
    intros _. by repeat split. }
  cbn [bitmap_port_timeout_list_for]. rewrite (u16_id cursor) by lia.
  assert (Hid : tfirst_port map + cursor - tfirst_port map = cursor) by lia.
  destruct (bitmap_port_timeout_test jiffies map cursor) eqn:Htest;
    cbn [negb].
  - unfold ipset_nest_start.
    destruct (nla_put_full skb (NestStart IPSET_ATTR_DATA) 0) as [-> | ->].
    { exists 0%nat. split; [lia |]. split; [lia |]. intros _.
      rewrite Z.add_0_r. split; [done |].
      destruct (Z.eqb_spec cursor first) as [-> | Hne]; cbn.
      - split; [done |]. by right.
      - split; [done |]. by left. }
    unfold nla_put_net16.
    destruct (nla_put_full
                (mk_sk_buff (skb_data skb ++ [NestStart IPSET_ATTR_DATA])
                            (skb_tailroom skb - nla_total_size 0))
                (Net16 IPSET_ATTR_PORT (u16 (tfirst_port map + cursor))) 2)
      as [-> | ->].
    { exists 0%nat. split; [lia |]. split; [lia |]. intros _.
      rewrite Z.add_0_r. split; [done |]. cbn. split; [done |].
      by left. }
    rewrite (u16_id (tfirst_port map + cursor)) by lia.
    cbn [skb_data skb_tailroom]. unfold nla_put_net32.
    destruct (nla_put_full
                (mk_sk_buff
                   ((skb_data skb ++ [NestStart IPSET_ATTR_DATA])
                    ++ [Net16 IPSET_ATTR_PORT (tfirst_port map + cursor)])
                   (skb_tailroom skb - nla_total_size 0 - nla_total_size 2))
                (Net32 IPSET_ATTR_TIMEOUT
                   (u32 (ip_set_timeout_get jiffies (slot map cursor)))) 4)
      as [-> | ->].
    { exists 0%nat. split; [lia |]. split; [lia |]. intros _.
      rewrite Z.add_0_r. split; [done |]. cbn. split; [done |].
      by left. }
    cbn [skb_data skb_tailroom].
    destruct (IH (ipset_nest_end
                    (mk_sk_buff
                       (((skb_data skb ++ [NestStart IPSET_ATTR_DATA])
                         ++ [Net16 IPSET_ATTR_PORT
                               (tfirst_port map + cursor)])
                        ++ [Net32 IPSET_ATTR_TIMEOUT
                              (u32 (ip_set_timeout_get jiffies
                                      (slot map cursor)))])
                       (skb_tailroom skb - nla_total_size 0
                        - nla_total_size 2 - nla_total_size 4)))
                 (cursor + 1) Hfp ltac:(lia) ltac:(lia))
      as (k & Hk & Hdone & Hmore).
    exists (S k). split; [lia |].
    rewrite seqZ_cons by lia.
    replace (Z.pred (Z.of_nat (S k))) with (Z.of_nat k) by lia.
    replace (Z.succ (tfirst_port map + cursor))
      with (tfirst_port map + (cursor + 1)) by lia.
    rewrite filter_cons_True by (by rewrite Hid).
    replace (cursor + Z.of_nat (S k)) with (cursor + 1 + Z.of_nat k) by lia.
    assert (Hentry : timeout_entry jiffies map (tfirst_port map + cursor)
                     = [NestStart IPSET_ATTR_DATA;
                        Net16 IPSET_ATTR_PORT (tfirst_port map + cursor);
                        Net32 IPSET_ATTR_TIMEOUT
                              (u32 (ip_set_timeout_get jiffies
                                      (slot map cursor)));
                        NestEnd])
      by (unfold timeout_entry; by rewrite Hid).
    cbn [ipset_nest_end skb_data flat_map] in *. rewrite Hentry.
    rewrite <- !app_assoc in *. cbn [app] in *.
    split.
    + intros Hkn. apply Hdone. lia.
    + intros Hkn. apply Hmore. lia.
  - destruct (IH skb (cursor + 1) Hfp ltac:(lia) ltac:(lia))
      as (k & Hk & Hdone & Hmore).
    exists (S k). split; [lia |].
    rewrite seqZ_cons by lia.
    replace (Z.pred (Z.of_nat (S k))) with (Z.of_nat k) by lia.
    replace (Z.succ (tfirst_port map + cursor))
      with (tfirst_port map + (cursor + 1)) by lia.
    rewrite filter_cons_False by (by rewrite Hid, Htest).
    replace (cursor + Z.of_nat (S k)) with (cursor + 1 + Z.of_nat k) by lia.
    split.
    + intros Hkn. apply Hdone. lia.
    + intros Hkn. apply Hmore. lia.
Qed.

Lemma listed_ports_timeout_message {ops : timeout_ops} (jiffies : Z)
    (map : bitmap_port_timeout) (items : list nlitem) (ps : list Z) :
  listed_ports ((items ++ [NestStart IPSET_ATTR_ADT])
                ++ flat_map (timeout_entry jiffies map) ps ++ [NestEnd])
  = listed_ports items ++ ps.
Proof.
  rewrite !listed_ports_app, listed_timeout_entries. cbn.
  by rewrite !app_nil_r.
Qed.

(** X21.  One call of the listing on a timed set, from any cursor within
    the range and whatever the room in the buffer and the header's
    helpers, either fails with -EFAULT and leaves buffer and cursor as
    they were, or returns 0 having listed, whole and in increasing order,
    exactly the ports that test present from the port of the cursor up to
    the port where it stopped: the end of the range, with the cursor
    zeroed, or a port that tests present and did not fit, with the cursor
    left on it. *)
Theorem timed_list_call_outcome {ops : timeout_ops} (jiffies : Z)
    (map : bitmap_port_timeout) (skb : sk_buff) (cursor : Z) :
  wf_tmap map -> 0 <= cursor <= tlast_port map - tfirst_port map ->
  let r := bitmap_port_timeout_list jiffies map skb cursor in
  (r = (Neg EFAULT, skb, cursor))
  \/ (r.1.1 = Ret 0
      /\ exists stop : Z,
           tfirst_port map + cursor <= stop <= tlast_port map + 1
           /\ listed_ports (skb_data r.1.2)
              = listed_ports (skb_data skb)
                ++ filter (fun p => bitmap_port_timeout_test jiffies map
                                      (p - tfirst_port map) = true)
                          (ports (tfirst_port map + cursor) (stop - 1))
           /\ (stop = tlast_port map + 1 -> r.2 = 0)
           /\ (stop <= tlast_port map ->
               r.2 = stop - tfirst_port map
               /\ bitmap_port_timeout_test jiffies map
                    (stop - tfirst_port map) = true)).
Proof.
  intros (H0 & H1 & H2 & Hlen) Hc. cbv zeta.
  unfold bitmap_port_timeout_list, ipset_nest_start.
  destruct (nla_put_full skb (NestStart IPSET_ATTR_ADT) 0) as [-> | ->];
    [by left |].
  rewrite (u16_id cursor), (u16_id (tlast_port map - tfirst_port map))
    by lia.
  destruct (bitmap_port_timeout_list_for_any jiffies map cursor skb
              (iterations cursor (tlast_port map - tfirst_port map))
              (mk_sk_buff (skb_data skb ++ [NestStart IPSET_ATTR_ADT])
                          (skb_tailroom skb - nla_total_size 0))
              cursor ltac:(lia) ltac:(lia)
              ltac:(unfold iterations; lia))
    as (k & Hk & Hdone & Hmore).
  cbn [skb_data] in *. unfold iterations in *.
  assert (Hports : ports (tfirst_port map + cursor)
                     (tfirst_port map + cursor + Z.of_nat k - 1)
                   = seqZ (tfirst_port map + cursor) (Z.of_nat k)).
  { unfold ports. f_equal. lia. }
  destruct (decide (k = Z.to_nat (tlast_port map - tfirst_port map + 1
                                  - cursor))) as [Hkn | Hkn].
  - destruct (Hdone Hkn) as (Hret & Hcur & Hdata). right.
    split; [done |]. exists (tfirst_port map + cursor + Z.of_nat k).
    split; [lia |]. rewrite Hports, Hdata, listed_ports_timeout_message.
    split; [done |]. split; [done | lia].
  - destruct (Hmore ltac:(lia))
      as (Htest & Hcur & [[Hret Hdata] | Hfault]).
    + right. split; [done |]. exists (tfirst_port map + cursor + Z.of_nat k).
      split; [lia |]. rewrite Hports, Hdata, listed_ports_timeout_message.
      split; [done |]. split; [lia |]. intros _. split; [lia |].
      by replace (tfirst_port map + cursor + Z.of_nat k - tfirst_port map)
        with (cursor + Z.of_nat k) by lia.
    + left. destruct Hfault as (Hk0 & Hret & Hskb).
      destruct (bitmap_port_timeout_list_for _ _ _ _ _ _ _)
        as [[ret skb'] cur].
      cbn [fst snd] in *. subst. f_equal. lia.
Qed.

Lemma timed_list_call_outcome_witness :
  bitmap_port_timeout_list (ops := spec_timeout_ops) 10 tmap_1000_1010
    (mk_sk_buff [] 3) 0
  = (Neg EFAULT, mk_sk_buff [] 3, 0)
  \/ (bitmap_port_timeout_list (ops := spec_timeout_ops) 10 tmap_1000_1010
        (mk_sk_buff [] 3) 0).1.1 = Ret 0
     /\ exists stop : Z,
          1000 + 0 <= stop <= 1010 + 1
          /\ listed_ports
               (skb_data
                  (bitmap_port_timeout_list (ops := spec_timeout_ops) 10
                     tmap_1000_1010 (mk_sk_buff [] 3) 0).1.2)
             = listed_ports []
               ++ filter (fun p =>
                            bitmap_port_timeout_test
                              (ops := spec_timeout_ops) 10 tmap_1000_1010
                              (p - 1000) = true)
                         (ports (1000 + 0) (stop - 1))
          /\ (stop = 1010 + 1 ->
              (bitmap_port_timeout_list (ops := spec_timeout_ops) 10
                 tmap_1000_1010 (mk_sk_buff [] 3) 0).2 = 0)
          /\ (stop <= 1010 ->
              (bitmap_port_timeout_list (ops := spec_timeout_ops) 10
                 tmap_1000_1010 (mk_sk_buff [] 3) 0).2 = stop - 1000
              /\ bitmap_port_timeout_test (ops := spec_timeout_ops) 10
                   tmap_1000_1010 (stop - 1000) = true).
Proof.
  refine (timed_list_call_outcome (ops := spec_timeout_ops) 10
            tmap_1000_1010 (mk_sk_buff [] 3) 0 _ _).
  - unfold wf_tmap. simpl. lia.
  - simpl. lia.
Defined.
